(** * OpenHantek: wire frames of the bulk protocol and the USB session

    A shallow embedding of [hantekprotocol/bulkStructs.cpp] (the command and
    response frames sent over the bulk endpoints), of [usb/usbdevice.cpp]
    (the session that carries them) and of the CSV writer of
    [exporter.cpp], with the properties of the specification and further
    properties of the code stated over it.

    Conventions.  A [uint8_t], [uint16_t], [uint32_t] or [int] value is a
    [Z] inside the range of its type; a cast is the reduction into that
    range.  A [DataArray<uint8_t>] is a [list Z] of bytes, read with [!!!]
    and written with [<[i:=v]>].  The libusb calls are answered by a
    [Device], a deterministic function of the calls seen so far. *)

From Stdlib Require Import ZArith Lia Bool.
From stdpp Require Import base list.

Local Open Scope Z_scope.

(** ** Integer types of the C++ source *)

Module CInt.

(** The casts [(uint8_t)x], [(uint16_t)x], [(uint32_t)x]. *)
Definition uint8_t (x : Z) : Z := x mod 2 ^ 8.
Definition uint16_t (x : Z) : Z := x mod 2 ^ 16.
Definition uint32_t (x : Z) : Z := x mod 2 ^ 32.

(** Conversion of an [unsigned int] to [int] (two's complement). *)
Definition int (x : Z) : Z := (x + 2 ^ 31) mod 2 ^ 32 - 2 ^ 31.

Definition INT_MAX : Z := 2 ^ 31 - 1.

(** [x >> n] and [x << n] on values that do not overflow. *)
Definition shr (x n : Z) : Z := Z.shiftr x n.
Definition shl (x n : Z) : Z := Z.shiftl x n.

End CInt.

(** ** Bit-fields ([definitions.h])

    The structures [FilterBits], [Tsr1Bits], ... that the frames overlay on
    one byte of the array are declared in [definitions.h], which is not among
    the sources at hand.  Their members are therefore parameters: a member is
    a run of [bf_width] bits starting at bit [bf_shift] of the byte. *)

Record Bitfield : Type := mkBitfield { bf_shift : Z; bf_width : Z }.

(** Reading member [f] of the structure overlaid on [byte]. *)
Definition bf_get (f : Bitfield) (byte : Z) : Z :=
  Z.land (Z.shiftr byte (bf_shift f)) (Z.ones (bf_width f)).

(** Assigning [value] to member [f]: the value is truncated to the width
    of the member, the other bits of the byte are kept. *)
Definition bf_set (f : Bitfield) (value byte : Z) : Z :=
  Z.lor (Z.land byte (Z.lnot (Z.shiftl (Z.ones (bf_width f)) (bf_shift f))))
        (Z.shiftl (Z.land value (Z.ones (bf_width f))) (bf_shift f)).

(** A member lies inside its byte. *)
Definition bf_ok (f : Bitfield) : bool :=
  (0 <=? bf_shift f) && (0 <? bf_width f) && (bf_shift f + bf_width f <=? 8).

(** The values a member can hold. *)
Definition bf_range (f : Bitfield) : Z := 2 ^ bf_width f.

Class BitLayout : Type := {
  FilterBits_channel1 : Bitfield;
  FilterBits_channel2 : Bitfield;
  FilterBits_trigger : Bitfield;
  Tsr1Bits_triggerSource : Bitfield;
  Tsr1Bits_recordLength : Bitfield;
  Tsr1Bits_samplerateId : Bitfield;
  Tsr1Bits_downsamplingMode : Bitfield;
  Tsr2Bits_usedChannels : Bitfield;
  Tsr2Bits_fastRate : Bitfield;
  Tsr2Bits_triggerSlope : Bitfield;
  GainBits_channel1 : Bitfield;
  GainBits_channel2 : Bitfield;
  CTriggerBits_triggerSource : Bitfield;
  CTriggerBits_triggerSlope : Bitfield;
  DBufferBits_triggerPositionUsed : Bitfield;
  DBufferBits_recordLength : Bitfield;
  ESamplerateBits_fastRate : Bitfield;
  ESamplerateBits_downsampling : Bitfield;
  ETsrBits_fastRate : Bitfield;
  ETsrBits_usedChannels : Bitfield;
  ETsrBits_triggerSource : Bitfield;
  ETsrBits_triggerSlope : Bitfield;
  ETsrBits_triggerPulse : Bitfield
}.

Definition layout_members (L : BitLayout) : list Bitfield :=
  [ FilterBits_channel1; FilterBits_channel2; FilterBits_trigger;
    Tsr1Bits_triggerSource; Tsr1Bits_recordLength; Tsr1Bits_samplerateId;
    Tsr1Bits_downsamplingMode;
    Tsr2Bits_usedChannels; Tsr2Bits_fastRate; Tsr2Bits_triggerSlope;
    GainBits_channel1; GainBits_channel2;
    CTriggerBits_triggerSource; CTriggerBits_triggerSlope;
    DBufferBits_triggerPositionUsed; DBufferBits_recordLength;
    ESamplerateBits_fastRate; ESamplerateBits_downsampling;
    ETsrBits_fastRate; ETsrBits_usedChannels; ETsrBits_triggerSource;
    ETsrBits_triggerSlope; ETsrBits_triggerPulse ].

(** Every member of every structure lies inside one byte. *)
Definition layout_ok (L : BitLayout) : bool := forallb bf_ok (layout_members L).

(** One layout that satisfies [layout_ok].  The three flags of
    [FilterBits] sit where the example of the specification has them (bits
    0, 1 and 2 of the byte); the other positions and widths are a choice.
    The layout only serves to instantiate the theorems, which hold for every
    layout. *)
Definition sample_layout : BitLayout := {|
  FilterBits_channel1 := mkBitfield 0 1;
  FilterBits_channel2 := mkBitfield 1 1;
  FilterBits_trigger := mkBitfield 2 1;
  Tsr1Bits_triggerSource := mkBitfield 0 2;
  Tsr1Bits_recordLength := mkBitfield 2 3;
  Tsr1Bits_samplerateId := mkBitfield 5 2;
  Tsr1Bits_downsamplingMode := mkBitfield 7 1;
  Tsr2Bits_usedChannels := mkBitfield 0 2;
  Tsr2Bits_fastRate := mkBitfield 2 1;
  Tsr2Bits_triggerSlope := mkBitfield 3 1;
  GainBits_channel1 := mkBitfield 0 2;
  GainBits_channel2 := mkBitfield 2 2;
  CTriggerBits_triggerSource := mkBitfield 0 2;
  CTriggerBits_triggerSlope := mkBitfield 2 1;
  DBufferBits_triggerPositionUsed := mkBitfield 0 3;
  DBufferBits_recordLength := mkBitfield 3 3;
  ESamplerateBits_fastRate := mkBitfield 0 1;
  ESamplerateBits_downsampling := mkBitfield 1 1;
  ETsrBits_fastRate := mkBitfield 0 1;
  ETsrBits_usedChannels := mkBitfield 1 2;
  ETsrBits_triggerSource := mkBitfield 3 2;
  ETsrBits_triggerSlope := mkBitfield 5 2;
  ETsrBits_triggerPulse := mkBitfield 7 1
|}.

(** ** [DataArray<uint8_t>] ([utils/dataarray.h]) *)

Module DataArray.

(** Modelled from the spec: [utils/dataarray.h] is not among the sources;
    the specification describes the container as "construction with
    zero-filled storage of size N; raw pointer/slice access; size query". *)
Definition new (size : nat) : list Z := replicate size 0.

Definition getSize (array : list Z) : nat := length array.

(** A bit-field member of the structure overlaid on [array[i]]. *)
Definition getBits (f : Bitfield) (i : nat) (array : list Z) : Z :=
  bf_get f (array !!! i).

Definition setBits (f : Bitfield) (i : nat) (value : Z) (array : list Z) : list Z :=
  <[i := bf_set f value (array !!! i)]> array.

(** Every element is a byte. *)
Definition bytes (array : list Z) : Prop := Forall (fun b => 0 <= b < 256) array.

End DataArray.

(** ** Bulk command codes ([bulkcode.h]) *)

Module BulkCode.
Definition BULK_SETFILTER : Z := 0.
Definition BULK_SETTRIGGERANDSAMPLERATE : Z := 1.
Definition BULK_FORCETRIGGER : Z := 2.
Definition BULK_STARTSAMPLING : Z := 3.
Definition BULK_ENABLETRIGGER : Z := 4.
Definition BULK_GETDATA : Z := 5.
Definition BULK_GETCAPTURESTATE : Z := 6.
Definition BULK_SETGAIN : Z := 7.
Definition BULK_SETLOGICALDATA : Z := 8.
Definition BULK_GETLOGICALDATA : Z := 9.
Definition BULK_AUNKNOWN : Z := 10.
Definition BULK_BSETCHANNELS : Z := 11.
Definition BULK_CSETTRIGGERORSAMPLERATE : Z := 12.
Definition BULK_DSETBUFFER : Z := 13.
Definition BULK_ESETTRIGGERORSAMPLERATE : Z := 14.
Definition BULK_FSETBUFFER : Z := 15.
Definition BULK_COUNT : Z := 16.
End BulkCode.

Import CInt BulkCode.

(** C++ [cond ? 1 : 0] and [x == 1]. *)
Definition bit_of_bool (b : bool) : Z := if b then 1 else 0.

(** ** The frames ([bulkStructs.cpp]) *)

Module BulkSetFilter.
Section WithLayout.
Context {L : BitLayout}.

Definition init (array : list Z) : list Z :=
  <[1%nat := 0x0f]> (<[0%nat := BULK_SETFILTER]> array).

Definition getChannel (channel : Z) (array : list Z) : bool :=
  if channel =? 0 then DataArray.getBits FilterBits_channel1 2 array =? 1
  else DataArray.getBits FilterBits_channel2 2 array =? 1.

Definition setChannel (channel : Z) (filtered : bool) (array : list Z) : list Z :=
  if channel =? 0 then DataArray.setBits FilterBits_channel1 2 (bit_of_bool filtered) array
  else DataArray.setBits FilterBits_channel2 2 (bit_of_bool filtered) array.

Definition getTrigger (array : list Z) : bool :=
  DataArray.getBits FilterBits_trigger 2 array =? 1.

Definition setTrigger (filtered : bool) (array : list Z) : list Z :=
  DataArray.setBits FilterBits_trigger 2 (bit_of_bool filtered) array.

Definition BulkSetFilter0 : list Z := init (DataArray.new 8).

Definition BulkSetFilter3 (channel1 channel2 trigger : bool) : list Z :=
  setTrigger trigger (setChannel 1 channel2 (setChannel 0 channel1 (init (DataArray.new 8)))).

End WithLayout.
End BulkSetFilter.

Module BulkSetTriggerAndSamplerate.
Section WithLayout.
Context {L : BitLayout}.

Definition init (array : list Z) : list Z :=
  <[0%nat := BULK_SETTRIGGERANDSAMPLERATE]> array.

Definition getTriggerSource (array : list Z) : Z :=
  DataArray.getBits Tsr1Bits_triggerSource 2 array.
Definition setTriggerSource (value : Z) (array : list Z) : list Z :=
  DataArray.setBits Tsr1Bits_triggerSource 2 value array.

Definition getRecordLength (array : list Z) : Z :=
  DataArray.getBits Tsr1Bits_recordLength 2 array.
Definition setRecordLength (value : Z) (array : list Z) : list Z :=
  DataArray.setBits Tsr1Bits_recordLength 2 value array.

Definition getSamplerateId (array : list Z) : Z :=
  DataArray.getBits Tsr1Bits_samplerateId 2 array.
Definition setSamplerateId (value : Z) (array : list Z) : list Z :=
  DataArray.setBits Tsr1Bits_samplerateId 2 value array.

Definition getDownsamplingMode (array : list Z) : bool :=
  DataArray.getBits Tsr1Bits_downsamplingMode 2 array =? 1.
Definition setDownsamplingMode (downsampling : bool) (array : list Z) : list Z :=
  DataArray.setBits Tsr1Bits_downsamplingMode 2 (bit_of_bool downsampling) array.

Definition getUsedChannels (array : list Z) : Z :=
  DataArray.getBits Tsr2Bits_usedChannels 3 array.
Definition setUsedChannels (value : Z) (array : list Z) : list Z :=
  DataArray.setBits Tsr2Bits_usedChannels 3 value array.

Definition getFastRate (array : list Z) : bool :=
  DataArray.getBits Tsr2Bits_fastRate 3 array =? 1.
Definition setFastRate (fastRate : bool) (array : list Z) : list Z :=
  DataArray.setBits Tsr2Bits_fastRate 3 (bit_of_bool fastRate) array.

Definition getTriggerSlope (array : list Z) : Z :=
  DataArray.getBits Tsr2Bits_triggerSlope 3 array.
Definition setTriggerSlope (slope : Z) (array : list Z) : list Z :=
  DataArray.setBits Tsr2Bits_triggerSlope 3 slope array.

Definition getDownsampler (array : list Z) : Z :=
  uint16_t (Z.lor (uint16_t (array !!! 4%nat)) (shl (uint16_t (array !!! 5%nat)) 8)).
Definition setDownsampler (downsampler : Z) (array : list Z) : list Z :=
  <[5%nat := uint8_t (shr downsampler 8)]> (<[4%nat := uint8_t downsampler]> array).

Definition getTriggerPosition (array : list Z) : Z :=
  uint32_t (Z.lor (Z.lor (uint32_t (array !!! 6%nat)) (shl (uint32_t (array !!! 7%nat)) 8))
                  (shl (uint32_t (array !!! 10%nat)) 16)).
Definition setTriggerPosition (position : Z) (array : list Z) : list Z :=
  <[10%nat := uint8_t (shr position 16)]>
    (<[7%nat := uint8_t (shr position 8)]> (<[6%nat := uint8_t position]> array)).

Definition BulkSetTriggerAndSamplerate0 : list Z := init (DataArray.new 12).

Definition BulkSetTriggerAndSamplerate9
    (downsampler triggerPosition triggerSource recordLength samplerateId : Z)
    (downsamplingMode : bool) (usedChannels : Z) (fastRate : bool) (triggerSlope : Z)
    : list Z :=
  setTriggerPosition triggerPosition
    (setDownsampler downsampler
      (setTriggerSlope triggerSlope
        (setFastRate fastRate
          (setUsedChannels usedChannels
            (setDownsamplingMode downsamplingMode
              (setSamplerateId samplerateId
                (setRecordLength recordLength
                  (setTriggerSource triggerSource (init (DataArray.new 12)))))))))).

End WithLayout.
End BulkSetTriggerAndSamplerate.

(** The two-byte commands that carry only their code. *)
Definition BulkForceTrigger : list Z := <[0%nat := BULK_FORCETRIGGER]> (DataArray.new 2).
Definition BulkCaptureStart : list Z := <[0%nat := BULK_STARTSAMPLING]> (DataArray.new 2).
Definition BulkTriggerEnabled : list Z := <[0%nat := BULK_ENABLETRIGGER]> (DataArray.new 2).
Definition BulkGetData : list Z := <[0%nat := BULK_GETDATA]> (DataArray.new 2).
Definition BulkGetCaptureState : list Z := <[0%nat := BULK_GETCAPTURESTATE]> (DataArray.new 2).
Definition BulkGetLogicalData : list Z := <[0%nat := BULK_GETLOGICALDATA]> (DataArray.new 2).




Module BulkResponseGetCaptureState.

Definition BulkResponseGetCaptureState0 : list Z := DataArray.new 512.


Definition getTriggerPoint (array : list Z) : Z :=
    uint32_t (Z.lor (Z.lor (array !!! 2%nat) (shl (array !!! 3%nat) 8))
                    (shl (array !!! 1%nat) 16)).

End BulkResponseGetCaptureState.

Module BulkSetGain.
Section WithLayout.
Context {L : BitLayout}.

Definition init (array : list Z) : list Z := <[0%nat := BULK_SETGAIN]> array.

Definition getGain (channel : Z) (array : list Z) : Z :=
    if channel =? 0 then DataArray.getBits GainBits_channel1 2 array
    else DataArray.getBits GainBits_channel2 2 array.

Definition setGain (channel : Z) (value : Z) (array : list Z) : list Z :=
    if channel =? 0 then DataArray.setBits GainBits_channel1 2 value array
    else DataArray.setBits GainBits_channel2 2 value array.

Definition BulkSetGain0 : list Z := init (DataArray.new 8).
Definition BulkSetGain2 (channel1 channel2 : Z) : list Z :=
    setGain 1 channel2 (setGain 0 channel1 (init (DataArray.new 8))).

End WithLayout.
End BulkSetGain.

Module BulkSetLogicalData.
Definition init (array : list Z) : list Z := <[0%nat := BULK_SETLOGICALDATA]> array.
Definition getData (array : list Z) : Z := array !!! 2%nat.
Definition setData (data : Z) (array : list Z) : list Z := <[2%nat := data]> array.
Definition BulkSetLogicalData0 : list Z := init (DataArray.new 8).
Definition BulkSetLogicalData1 (data : Z) : list Z := setData data (init (DataArray.new 8)).
End BulkSetLogicalData.

Module BulkSetChannels2250.
Definition init (array : list Z) : list Z := <[0%nat := BULK_BSETCHANNELS]> array.
Definition getUsedChannels (array : list Z) : Z := array !!! 2%nat.
Definition setUsedChannels (value : Z) (array : list Z) : list Z := <[2%nat := value]> array.
Definition BulkSetChannels2250_0 : list Z := init (DataArray.new 4).
Definition BulkSetChannels2250_1 (usedChannels : Z) : list Z :=
    setUsedChannels usedChannels (init (DataArray.new 4)).
End BulkSetChannels2250.

Module BulkSetTrigger2250.
Section WithLayout.
Context {L : BitLayout}.

Definition init (array : list Z) : list Z := <[0%nat := BULK_CSETTRIGGERORSAMPLERATE]> array.

Definition getTriggerSource (array : list Z) : Z :=
    DataArray.getBits CTriggerBits_triggerSource 2 array.
Definition setTriggerSource (value : Z) (array : list Z) : list Z :=
    DataArray.setBits CTriggerBits_triggerSource 2 value array.

Definition getTriggerSlope (array : list Z) : Z :=
    DataArray.getBits CTriggerBits_triggerSlope 2 array.
Definition setTriggerSlope (slope : Z) (array : list Z) : list Z :=
    DataArray.setBits CTriggerBits_triggerSlope 2 slope array.

Definition BulkSetTrigger2250_0 : list Z := init (DataArray.new 8).
Definition BulkSetTrigger2250_2 (triggerSource triggerSlope : Z) : list Z :=
    setTriggerSlope triggerSlope (setTriggerSource triggerSource (init (DataArray.new 8))).

End WithLayout.
End BulkSetTrigger2250.

Module BulkSetSamplerate5200.
Definition init (array : list Z) : list Z := <[0%nat := BULK_CSETTRIGGERORSAMPLERATE]> array.

Definition getSamplerateFast (array : list Z) : Z := array !!! 4%nat.
Definition setSamplerateFast (value : Z) (array : list Z) : list Z := <[4%nat := value]> array.

Definition getSamplerateSlow (array : list Z) : Z :=
    uint16_t (Z.lor (uint16_t (array !!! 2%nat)) (shl (uint16_t (array !!! 3%nat)) 8)).
Definition setSamplerateSlow (samplerate : Z) (array : list Z) : list Z :=
    <[3%nat := uint8_t (shr samplerate 8)]> (<[2%nat := uint8_t samplerate]> array).

Definition BulkSetSamplerate5200_0 : list Z := init (DataArray.new 6).
Definition BulkSetSamplerate5200_2 (samplerateSlow samplerateFast : Z) : list Z :=
    setSamplerateSlow samplerateSlow (setSamplerateFast samplerateFast (init (DataArray.new 6))).
End BulkSetSamplerate5200.

Module BulkSetRecordLength2250.
Definition init (array : list Z) : list Z := <[0%nat := BULK_DSETBUFFER]> array.
Definition getRecordLength (array : list Z) : Z := array !!! 2%nat.
Definition setRecordLength (value : Z) (array : list Z) : list Z := <[2%nat := value]> array.
Definition BulkSetRecordLength2250_0 : list Z := init (DataArray.new 4).
Definition BulkSetRecordLength2250_1 (recordLength : Z) : list Z :=
    setRecordLength recordLength (init (DataArray.new 4)).
End BulkSetRecordLength2250.

Module BulkSetBuffer5200.
Section WithLayout.
Context {L : BitLayout}.

Definition init (array : list Z) : list Z :=
  <[9%nat := 0xff]> (<[5%nat := 0xff]> (<[0%nat := BULK_DSETBUFFER]> array)).

Definition getTriggerPositionPre (array : list Z) : Z :=
  uint16_t (Z.lor (uint16_t (array !!! 2%nat)) (shl (uint16_t (array !!! 3%nat)) 8)).
Definition setTriggerPositionPre (position : Z) (array : list Z) : list Z :=
  <[3%nat := uint8_t (shr position 8)]> (<[2%nat := uint8_t position]> array).

Definition getTriggerPositionPost (array : list Z) : Z :=
  uint16_t (Z.lor (uint16_t (array !!! 6%nat)) (shl (uint16_t (array !!! 7%nat)) 8)).
Definition setTriggerPositionPost (position : Z) (array : list Z) : list Z :=
  <[7%nat := uint8_t (shr position 8)]> (<[6%nat := uint8_t position]> array).

(** [DTriggerPositionUsed] is an enumeration of [definitions.h]; a value of
    it is represented by its number. *)
Definition getUsedPre (array : list Z) : Z := array !!! 4%nat.
Definition setUsedPre (value : Z) (array : list Z) : list Z :=
  <[4%nat := uint8_t value]> array.

Definition getUsedPost (array : list Z) : Z :=
  DataArray.getBits DBufferBits_triggerPositionUsed 8 array.
Definition setUsedPost (value : Z) (array : list Z) : list Z :=
  DataArray.setBits DBufferBits_triggerPositionUsed 8 (uint8_t value) array.

Definition getRecordLength (array : list Z) : Z :=
  DataArray.getBits DBufferBits_recordLength 8 array.
Definition setRecordLength (value : Z) (array : list Z) : list Z :=
  DataArray.setBits DBufferBits_recordLength 8 value array.

Definition BulkSetBuffer5200_0 : list Z := init (DataArray.new 10).

Definition BulkSetBuffer5200_5
    (triggerPositionPre triggerPositionPost usedPre usedPost recordLength : Z) : list Z :=
  setRecordLength recordLength
    (setUsedPost usedPost
      (setUsedPre usedPre
        (setTriggerPositionPost triggerPositionPost
          (setTriggerPositionPre triggerPositionPre (init (DataArray.new 10)))))).

End WithLayout.
End BulkSetBuffer5200.

Module BulkSetSamplerate2250.
Section WithLayout.
Context {L : BitLayout}.

Definition init (array : list Z) : list Z := <[0%nat := BULK_ESETTRIGGERORSAMPLERATE]> array.

Definition getFastRate (array : list Z) : bool :=
  DataArray.getBits ESamplerateBits_fastRate 2 array =? 1.
Definition setFastRate (fastRate : bool) (array : list Z) : list Z :=
  DataArray.setBits ESamplerateBits_fastRate 2 (bit_of_bool fastRate) array.

Definition getDownsampling (array : list Z) : bool :=
  DataArray.getBits ESamplerateBits_downsampling 2 array =? 1.
Definition setDownsampling (downsampling : bool) (array : list Z) : list Z :=
  DataArray.setBits ESamplerateBits_downsampling 2 (bit_of_bool downsampling) array.

Definition getSamplerate (array : list Z) : Z :=
  uint16_t (Z.lor (uint16_t (array !!! 4%nat)) (shl (uint16_t (array !!! 5%nat)) 8)).
Definition setSamplerate (samplerate : Z) (array : list Z) : list Z :=
  <[5%nat := uint8_t (shr samplerate 8)]> (<[4%nat := uint8_t samplerate]> array).

Definition BulkSetSamplerate2250_0 : list Z := init (DataArray.new 8).
Definition BulkSetSamplerate2250_3 (fastRate downsampling : bool) (samplerate : Z) : list Z :=
  setSamplerate samplerate
    (setDownsampling downsampling (setFastRate fastRate (init (DataArray.new 8)))).

End WithLayout.
End BulkSetSamplerate2250.

Module BulkSetTrigger5200.
Section WithLayout.
Context {L : BitLayout}.

Definition init (array : list Z) : list Z :=
  <[4%nat := 0x02]> (<[0%nat := BULK_ESETTRIGGERORSAMPLERATE]> array).

Definition getTriggerSource (array : list Z) : Z :=
  DataArray.getBits ETsrBits_triggerSource 2 array.
Definition setTriggerSource (value : Z) (array : list Z) : list Z :=
  DataArray.setBits ETsrBits_triggerSource 2 value array.

Definition getUsedChannels (array : list Z) : Z :=
  DataArray.getBits ETsrBits_usedChannels 2 array.
Definition setUsedChannels (value : Z) (array : list Z) : list Z :=
  DataArray.setBits ETsrBits_usedChannels 2 value array.

(** The flag is stored inverted. *)
Definition getFastRate (array : list Z) : bool :=
  DataArray.getBits ETsrBits_fastRate 2 array =? 0.
Definition setFastRate (fastRate : bool) (array : list Z) : list Z :=
  DataArray.setBits ETsrBits_fastRate 2 (if fastRate then 0 else 1) array.

Definition getTriggerSlope (array : list Z) : Z :=
  DataArray.getBits ETsrBits_triggerSlope 2 array.
Definition setTriggerSlope (slope : Z) (array : list Z) : list Z :=
  DataArray.setBits ETsrBits_triggerSlope 2 slope array.

Definition getTriggerPulse (array : list Z) : bool :=
  DataArray.getBits ETsrBits_triggerPulse 2 array =? 1.
Definition setTriggerPulse (pulse : bool) (array : list Z) : list Z :=
  DataArray.setBits ETsrBits_triggerPulse 2 (bit_of_bool pulse) array.

Definition BulkSetTrigger5200_0 : list Z := init (DataArray.new 8).

(** The constructor takes [triggerPulse] as a [uint8_t] and hands it to
    [setTriggerPulse(bool)]: any value but zero is [true]. *)
Definition BulkSetTrigger5200_5
    (triggerSource usedChannels : Z) (fastRate : bool) (triggerSlope triggerPulse : Z) : list Z :=
  setTriggerPulse (negb (triggerPulse =? 0))
    (setTriggerSlope triggerSlope
      (setFastRate fastRate
        (setUsedChannels usedChannels
          (setTriggerSource triggerSource (init (DataArray.new 8)))))).

End WithLayout.
End BulkSetTrigger5200.

Module BulkSetBuffer2250.

Definition init (array : list Z) : list Z := <[0%nat := BULK_FSETBUFFER]> array.

Definition getTriggerPositionPost (array : list Z) : Z :=
  uint32_t (Z.lor (Z.lor (uint32_t (array !!! 2%nat)) (shl (uint32_t (array !!! 3%nat)) 8))
                  (shl (uint32_t (array !!! 4%nat)) 16)).
Definition setTriggerPositionPost (position : Z) (array : list Z) : list Z :=
  <[4%nat := uint8_t (shr position 16)]>
    (<[3%nat := uint8_t (shr position 8)]> (<[2%nat := uint8_t position]> array)).

(** The two upper bytes are cast to [uint16_t], promoted to [int] and only
    then shifted, so no bit is lost. *)
Definition getTriggerPositionPre (array : list Z) : Z :=
  uint32_t (Z.lor (Z.lor (uint32_t (array !!! 6%nat)) (shl (uint16_t (array !!! 7%nat)) 8))
                  (shl (uint16_t (array !!! 8%nat)) 16)).
Definition setTriggerPositionPre (position : Z) (array : list Z) : list Z :=
  <[8%nat := uint8_t (shr position 16)]>
    (<[7%nat := uint8_t (shr position 8)]> (<[6%nat := uint8_t position]> array)).

(** The default constructor allocates 10 bytes, the other one 12. *)
Definition BulkSetBuffer2250_0 : list Z := init (DataArray.new 10).
Definition BulkSetBuffer2250_2 (triggerPositionPre triggerPositionPost : Z) : list Z :=
  setTriggerPositionPost triggerPositionPost
    (setTriggerPositionPre triggerPositionPre (init (DataArray.new 12))).

End BulkSetBuffer2250.

(** ** The fields of the frames, uniformly

    Every pair of a setter and a getter of [bulkStructs.h] is one [Field].
    [field_set] and [field_get] dispatch to the accessors above; a [bool]
    argument or result is passed as 0 or 1. *)

Inductive Field : Type :=
| Filter_channel (channel : Z)
| Filter_trigger
| TriggerAndSamplerate_triggerSource
| TriggerAndSamplerate_recordLength
| TriggerAndSamplerate_samplerateId
| TriggerAndSamplerate_downsamplingMode
| TriggerAndSamplerate_usedChannels
| TriggerAndSamplerate_fastRate
| TriggerAndSamplerate_triggerSlope
| TriggerAndSamplerate_downsampler
| TriggerAndSamplerate_triggerPosition
| Gain_gain (channel : Z)
| LogicalData_data
| Channels2250_usedChannels
| Trigger2250_triggerSource
| Trigger2250_triggerSlope
| Samplerate5200_samplerateFast
| Samplerate5200_samplerateSlow
| RecordLength2250_recordLength
| Buffer5200_triggerPositionPre
| Buffer5200_triggerPositionPost
| Buffer5200_usedPre
| Buffer5200_usedPost
| Buffer5200_recordLength
| Samplerate2250_fastRate
| Samplerate2250_downsampling
| Samplerate2250_samplerate
| Trigger5200_triggerSource
| Trigger5200_usedChannels
| Trigger5200_fastRate
| Trigger5200_triggerSlope
| Trigger5200_triggerPulse
| Buffer2250_triggerPositionPost
| Buffer2250_triggerPositionPre.

(** Conversion of an integer to [bool]. *)
Definition bool_of_int (v : Z) : bool := negb (v =? 0).

(** The length of the frame a field belongs to, as its default
    constructor allocates it. *)
Definition frame_length (f : Field) : nat :=
  match f with
  | Filter_channel _ | Filter_trigger => 8
  | TriggerAndSamplerate_triggerSource | TriggerAndSamplerate_recordLength
  | TriggerAndSamplerate_samplerateId | TriggerAndSamplerate_downsamplingMode
  | TriggerAndSamplerate_usedChannels | TriggerAndSamplerate_fastRate
  | TriggerAndSamplerate_triggerSlope | TriggerAndSamplerate_downsampler
  | TriggerAndSamplerate_triggerPosition => 12
  | Gain_gain _ => 8
  | LogicalData_data => 8
  | Channels2250_usedChannels => 4
  | Trigger2250_triggerSource | Trigger2250_triggerSlope => 8
  | Samplerate5200_samplerateFast | Samplerate5200_samplerateSlow => 6
  | RecordLength2250_recordLength => 4
  | Buffer5200_triggerPositionPre | Buffer5200_triggerPositionPost
  | Buffer5200_usedPre | Buffer5200_usedPost | Buffer5200_recordLength => 10
  | Samplerate2250_fastRate | Samplerate2250_downsampling | Samplerate2250_samplerate => 8
  | Trigger5200_triggerSource | Trigger5200_usedChannels | Trigger5200_fastRate
  | Trigger5200_triggerSlope | Trigger5200_triggerPulse => 8
  | Buffer2250_triggerPositionPost | Buffer2250_triggerPositionPre => 10
  end.

Section Fields.
Context {L : BitLayout}.

(** The declared range of a field: [0 <= v < field_range f].  A flag has
    two values, a bit-field member as many as its width allows, a byte 256,
    a 16-bit field 65536 and a 24-bit position 2^24. *)
Definition field_range (f : Field) : Z :=
  match f with
  | Filter_channel _ | Filter_trigger => 2
  | TriggerAndSamplerate_triggerSource => bf_range Tsr1Bits_triggerSource
  | TriggerAndSamplerate_recordLength => bf_range Tsr1Bits_recordLength
  | TriggerAndSamplerate_samplerateId => bf_range Tsr1Bits_samplerateId
  | TriggerAndSamplerate_downsamplingMode => 2
  | TriggerAndSamplerate_usedChannels => bf_range Tsr2Bits_usedChannels
  | TriggerAndSamplerate_fastRate => 2
  | TriggerAndSamplerate_triggerSlope => bf_range Tsr2Bits_triggerSlope
  | TriggerAndSamplerate_downsampler => 2 ^ 16
  | TriggerAndSamplerate_triggerPosition => 2 ^ 24
  | Gain_gain channel =>
      if channel =? 0 then bf_range GainBits_channel1 else bf_range GainBits_channel2
  | LogicalData_data => 2 ^ 8
  | Channels2250_usedChannels => 2 ^ 8
  | Trigger2250_triggerSource => bf_range CTriggerBits_triggerSource
  | Trigger2250_triggerSlope => bf_range CTriggerBits_triggerSlope
  | Samplerate5200_samplerateFast => 2 ^ 8
  | Samplerate5200_samplerateSlow => 2 ^ 16
  | RecordLength2250_recordLength => 2 ^ 8
  | Buffer5200_triggerPositionPre | Buffer5200_triggerPositionPost => 2 ^ 16
  | Buffer5200_usedPre => 2 ^ 8
  | Buffer5200_usedPost => bf_range DBufferBits_triggerPositionUsed
  | Buffer5200_recordLength => bf_range DBufferBits_recordLength
  | Samplerate2250_fastRate | Samplerate2250_downsampling => 2
  | Samplerate2250_samplerate => 2 ^ 16
  | Trigger5200_triggerSource => bf_range ETsrBits_triggerSource
  | Trigger5200_usedChannels => bf_range ETsrBits_usedChannels
  | Trigger5200_fastRate => 2
  | Trigger5200_triggerSlope => bf_range ETsrBits_triggerSlope
  | Trigger5200_triggerPulse => 2
  | Buffer2250_triggerPositionPost | Buffer2250_triggerPositionPre => 2 ^ 24
  end.

Definition field_set (f : Field) (v : Z) (array : list Z) : list Z :=
  match f with
  | Filter_channel channel => BulkSetFilter.setChannel channel (bool_of_int v) array
  | Filter_trigger => BulkSetFilter.setTrigger (bool_of_int v) array
  | TriggerAndSamplerate_triggerSource => BulkSetTriggerAndSamplerate.setTriggerSource v array
  | TriggerAndSamplerate_recordLength => BulkSetTriggerAndSamplerate.setRecordLength v array
  | TriggerAndSamplerate_samplerateId => BulkSetTriggerAndSamplerate.setSamplerateId v array
  | TriggerAndSamplerate_downsamplingMode =>
      BulkSetTriggerAndSamplerate.setDownsamplingMode (bool_of_int v) array
  | TriggerAndSamplerate_usedChannels => BulkSetTriggerAndSamplerate.setUsedChannels v array
  | TriggerAndSamplerate_fastRate => BulkSetTriggerAndSamplerate.setFastRate (bool_of_int v) array
  | TriggerAndSamplerate_triggerSlope => BulkSetTriggerAndSamplerate.setTriggerSlope v array
  | TriggerAndSamplerate_downsampler => BulkSetTriggerAndSamplerate.setDownsampler v array
  | TriggerAndSamplerate_triggerPosition => BulkSetTriggerAndSamplerate.setTriggerPosition v array
  | Gain_gain channel => BulkSetGain.setGain channel v array
  | LogicalData_data => BulkSetLogicalData.setData v array
  | Channels2250_usedChannels => BulkSetChannels2250.setUsedChannels v array
  | Trigger2250_triggerSource => BulkSetTrigger2250.setTriggerSource v array
  | Trigger2250_triggerSlope => BulkSetTrigger2250.setTriggerSlope v array
  | Samplerate5200_samplerateFast => BulkSetSamplerate5200.setSamplerateFast v array
  | Samplerate5200_samplerateSlow => BulkSetSamplerate5200.setSamplerateSlow v array
  | RecordLength2250_recordLength => BulkSetRecordLength2250.setRecordLength v array
  | Buffer5200_triggerPositionPre => BulkSetBuffer5200.setTriggerPositionPre v array
  | Buffer5200_triggerPositionPost => BulkSetBuffer5200.setTriggerPositionPost v array
  | Buffer5200_usedPre => BulkSetBuffer5200.setUsedPre v array
  | Buffer5200_usedPost => BulkSetBuffer5200.setUsedPost v array
  | Buffer5200_recordLength => BulkSetBuffer5200.setRecordLength v array
  | Samplerate2250_fastRate => BulkSetSamplerate2250.setFastRate (bool_of_int v) array
  | Samplerate2250_downsampling => BulkSetSamplerate2250.setDownsampling (bool_of_int v) array
  | Samplerate2250_samplerate => BulkSetSamplerate2250.setSamplerate v array
  | Trigger5200_triggerSource => BulkSetTrigger5200.setTriggerSource v array
  | Trigger5200_usedChannels => BulkSetTrigger5200.setUsedChannels v array
  | Trigger5200_fastRate => BulkSetTrigger5200.setFastRate (bool_of_int v) array
  | Trigger5200_triggerSlope => BulkSetTrigger5200.setTriggerSlope v array
  | Trigger5200_triggerPulse => BulkSetTrigger5200.setTriggerPulse (bool_of_int v) array
  | Buffer2250_triggerPositionPost => BulkSetBuffer2250.setTriggerPositionPost v array
  | Buffer2250_triggerPositionPre => BulkSetBuffer2250.setTriggerPositionPre v array
  end.

Definition field_get (f : Field) (array : list Z) : Z :=
  match f with
  | Filter_channel channel => bit_of_bool (BulkSetFilter.getChannel channel array)
  | Filter_trigger => bit_of_bool (BulkSetFilter.getTrigger array)
  | TriggerAndSamplerate_triggerSource => BulkSetTriggerAndSamplerate.getTriggerSource array
  | TriggerAndSamplerate_recordLength => BulkSetTriggerAndSamplerate.getRecordLength array
  | TriggerAndSamplerate_samplerateId => BulkSetTriggerAndSamplerate.getSamplerateId array
  | TriggerAndSamplerate_downsamplingMode =>
      bit_of_bool (BulkSetTriggerAndSamplerate.getDownsamplingMode array)
  | TriggerAndSamplerate_usedChannels => BulkSetTriggerAndSamplerate.getUsedChannels array
  | TriggerAndSamplerate_fastRate => bit_of_bool (BulkSetTriggerAndSamplerate.getFastRate array)
  | TriggerAndSamplerate_triggerSlope => BulkSetTriggerAndSamplerate.getTriggerSlope array
  | TriggerAndSamplerate_downsampler => BulkSetTriggerAndSamplerate.getDownsampler array
  | TriggerAndSamplerate_triggerPosition => BulkSetTriggerAndSamplerate.getTriggerPosition array
  | Gain_gain channel => BulkSetGain.getGain channel array
  | LogicalData_data => BulkSetLogicalData.getData array
  | Channels2250_usedChannels => BulkSetChannels2250.getUsedChannels array
  | Trigger2250_triggerSource => BulkSetTrigger2250.getTriggerSource array
  | Trigger2250_triggerSlope => BulkSetTrigger2250.getTriggerSlope array
  | Samplerate5200_samplerateFast => BulkSetSamplerate5200.getSamplerateFast array
  | Samplerate5200_samplerateSlow => BulkSetSamplerate5200.getSamplerateSlow array
  | RecordLength2250_recordLength => BulkSetRecordLength2250.getRecordLength array
  | Buffer5200_triggerPositionPre => BulkSetBuffer5200.getTriggerPositionPre array
  | Buffer5200_triggerPositionPost => BulkSetBuffer5200.getTriggerPositionPost array
  | Buffer5200_usedPre => BulkSetBuffer5200.getUsedPre array
  | Buffer5200_usedPost => BulkSetBuffer5200.getUsedPost array
  | Buffer5200_recordLength => BulkSetBuffer5200.getRecordLength array
  | Samplerate2250_fastRate => bit_of_bool (BulkSetSamplerate2250.getFastRate array)
  | Samplerate2250_downsampling => bit_of_bool (BulkSetSamplerate2250.getDownsampling array)
  | Samplerate2250_samplerate => BulkSetSamplerate2250.getSamplerate array
  | Trigger5200_triggerSource => BulkSetTrigger5200.getTriggerSource array
  | Trigger5200_usedChannels => BulkSetTrigger5200.getUsedChannels array
  | Trigger5200_fastRate => bit_of_bool (BulkSetTrigger5200.getFastRate array)
  | Trigger5200_triggerSlope => BulkSetTrigger5200.getTriggerSlope array
  | Trigger5200_triggerPulse => bit_of_bool (BulkSetTrigger5200.getTriggerPulse array)
  | Buffer2250_triggerPositionPost => BulkSetBuffer2250.getTriggerPositionPost array
  | Buffer2250_triggerPositionPre => BulkSetBuffer2250.getTriggerPositionPre array
  end.

End Fields.

(** *** Sequences of setter calls on the two frames with sentinel bytes *)

Inductive Buffer5200Setter : Type :=
| SetTriggerPositionPre (position : Z)
| SetTriggerPositionPost (position : Z)
| SetUsedPre (value : Z)
| SetUsedPost (value : Z)
| SetRecordLength (value : Z).

Inductive Trigger5200Setter : Type :=
| SetTriggerSource (value : Z)
| SetUsedChannels (value : Z)
| SetFastRate (fastRate : bool)
| SetTriggerSlope (slope : Z)
| SetTriggerPulse (pulse : bool).

Section Setters.
Context {L : BitLayout}.

Definition Buffer5200_call (array : list Z) (c : Buffer5200Setter) : list Z :=
  match c with
  | SetTriggerPositionPre p => BulkSetBuffer5200.setTriggerPositionPre p array
  | SetTriggerPositionPost p => BulkSetBuffer5200.setTriggerPositionPost p array
  | SetUsedPre v => BulkSetBuffer5200.setUsedPre v array
  | SetUsedPost v => BulkSetBuffer5200.setUsedPost v array
  | SetRecordLength v => BulkSetBuffer5200.setRecordLength v array
  end.

Definition Trigger5200_call (array : list Z) (c : Trigger5200Setter) : list Z :=
  match c with
  | SetTriggerSource v => BulkSetTrigger5200.setTriggerSource v array
  | SetUsedChannels v => BulkSetTrigger5200.setUsedChannels v array
  | SetFastRate b => BulkSetTrigger5200.setFastRate b array
  | SetTriggerSlope v => BulkSetTrigger5200.setTriggerSlope v array
  | SetTriggerPulse b => BulkSetTrigger5200.setTriggerPulse b array
  end.

(** The calls of a sequence, applied from left to right. *)
Definition Buffer5200_calls (array : list Z) (cs : list Buffer5200Setter) : list Z :=
  fold_left Buffer5200_call cs array.

Definition Trigger5200_calls (array : list Z) (cs : list Trigger5200Setter) : list Z :=
  fold_left Trigger5200_call cs array.

End Setters.

(** ** libusb, as the session sees it *)

Module Libusb.
Definition LIBUSB_SUCCESS : Z := 0.
Definition LIBUSB_ERROR_IO : Z := -1.
Definition LIBUSB_ERROR_ACCESS : Z := -3.
Definition LIBUSB_ERROR_NO_DEVICE : Z := -4.
Definition LIBUSB_ERROR_NOT_FOUND : Z := -5.
Definition LIBUSB_ERROR_BUSY : Z := -6.
Definition LIBUSB_ERROR_TIMEOUT : Z := -7.
Definition LIBUSB_CLASS_VENDOR_SPEC : Z := 0xff.
Definition LIBUSB_REQUEST_TYPE_VENDOR : Z := 0x40.
Definition LIBUSB_ENDPOINT_IN : Z := 0x80.
Definition LIBUSB_ENDPOINT_OUT : Z := 0x00.
End Libusb.

Import Libusb.

(** Control requests ([controlcode.h]). *)
Module ControlCode.
Definition CONTROL_VALUE : Z := 0xa2.
Definition CONTROL_GETSPEED : Z := 0xb2.
Definition CONTROL_BEGINCOMMAND : Z := 0xb3.
Definition CONTROL_SETOFFSET : Z := 0xb4.
Definition CONTROL_SETRELAYS : Z := 0xb5.
Definition CONTROL_SETVOLTDIV_CH1 : Z := 0xe0.
Definition CONTROL_SETVOLTDIV_CH2 : Z := 0xe1.
Definition CONTROL_SETTIMEDIV : Z := 0xe2.
Definition CONTROL_ACQUIIRE_HARD_DATA : Z := 0xe3.
End ControlCode.

Import ControlCode.

(** The constants and default arguments that [usbdevice.cpp] takes from
    [usbdevice.h] and [definitions.h], neither of which is among the
    sources: they are parameters of the development. *)
Class UsbDefs : Type := {
  HANTEK_EP_OUT : Z;
  HANTEK_EP_IN : Z;
  HANTEK_TIMEOUT : Z;
  HANTEK_TIMEOUT_MULTI : Z;
  (** default of the [attempts] argument of the control transfers *)
  HANTEK_ATTEMPTS : Z;
  (** defaults of the [value] and [index] arguments of the control transfers *)
  control_value_default : Z;
  control_index_default : Z
}.

(** The endpoint addresses are the ones the specification names; the other
    values only instantiate the theorems. *)
Definition sample_defs : UsbDefs := {|
  HANTEK_EP_OUT := 0x02;
  HANTEK_EP_IN := 0x86;
  HANTEK_TIMEOUT := 500;
  HANTEK_TIMEOUT_MULTI := 10;
  HANTEK_ATTEMPTS := 3;
  control_value_default := 0;
  control_index_default := 0
|}.

Record libusb_endpoint_descriptor : Type := {
  bEndpointAddress : Z;
  wMaxPacketSize : Z
}.

Record libusb_interface_descriptor : Type := {
  bInterfaceNumber : Z;
  bInterfaceClass : Z;
  bInterfaceSubClass : Z;
  bInterfaceProtocol : Z;
  endpoint : list libusb_endpoint_descriptor
}.

Definition bNumEndpoints (d : libusb_interface_descriptor) : Z :=
  Z.of_nat (length (endpoint d)).

Record libusb_interface : Type := {
  altsetting : list libusb_interface_descriptor
}.

Definition num_altsetting (i : libusb_interface) : Z := Z.of_nat (length (altsetting i)).

(** What libusb reports about the device without talking to it: the device
    descriptor, the interfaces of configuration 0, the bus position. *)
Record libusb_device : Type := {
  idVendor : Z;
  idProduct : Z;
  config_interface : list libusb_interface;
  bus_number : Z;
  device_address : Z
}.

(** The members of [DSOModel] that the session reads. *)
Record DSOModel : Type := {
  vendorID : Z;
  productID : Z
}.

(** The calls that leave the session, in the order in which it makes them,
    and the signal it emits. *)
Inductive Call : Type :=
| libusb_open
| libusb_claim_interface (interface_number : Z)
| libusb_release_interface (interface_number : Z)
| libusb_close
| libusb_unref_device
| libusb_bulk_transfer (endpoint : Z) (data : list Z) (length : Z) (timeout : Z)
| libusb_control_transfer (type request value index : Z) (data : list Z) (length : Z)
                          (timeout : Z)
| deviceDisconnected.

(** The answer to a call: the returned code, the count stored in
    [*transferred] by a bulk transfer, and the buffer as an inbound
    transfer leaves it. *)
Record Reply : Type := {
  r_code : Z;
  r_transferred : Z;
  r_data : list Z
}.

(** The bus with the oscilloscope behind it: it answers a call knowing the
    calls made before. *)
Definition Device : Type := list Call -> Call -> Reply.

Definition is_transfer (c : Call) : bool :=
  match c with
  | libusb_bulk_transfer _ _ _ _ | libusb_control_transfer _ _ _ _ _ _ _ => true
  | _ => false
  end.

Definition is_bulk_transfer (c : Call) : bool :=
  match c with libusb_bulk_transfer _ _ _ _ => true | _ => false end.

(** The bytes a transfer hands to the device: the buffer of an outbound
    transfer; an inbound transfer (bit 7 of the request type or of the
    endpoint address) hands over none. *)
Definition outbound (direction : Z) (data : list Z) : list Z :=
  if Z.testbit direction 7 then [] else data.

(** A stretch of the log without a transfer. *)
Definition no_transfer (tail : list Call) : Prop :=
  Forall (fun c => is_transfer c = false) tail.

(** The members of [USBDevice]. *)
Record USBDevice : Type := mkUSBDevice {
  model : DSOModel;
  device : libusb_device;
  handle : bool;                (**r [handle != nullptr] *)
  interface : Z;
  outPacketLength : Z;
  inPacketLength : Z;
  allowBulkTransfer : bool;
  beginCommandControl : list Z
}.

Definition set_handle (h : bool) (u : USBDevice) : USBDevice :=
  mkUSBDevice (model u) (device u) h (interface u) (outPacketLength u) (inPacketLength u)
              (allowBulkTransfer u) (beginCommandControl u).

Definition set_interface (i : Z) (u : USBDevice) : USBDevice :=
  mkUSBDevice (model u) (device u) (handle u) i (outPacketLength u) (inPacketLength u)
              (allowBulkTransfer u) (beginCommandControl u).

Definition set_outPacketLength (n : Z) (u : USBDevice) : USBDevice :=
  mkUSBDevice (model u) (device u) (handle u) (interface u) n (inPacketLength u)
              (allowBulkTransfer u) (beginCommandControl u).

Definition set_inPacketLength (n : Z) (u : USBDevice) : USBDevice :=
  mkUSBDevice (model u) (device u) (handle u) (interface u) (outPacketLength u) n
              (allowBulkTransfer u) (beginCommandControl u).

Definition set_allowBulkTransfer (b : bool) (u : USBDevice) : USBDevice :=
  mkUSBDevice (model u) (device u) (handle u) (interface u) (outPacketLength u)
              (inPacketLength u) b (beginCommandControl u).

(** *** A state monad with a budget

    A member function reads and writes the session and appends to the log
    of calls.  The two retry loops of the source need not terminate, so
    they run on a budget of iterations; [None] means the budget ran out. *)

Definition M (A : Type) : Type := USBDevice * list Call -> option (A * (USBDevice * list Call)).

Definition ret {A : Type} (x : A) : M A := fun s => Some (x, s).

Definition bind {A B : Type} (c : M A) (k : A -> M B) : M B :=
  fun s => match c s with
           | Some (x, s') => k x s'
           | None => None
           end.

Notation "'let*' x ':=' c 'in' k" := (bind c (fun x => k))
  (at level 10, x pattern, c at level 100, k at level 200).
Notation "'do' c 'then' k" := (bind c (fun _ => k))
  (at level 10, c at level 100, k at level 200).

Definition out_of_budget {A : Type} : M A := fun _ => None.

Definition this : M USBDevice := fun s => Some (fst s, s).

Definition modify (f : USBDevice -> USBDevice) : M unit :=
  fun s => Some (tt, (f (fst s), snd s)).

(** ** The session ([usbdevice.cpp]) *)

Module Session.
Section WithDevice.
Context {D : UsbDefs}.
Variable libusb : Device.

(** A call into libusb: the device answers, the call is logged. *)
Definition call (c : Call) : M Reply :=
  fun s => Some (libusb (snd s) c, (fst s, snd s ++ [c])).

(** A call whose result the source ignores, or the emission of a signal. *)
Definition note (c : Call) : M unit :=
  fun s => Some (tt, (fst s, snd s ++ [c])).

Definition isConnected : M bool := let* u := this in ret (handle u).

Definition needsFirmware : M bool :=
  let* u := this in
  ret (negb (idProduct (device u) =? productID (model u))
        || negb (idVendor (device u) =? vendorID (model u))).

Definition connectionLost : M unit :=
  do note libusb_unref_device then
  let* u := this in
  if negb (handle u) then ret tt
  else
    do note (libusb_release_interface (interface u)) then
    do modify (set_interface (-1)) then
    do note libusb_close then
    do modify (set_handle false) then
    note deviceDisconnected.

(** The loop over the endpoints of the claimed interface. *)
Fixpoint claimInterface_endpoints (endpoints : list libusb_endpoint_descriptor)
    (endpointOut endPointIn : Z) : M unit :=
  match endpoints with
  | [] => ret tt
  | endpointDescriptor :: rest =>
      do (if bEndpointAddress endpointDescriptor =? endpointOut
          then modify (set_outPacketLength (wMaxPacketSize endpointDescriptor))
          else if bEndpointAddress endpointDescriptor =? endPointIn
          then modify (set_inPacketLength (wMaxPacketSize endpointDescriptor))
          else ret tt) then
      claimInterface_endpoints rest endpointOut endPointIn
  end.

Definition claimInterface (interfaceDescriptor : libusb_interface_descriptor)
    (endpointOut endPointIn : Z) : M Z :=
  let* r := call (libusb_claim_interface (bInterfaceNumber interfaceDescriptor)) in
  if r_code r <? 0 then ret (r_code r)
  else
    do modify (set_interface (bInterfaceNumber interfaceDescriptor)) then
    do modify (set_outPacketLength 0) then
    do modify (set_inPacketLength 0) then
    do claimInterface_endpoints (endpoint interfaceDescriptor) endpointOut endPointIn then
    ret LIBUSB_SUCCESS.

(** The test of [connectDevice] on the first alternate setting. *)
Definition interface_matches (d : libusb_interface_descriptor) : bool :=
  (bInterfaceClass d =? LIBUSB_CLASS_VENDOR_SPEC) && (bInterfaceSubClass d =? 0)
  && (bInterfaceProtocol d =? 0) && (bNumEndpoints d =? 2).

(** The loop of [connectDevice] over the interfaces: [errorCode] keeps its
    value until an interface matches; the loop ends at the first match. *)
Fixpoint connectDevice_interfaces (interfaces : list libusb_interface) (errorCode : Z) : M Z :=
  match interfaces with
  | [] => ret errorCode
  | i :: rest =>
      match altsetting i with
      | [] => connectDevice_interfaces rest errorCode
      | interfaceDescriptor :: _ =>
          if interface_matches interfaceDescriptor
          then claimInterface interfaceDescriptor HANTEK_EP_OUT HANTEK_EP_IN
          else connectDevice_interfaces rest errorCode
      end
  end.

(** What [connectDevice] leaves in [errorMessage]. *)
Inductive ErrorMessage : Type :=
| CouldntOpenDevice (errorCode : Z)
| UsbError (errorCode bus address : Z).

(** [connectDevice] returns its [bool] and the message it stored, or
    [None] where it leaves [errorMessage] alone. *)
Definition connectDevice : M (bool * option ErrorMessage) :=
  let* nf := needsFirmware in
  if nf then ret (false, None)
  else
    let* co := isConnected in
    if co then ret (true, None)
    else
      let* r := call libusb_open in
      if negb (r_code r =? LIBUSB_SUCCESS)
      then
        do modify (set_handle false) then
        ret (false, Some (CouldntOpenDevice (r_code r)))
      else
        do modify (set_handle true) then
        let* u := this in
        let* errorCode :=
          connectDevice_interfaces (config_interface (device u)) LIBUSB_ERROR_NOT_FOUND in
        if negb (errorCode =? LIBUSB_SUCCESS)
        then ret (false, Some (UsbError errorCode (bus_number (device u))
                                         (device_address (device u))))
        else ret (true, None).

(** The retry loop of [bulkTransfer].  [attempt] counts without bound here;
    in the source it is an [int]. *)
Fixpoint bulkTransfer_loop (budget : nat) (endpoint : Z) (data : list Z)
    (length attempts timeout : Z) (attempt errorCode transferred : Z) : M (Z * Z) :=
  if ((attempt <? attempts) || (attempts =? -1)) && (errorCode =? LIBUSB_ERROR_TIMEOUT)
  then
    match budget with
    | O => out_of_budget
    | S budget' =>
        let* r := call (libusb_bulk_transfer endpoint (outbound endpoint data) length timeout) in
        bulkTransfer_loop budget' endpoint data length attempts timeout
                          (attempt + 1) (r_code r) (r_transferred r)
    end
  else ret (errorCode, transferred).

(** [transferred] is not initialised in the source; it is only returned
    after a transfer has set it. *)
Definition bulkTransfer (budget : nat) (endpoint : Z) (data : list Z)
    (length attempts timeout : Z) : M Z :=
  let* u := this in
  if negb (handle u) then ret LIBUSB_ERROR_NO_DEVICE
  else
    let* (errorCode, transferred) :=
      bulkTransfer_loop budget endpoint data length attempts timeout 0 LIBUSB_ERROR_TIMEOUT 0 in
    do (if errorCode =? LIBUSB_ERROR_NO_DEVICE then connectionLost else ret tt) then
    if errorCode <? 0 then ret errorCode else ret transferred.

(** The retry loop of [controlTransfer]; the second component is the
    buffer after the last transfer. *)
Fixpoint controlTransfer_loop (budget : nat) (type request : Z) (data : list Z)
    (length value index attempts : Z) (attempt errorCode : Z) : M (Z * list Z) :=
  if ((attempt <? attempts) || (attempts =? -1)) && (errorCode =? LIBUSB_ERROR_TIMEOUT)
  then
    match budget with
    | O => out_of_budget
    | S budget' =>
        let* r := call (libusb_control_transfer type request value index
                          (outbound type data) length HANTEK_TIMEOUT) in
        controlTransfer_loop budget' type request
          (if Z.testbit type 7 then r_data r else data)
          length value index attempts (attempt + 1) (r_code r)
    end
  else ret (errorCode, data).

Definition controlTransfer (budget : nat) (type request : Z) (data : list Z)
    (length value index attempts : Z) : M (Z * list Z) :=
  let* u := this in
  if negb (handle u) then ret (LIBUSB_ERROR_NO_DEVICE, data)
  else
    let* (errorCode, data') :=
      controlTransfer_loop budget type request data length value index attempts
                           0 LIBUSB_ERROR_TIMEOUT in
    do (if errorCode =? LIBUSB_ERROR_NO_DEVICE then connectionLost else ret tt) then
    ret (errorCode, data').

Definition controlWrite (budget : nat) (request : Z) (data : list Z)
    (length value index attempts : Z) : M Z :=
  let* u := this in
  if negb (handle u) then ret LIBUSB_ERROR_NO_DEVICE
  else
    let* r :=
      controlTransfer budget (Z.lor LIBUSB_REQUEST_TYPE_VENDOR LIBUSB_ENDPOINT_OUT)
                      request data length value index attempts in
    ret (fst r).

Definition controlRead (budget : nat) (request : Z) (data : list Z)
    (length value index attempts : Z) : M (Z * list Z) :=
  let* u := this in
  if negb (handle u) then ret (LIBUSB_ERROR_NO_DEVICE, data)
  else
    controlTransfer budget (Z.lor LIBUSB_REQUEST_TYPE_VENDOR LIBUSB_ENDPOINT_IN)
                    request data length value index attempts.

(** Modelled from the spec: [ControlGetSpeed] is declared in
    [controlgetspeed.h], which is not among the sources; the specification
    has the request return "a 10-byte response whose first byte encodes
    ConnectionSpeed". *)
Definition ControlGetSpeed : list Z := DataArray.new 10.
Definition ControlGetSpeed_getSpeed (array : list Z) : Z := array !!! 0%nat.

Definition getConnectionSpeed (budget : nat) : M Z :=
  let* (errorCode, response) :=
    controlRead budget CONTROL_GETSPEED ControlGetSpeed
                (Z.of_nat (DataArray.getSize ControlGetSpeed))
                control_value_default control_index_default HANTEK_ATTEMPTS in
  if errorCode <? 0 then ret errorCode
  else ret (ControlGetSpeed_getSpeed response).

Definition bulkWrite (budget : nat) (data : list Z) (length attempts : Z) : M Z :=
  let* u := this in
  if negb (handle u) then ret LIBUSB_ERROR_NO_DEVICE
  else
    let* errorCode := getConnectionSpeed budget in
    if errorCode <? 0 then ret errorCode
    else bulkTransfer budget HANTEK_EP_OUT data length attempts HANTEK_TIMEOUT.

(** The bytes received over the bulk endpoint are not part of the model:
    an inbound bulk transfer is given the empty buffer and only its count is
    followed. *)
Definition bulkRead (budget : nat) (length attempts : Z) : M Z :=
  let* u := this in
  if negb (handle u) then ret LIBUSB_ERROR_NO_DEVICE
  else
    let* errorCode := getConnectionSpeed budget in
    if errorCode <? 0 then ret errorCode
    else bulkTransfer budget HANTEK_EP_IN [] length attempts HANTEK_TIMEOUT.

Definition bulkCommand (budget : nat) (command : list Z) (attempts : Z) : M Z :=
  let* u := this in
  if negb (handle u) then ret LIBUSB_ERROR_NO_DEVICE
  else if negb (allowBulkTransfer u) then ret LIBUSB_SUCCESS
  else
    let* errorCode :=
      controlWrite budget CONTROL_BEGINCOMMAND (beginCommandControl u)
                   (Z.of_nat (DataArray.getSize (beginCommandControl u)))
                   control_value_default control_index_default HANTEK_ATTEMPTS in
    if errorCode <? 0 then ret errorCode
    else bulkWrite budget command (Z.of_nat (DataArray.getSize command)) attempts.

(** The loop of [bulkReadMulti].  [received] and [length] are
    [unsigned int], [errorCode] and [inPacketLength] are [int]; the
    counter [packet] only offsets the buffer and is left out. *)
Fixpoint bulkReadMulti_loop (n : nat) (budget : nat) (length attempts : Z)
    (received errorCode : Z) : M (Z * Z) :=
  let* u := this in
  if (received <? length) && (errorCode =? inPacketLength u)
  then
    match n with
    | O => out_of_budget
    | S n' =>
        let* errorCode' :=
          bulkTransfer budget HANTEK_EP_IN []
            (Z.min (uint32_t (length - received)) (uint32_t (inPacketLength u)))
            attempts HANTEK_TIMEOUT_MULTI in
        bulkReadMulti_loop n' budget length attempts
          (if errorCode' >? 0 then uint32_t (received + errorCode') else received)
          errorCode'
    end
  else ret (received, errorCode).

Definition bulkReadMulti (budget : nat) (length attempts : Z) : M Z :=
  let* u := this in
  if negb (handle u) then ret LIBUSB_ERROR_NO_DEVICE
  else
    let* errorCode := getConnectionSpeed budget in
    if errorCode <? 0 then ret errorCode
    else
      let* u := this in
      let* (received, errorCode) :=
        bulkReadMulti_loop budget budget length attempts 0 (inPacketLength u) in
      if received >? 0 then ret (int received) else ret errorCode.

Definition setEnableBulkTransfer (enable : bool) : M unit :=
  modify (set_allowBulkTransfer enable).

Definition overwriteInPacketLength (len : Z) : M unit :=
  modify (set_inPacketLength len).

End WithDevice.
End Session.

(** ** Sessions and devices to run the model on *)

(** The reply to try number [k + 1] of the call [c], the [k] tries before
    it having been logged after [log]. *)
Definition reply_after (libusb : Device) (log : list Call) (c : Call) (k : nat) : Reply :=
  libusb (log ++ replicate k c) c.

(** What [connectionLost] logs on a session that holds a handle. *)
Definition connectionLost_calls (u : USBDevice) : list Call :=
  [libusb_unref_device; libusb_release_interface (interface u); libusb_close;
   deviceDisconnected].

(** The session after [connectionLost]. *)
Definition disconnected (u : USBDevice) : USBDevice :=
  set_handle false (set_interface (-1) u).

(** The three transfers of a bulk command: the control write that
    announces it, the control read by which [bulkWrite] asks for the
    connection speed, and the bulk write of the command itself. *)
Definition begin_command_transfer {D : UsbDefs} (u : USBDevice) : Call :=
  libusb_control_transfer (Z.lor LIBUSB_REQUEST_TYPE_VENDOR LIBUSB_ENDPOINT_OUT)
    CONTROL_BEGINCOMMAND control_value_default control_index_default
    (beginCommandControl u) (Z.of_nat (length (beginCommandControl u))) HANTEK_TIMEOUT.

Definition get_speed_transfer {D : UsbDefs} : Call :=
  libusb_control_transfer (Z.lor LIBUSB_REQUEST_TYPE_VENDOR LIBUSB_ENDPOINT_IN)
    CONTROL_GETSPEED control_value_default control_index_default [] 10 HANTEK_TIMEOUT.

Definition bulk_write_transfer {D : UsbDefs} (command : list Z) : Call :=
  libusb_bulk_transfer HANTEK_EP_OUT (outbound HANTEK_EP_OUT command)
    (Z.of_nat (length command)) HANTEK_TIMEOUT.

(** An inbound bulk transfer of [bulkReadMulti] that asks for [n] bytes. *)
Definition bulk_read_transfer {D : UsbDefs} (n : Z) : Call :=
  libusb_bulk_transfer HANTEK_EP_IN (outbound HANTEK_EP_IN []) n HANTEK_TIMEOUT_MULTI.

(** The number of packets of [P] bytes that hold [L] bytes. *)
Definition packet_count (L P : Z) : nat := Z.to_nat ((L + P - 1) / P).

(** The sizes asked for when [count] packets are read back to back: each
    is the smaller of what remains and the packet length. *)
Fixpoint packet_sizes (count : nat) (remaining P : Z) : list Z :=
  match count with
  | O => []
  | S count' => Z.min remaining P :: packet_sizes count' (remaining - Z.min remaining P) P
  end.

(** The device delivers every inbound packet of [bulkReadMulti] in full. *)
Definition supplies_in_full {D : UsbDefs} (libusb : Device) : Prop :=
  forall (log : list Call) (n : Z),
    r_code (libusb log (bulk_read_transfer n)) = LIBUSB_SUCCESS
    /\ r_transferred (libusb log (bulk_read_transfer n)) = n.

(** The interface [connectDevice] settles on: of the interfaces that have
    an alternate setting, the first whose first setting is vendor specific,
    of subclass and protocol 0, with two endpoints. *)
Fixpoint first_interface (interfaces : list libusb_interface)
    : option libusb_interface_descriptor :=
  match interfaces with
  | [] => None
  | i :: rest =>
      match altsetting i with
      | [] => first_interface rest
      | d :: _ => if Session.interface_matches d then Some d else first_interface rest
      end
  end.

(** The packet lengths recorded for an interface with the endpoints [e1]
    and [e2]: the maximum packet size of the endpoint with the outbound
    address, and of the one with the inbound address, the later endpoint
    winning; 0 where there is no such endpoint. *)
Definition recorded_out {D : UsbDefs} (e1 e2 : libusb_endpoint_descriptor) : Z :=
  if bEndpointAddress e2 =? HANTEK_EP_OUT then wMaxPacketSize e2
  else if bEndpointAddress e1 =? HANTEK_EP_OUT then wMaxPacketSize e1
  else 0.

Definition recorded_in {D : UsbDefs} (e1 e2 : libusb_endpoint_descriptor) : Z :=
  if negb (bEndpointAddress e2 =? HANTEK_EP_OUT) && (bEndpointAddress e2 =? HANTEK_EP_IN)
  then wMaxPacketSize e2
  else if negb (bEndpointAddress e1 =? HANTEK_EP_OUT) && (bEndpointAddress e1 =? HANTEK_EP_IN)
  then wMaxPacketSize e1
  else 0.

(** The session after a successful [connectDevice] on interface [d]. *)
Definition claimed {D : UsbDefs} (d : libusb_interface_descriptor)
    (e1 e2 : libusb_endpoint_descriptor) (u : USBDevice) : USBDevice :=
  mkUSBDevice (model u) (device u) true (bInterfaceNumber d) (recorded_out e1 e2)
              (recorded_in e1 e2) (allowBulkTransfer u) (beginCommandControl u).

(** [needsFirmware], as a function of the session. *)
Definition ids_differ (u : USBDevice) : bool :=
  negb (idProduct (device u) =? productID (model u))
  || negb (idVendor (device u) =? vendorID (model u)).

(** A device that completes every transfer at once and in full. *)
Definition ready_device : Device := fun _ c =>
  match c with
  | libusb_bulk_transfer _ _ length _ =>
      {| r_code := LIBUSB_SUCCESS; r_transferred := length; r_data := [] |}
  | libusb_control_transfer _ _ _ _ _ length _ =>
      {| r_code := length; r_transferred := 0; r_data := [1; 0; 0; 0; 0; 0; 0; 0; 0; 0] |}
  | _ => {| r_code := LIBUSB_SUCCESS; r_transferred := 0; r_data := [] |}
  end.

(** A device whose first [n] answers are timeouts and which is ready
    from then on. *)
Definition slow_device (n : nat) : Device := fun log c =>
  if (length log <? n)%nat
  then {| r_code := LIBUSB_ERROR_TIMEOUT; r_transferred := 0; r_data := [] |}
  else ready_device log c.

(** A device that is ready for its first two calls and from then on
    delivers 100 bytes to every inbound bulk transfer. *)
Definition short_device : Device := fun log c =>
  match c with
  | libusb_bulk_transfer _ _ _ _ =>
      if (length log <? 2)%nat then ready_device log c
      else {| r_code := LIBUSB_SUCCESS; r_transferred := 100; r_data := [] |}
  | _ => ready_device log c
  end.

(** A device with one vendor-specific interface of two endpoints. *)
Definition sample_interface : libusb_interface_descriptor := {|
  bInterfaceNumber := 0;
  bInterfaceClass := LIBUSB_CLASS_VENDOR_SPEC;
  bInterfaceSubClass := 0;
  bInterfaceProtocol := 0;
  endpoint := [ {| bEndpointAddress := 0x02; wMaxPacketSize := 512 |};
                {| bEndpointAddress := 0x86; wMaxPacketSize := 512 |} ]
|}.

Definition sample_device : libusb_device := {|
  idVendor := 0x04b5;
  idProduct := 0x2150;
  config_interface := [ {| altsetting := [sample_interface] |} ];
  bus_number := 1;
  device_address := 2
|}.

Definition sample_model : DSOModel := {| vendorID := 0x04b5; productID := 0x2150 |}.

Definition sample_begin_command : list Z := [0x0f; 0; 0; 0; 0; 0; 0; 0; 0; 0].

(** The session as constructed, and after a successful [connectDevice]. *)
Definition detached_session : USBDevice :=
  mkUSBDevice sample_model sample_device false (-1) 0 0 true sample_begin_command.

Definition connected_session : USBDevice :=
  mkUSBDevice sample_model sample_device true 0 512 512 true sample_begin_command.


(** ** Where the fields of the frames live

    Every accessor of [bulkStructs.cpp] touches either one member of the
    bit-field structure overlaid on one byte, or a few whole bytes.  The
    [Place] of a field names that spot; [encode] gives the raw values
    its setter stores there and [decode] what its getter makes of the
    raw values it finds.  The lemmas [field_set_write] and [field_get_read]
    below tie this description to the accessors themselves. *)

Inductive Place : Type :=
| Member (offset : nat) (member : Bitfield)
| Bytes (offsets : list nat).

Definition place_offsets (p : Place) : list nat :=
  match p with
  | Member offset _ => [offset]
  | Bytes offsets => offsets
  end.

(** The raw content of a place: the value of the member, or the bytes at
    the offsets in their order. *)
Definition read_place (p : Place) (array : list Z) : list Z :=
  match p with
  | Member offset member => [bf_get member (array !!! offset)]
  | Bytes offsets => map (fun i => array !!! i) offsets
  end.

(** Storing bytes at offsets, first offset first. *)
Fixpoint store_bytes (offsets : list nat) (values : list Z) (array : list Z) : list Z :=
  match offsets, values with
  | offset :: offsets', value :: values' =>
      store_bytes offsets' values' (<[offset := value]> array)
  | _, _ => array
  end.

Definition write_place (p : Place) (raw : list Z) (array : list Z) : list Z :=
  match p with
  | Member offset member =>
      match raw with
      | value :: _ => <[offset := bf_set member value (array !!! offset)]> array
      | [] => array
      end
  | Bytes offsets => store_bytes offsets raw array
  end.

(** Two members of one byte that share no bit. *)
Definition members_apart (m1 m2 : Bitfield) : bool :=
  (bf_shift m1 + bf_width m1 <=? bf_shift m2) || (bf_shift m2 + bf_width m2 <=? bf_shift m1).

(** Two places that share no bit of the array. *)
Definition places_apart (p q : Place) : Prop :=
  match p, q with
  | Member offset1 m1, Member offset2 m2 => offset1 <> offset2 \/ members_apart m1 m2 = true
  | _, _ => forall i, i ∈ place_offsets p -> i ∈ place_offsets q -> False
  end.

Section Places.
Context {L : BitLayout}.

Definition field_place (f : Field) : Place :=
  match f with
  | Filter_channel channel =>
      Member 2 (if channel =? 0 then FilterBits_channel1 else FilterBits_channel2)
  | Filter_trigger => Member 2 FilterBits_trigger
  | TriggerAndSamplerate_triggerSource => Member 2 Tsr1Bits_triggerSource
  | TriggerAndSamplerate_recordLength => Member 2 Tsr1Bits_recordLength
  | TriggerAndSamplerate_samplerateId => Member 2 Tsr1Bits_samplerateId
  | TriggerAndSamplerate_downsamplingMode => Member 2 Tsr1Bits_downsamplingMode
  | TriggerAndSamplerate_usedChannels => Member 3 Tsr2Bits_usedChannels
  | TriggerAndSamplerate_fastRate => Member 3 Tsr2Bits_fastRate
  | TriggerAndSamplerate_triggerSlope => Member 3 Tsr2Bits_triggerSlope
  | TriggerAndSamplerate_downsampler => Bytes [4; 5]%nat
  | TriggerAndSamplerate_triggerPosition => Bytes [6; 7; 10]%nat
  | Gain_gain channel =>
      Member 2 (if channel =? 0 then GainBits_channel1 else GainBits_channel2)
  | LogicalData_data => Bytes [2]%nat
  | Channels2250_usedChannels => Bytes [2]%nat
  | Trigger2250_triggerSource => Member 2 CTriggerBits_triggerSource
  | Trigger2250_triggerSlope => Member 2 CTriggerBits_triggerSlope
  | Samplerate5200_samplerateFast => Bytes [4]%nat
  | Samplerate5200_samplerateSlow => Bytes [2; 3]%nat
  | RecordLength2250_recordLength => Bytes [2]%nat
  | Buffer5200_triggerPositionPre => Bytes [2; 3]%nat
  | Buffer5200_triggerPositionPost => Bytes [6; 7]%nat
  | Buffer5200_usedPre => Bytes [4]%nat
  | Buffer5200_usedPost => Member 8 DBufferBits_triggerPositionUsed
  | Buffer5200_recordLength => Member 8 DBufferBits_recordLength
  | Samplerate2250_fastRate => Member 2 ESamplerateBits_fastRate
  | Samplerate2250_downsampling => Member 2 ESamplerateBits_downsampling
  | Samplerate2250_samplerate => Bytes [4; 5]%nat
  | Trigger5200_triggerSource => Member 2 ETsrBits_triggerSource
  | Trigger5200_usedChannels => Member 2 ETsrBits_usedChannels
  | Trigger5200_fastRate => Member 2 ETsrBits_fastRate
  | Trigger5200_triggerSlope => Member 2 ETsrBits_triggerSlope
  | Trigger5200_triggerPulse => Member 2 ETsrBits_triggerPulse
  | Buffer2250_triggerPositionPost => Bytes [2; 3; 4]%nat
  | Buffer2250_triggerPositionPre => Bytes [6; 7; 8]%nat
  end.

(** The offsets a field occupies. *)
Definition field_offsets (f : Field) : list nat := place_offsets (field_place f).

(** What kind of value a field holds. *)
Inductive FieldKind : Type :=
| Flag            (**r a [bool], stored as 1 or 0 in a member *)
| InvertedFlag    (**r a [bool], stored as 0 or 1 in a member *)
| MemberValue     (**r a [uint8_t] assigned to a member *)
| EnumMember      (**r an enumeration value, cast to [uint8_t], assigned to a member *)
| Byte            (**r a [uint8_t] stored as it is *)
| EnumByte        (**r an enumeration value cast to [uint8_t] *)
| Word16          (**r two bytes, low byte first *)
| Word24          (**r three bytes, low byte first *)
| Word24Pre.      (**r the same, read through [uint16_t] casts *)

Definition field_kind (f : Field) : FieldKind :=
  match f with
  | Filter_channel _ | Filter_trigger | TriggerAndSamplerate_downsamplingMode
  | TriggerAndSamplerate_fastRate | Samplerate2250_fastRate | Samplerate2250_downsampling
  | Trigger5200_triggerPulse => Flag
  | Trigger5200_fastRate => InvertedFlag
  | TriggerAndSamplerate_triggerSource | TriggerAndSamplerate_recordLength
  | TriggerAndSamplerate_samplerateId | TriggerAndSamplerate_usedChannels
  | TriggerAndSamplerate_triggerSlope | Gain_gain _ | Trigger2250_triggerSource
  | Trigger2250_triggerSlope | Buffer5200_recordLength | Trigger5200_triggerSource
  | Trigger5200_usedChannels | Trigger5200_triggerSlope => MemberValue
  | Buffer5200_usedPost => EnumMember
  | LogicalData_data | Channels2250_usedChannels | Samplerate5200_samplerateFast
  | RecordLength2250_recordLength => Byte
  | Buffer5200_usedPre => EnumByte
  | TriggerAndSamplerate_downsampler | Samplerate5200_samplerateSlow
  | Buffer5200_triggerPositionPre | Buffer5200_triggerPositionPost
  | Samplerate2250_samplerate => Word16
  | TriggerAndSamplerate_triggerPosition | Buffer2250_triggerPositionPost => Word24
  | Buffer2250_triggerPositionPre => Word24Pre
  end.

(** The raw values a setter stores for the argument [v]. *)
Definition encode (k : FieldKind) (v : Z) : list Z :=
  match k with
  | Flag => [bit_of_bool (bool_of_int v)]
  | InvertedFlag => [if bool_of_int v then 0 else 1]
  | MemberValue | Byte => [v]
  | EnumMember | EnumByte => [uint8_t v]
  | Word16 => [uint8_t v; uint8_t (shr v 8)]
  | Word24 | Word24Pre => [uint8_t v; uint8_t (shr v 8); uint8_t (shr v 16)]
  end.

(** What a getter returns for the raw values it reads. *)
Definition decode (k : FieldKind) (raw : list Z) : Z :=
  match k, raw with
  | Flag, [x] => bit_of_bool (x =? 1)
  | InvertedFlag, [x] => bit_of_bool (x =? 0)
  | (MemberValue | EnumMember | Byte | EnumByte), [x] => x
  | Word16, [x0; x1] => uint16_t (Z.lor (uint16_t x0) (shl (uint16_t x1) 8))
  | Word24, [x0; x1; x2] =>
      uint32_t (Z.lor (Z.lor (uint32_t x0) (shl (uint32_t x1) 8)) (shl (uint32_t x2) 16))
  | Word24Pre, [x0; x1; x2] =>
      uint32_t (Z.lor (Z.lor (uint32_t x0) (shl (uint16_t x1) 8)) (shl (uint16_t x2) 16))
  | _, _ => 0
  end.

(** The values the type of a setter's parameter allows: [bool], [uint8_t],
    [uint16_t], [uint32_t], or an enumeration (an [int]). *)
Definition field_argument_range (f : Field) : Z :=
  match field_kind f with
  | Flag | InvertedFlag => 2
  | MemberValue | Byte => 2 ^ 8
  | EnumMember | EnumByte => 2 ^ 31
  | Word16 => 2 ^ 16
  | Word24 | Word24Pre => 2 ^ 32
  end.

(** Several setters called one after the other. *)
Definition set_fields (assignments : list (Field * Z)) (array : list Z) : list Z :=
  fold_left (fun a fv => field_set (fst fv) (snd fv) a) assignments array.

End Places.

(** The members of one structure share no bit. *)
Definition layout_apart (L : BitLayout) : bool :=
  let apart := fix apart (ms : list Bitfield) : bool :=
    match ms with
    | [] => true
    | m :: rest => forallb (members_apart m) rest && apart rest
    end in
  apart [FilterBits_channel1; FilterBits_channel2; FilterBits_trigger]
  && apart [Tsr1Bits_triggerSource; Tsr1Bits_recordLength; Tsr1Bits_samplerateId;
            Tsr1Bits_downsamplingMode]
  && apart [Tsr2Bits_usedChannels; Tsr2Bits_fastRate; Tsr2Bits_triggerSlope]
  && apart [GainBits_channel1; GainBits_channel2]
  && apart [CTriggerBits_triggerSource; CTriggerBits_triggerSlope]
  && apart [DBufferBits_triggerPositionUsed; DBufferBits_recordLength]
  && apart [ESamplerateBits_fastRate; ESamplerateBits_downsampling]
  && apart [ETsrBits_fastRate; ETsrBits_usedChannels; ETsrBits_triggerSource;
            ETsrBits_triggerSlope; ETsrBits_triggerPulse].

(** The flags are one bit wide. *)
Definition layout_flags (L : BitLayout) : bool :=
  forallb (fun m => bf_width m =? 1)
    [FilterBits_channel1; FilterBits_channel2; FilterBits_trigger; Tsr1Bits_downsamplingMode;
     Tsr2Bits_fastRate; ESamplerateBits_fastRate; ESamplerateBits_downsampling;
     ETsrBits_fastRate; ETsrBits_triggerPulse].

(** The frame types of [bulkStructs.h] that have setters. *)
Inductive Frame : Type :=
| FrameSetFilter | FrameSetTriggerAndSamplerate | FrameSetGain | FrameSetLogicalData
| FrameSetChannels2250 | FrameSetTrigger2250 | FrameSetSamplerate5200
| FrameSetRecordLength2250 | FrameSetBuffer5200 | FrameSetSamplerate2250
| FrameSetTrigger5200 | FrameSetBuffer2250.

Definition field_frame (f : Field) : Frame :=
  match f with
  | Filter_channel _ | Filter_trigger => FrameSetFilter
  | TriggerAndSamplerate_triggerSource | TriggerAndSamplerate_recordLength
  | TriggerAndSamplerate_samplerateId | TriggerAndSamplerate_downsamplingMode
  | TriggerAndSamplerate_usedChannels | TriggerAndSamplerate_fastRate
  | TriggerAndSamplerate_triggerSlope | TriggerAndSamplerate_downsampler
  | TriggerAndSamplerate_triggerPosition => FrameSetTriggerAndSamplerate
  | Gain_gain _ => FrameSetGain
  | LogicalData_data => FrameSetLogicalData
  | Channels2250_usedChannels => FrameSetChannels2250
  | Trigger2250_triggerSource | Trigger2250_triggerSlope => FrameSetTrigger2250
  | Samplerate5200_samplerateFast | Samplerate5200_samplerateSlow => FrameSetSamplerate5200
  | RecordLength2250_recordLength => FrameSetRecordLength2250
  | Buffer5200_triggerPositionPre | Buffer5200_triggerPositionPost
  | Buffer5200_usedPre | Buffer5200_usedPost | Buffer5200_recordLength => FrameSetBuffer5200
  | Samplerate2250_fastRate | Samplerate2250_downsampling | Samplerate2250_samplerate =>
      FrameSetSamplerate2250
  | Trigger5200_triggerSource | Trigger5200_usedChannels | Trigger5200_fastRate
  | Trigger5200_triggerSlope | Trigger5200_triggerPulse => FrameSetTrigger5200
  | Buffer2250_triggerPositionPost | Buffer2250_triggerPositionPre => FrameSetBuffer2250
  end.

(** Two fields are the same accessor pair: the same constructor, and for
    the per-channel accessors the same branch of [channel == 0]. *)
Definition same_field (f g : Field) : Prop :=
  match f, g with
  | Filter_channel c1, Filter_channel c2 => (c1 =? 0) = (c2 =? 0)
  | Gain_gain c1, Gain_gain c2 => (c1 =? 0) = (c2 =? 0)
  | _, _ => f = g
  end.

(** The value that [store_bytes] leaves at offset [i], if it stores one
    there: the last one of the values paired with [i]. *)
Fixpoint assigned (offsets : list nat) (values : list Z) (i : nat) : option Z :=
  match offsets, values with
  | offset :: offsets', value :: values' =>
      match assigned offsets' values' i with
      | Some later => Some later
      | None => if decide (offset = i) then Some value else None
      end
  | _, _ => None
  end.

(** The byte that [write_place] leaves at offset [i], if it writes that
    byte. *)
Definition written (p : Place) (raw : list Z) (array : list Z) (i : nat) : option Z :=
  match p with
  | Member offset member =>
      match raw with
      | value :: _ =>
          if decide (offset = i) then Some (bf_set member value (array !!! offset)) else None
      | [] => None
      end
  | Bytes offsets => assigned offsets raw i
  end.

(** The raw values that a place can hold: a member value below the range of
    the member, or bytes. *)
Definition raw_fits (p : Place) (raw : list Z) : Prop :=
  match p with
  | Member _ member => exists x, raw = [x] /\ 0 <= x < bf_range member
  | Bytes offsets => length raw = length offsets /\ Forall (fun b => 0 <= b < 256) raw
  end.

(** A place of a frame of [n] bytes: inside the frame, no offset twice, the
    member inside its byte. *)
Definition place_ok (p : Place) (n : nat) : Prop :=
  match p with
  | Member offset member => (offset < n)%nat /\ bf_ok member = true
  | Bytes offsets => NoDup offsets /\ Forall (fun o => (o < n)%nat) offsets
  end.

(** No two fields of a list are the same. *)
Fixpoint fields_distinct (fields : list Field) : Prop :=
  match fields with
  | [] => True
  | f :: rest => Forall (fun g => ~ same_field f g) rest /\ fields_distinct rest
  end.

(** The number of bytes the default constructor of a frame allocates. *)
Definition frame_size (fr : Frame) : nat :=
  match fr with
  | FrameSetFilter => 8
  | FrameSetTriggerAndSamplerate => 12
  | FrameSetGain => 8
  | FrameSetLogicalData => 8
  | FrameSetChannels2250 => 4
  | FrameSetTrigger2250 => 8
  | FrameSetSamplerate5200 => 6
  | FrameSetRecordLength2250 => 4
  | FrameSetBuffer5200 => 10
  | FrameSetSamplerate2250 => 8
  | FrameSetTrigger5200 => 8
  | FrameSetBuffer2250 => 10
  end.

(** The assignments of a list fit the frame type [fr]: every field belongs
    to that type and every value to the range of its field. *)
Definition assignments_fit {L : BitLayout} (fr : Frame) (assignments : list (Field * Z))
    : Prop :=
  Forall (fun fv => field_frame (fst fv) = fr /\ 0 <= snd fv < field_range (fst fv))
         assignments.

(** The frame that the default constructor of a frame type builds. *)
Definition default_frame {L : BitLayout} (fr : Frame) : list Z :=
  match fr with
  | FrameSetFilter => BulkSetFilter.BulkSetFilter0
  | FrameSetTriggerAndSamplerate => BulkSetTriggerAndSamplerate.BulkSetTriggerAndSamplerate0
  | FrameSetGain => BulkSetGain.BulkSetGain0
  | FrameSetLogicalData => BulkSetLogicalData.BulkSetLogicalData0
  | FrameSetChannels2250 => BulkSetChannels2250.BulkSetChannels2250_0
  | FrameSetTrigger2250 => BulkSetTrigger2250.BulkSetTrigger2250_0
  | FrameSetSamplerate5200 => BulkSetSamplerate5200.BulkSetSamplerate5200_0
  | FrameSetRecordLength2250 => BulkSetRecordLength2250.BulkSetRecordLength2250_0
  | FrameSetBuffer5200 => BulkSetBuffer5200.BulkSetBuffer5200_0
  | FrameSetSamplerate2250 => BulkSetSamplerate2250.BulkSetSamplerate2250_0
  | FrameSetTrigger5200 => BulkSetTrigger5200.BulkSetTrigger5200_0
  | FrameSetBuffer2250 => BulkSetBuffer2250.BulkSetBuffer2250_0
  end.

(** ** More of the session *)

(** The buffer of a control transfer after [n] tries: an inbound transfer
    (bit 7 of the request type) leaves in it what the device sent at the
    last try, an outbound one leaves it alone. *)
Definition control_buffer (type : Z) (data : list Z) (reply : nat -> Reply) (n : nat)
    : list Z :=
  match n with
  | O => data
  | S m => if Z.testbit type 7 then r_data (reply m) else data
  end.

(** The inbound bulk transfer of [bulkRead]. *)
Definition bulk_in_transfer {D : UsbDefs} (length : Z) : Call :=
  libusb_bulk_transfer HANTEK_EP_IN (outbound HANTEK_EP_IN []) length HANTEK_TIMEOUT.

(** The transfer functions of [USBDevice], with their arguments. *)
Inductive Operation : Type :=
| BulkTransfer (endpoint : Z) (data : list Z) (length attempts timeout : Z)
| BulkWrite (data : list Z) (length attempts : Z)
| BulkRead (length attempts : Z)
| BulkCommand (command : list Z) (attempts : Z)
| BulkReadMulti (length attempts : Z)
| ControlTransfer (type request : Z) (data : list Z) (length value index attempts : Z)
| ControlWrite (request : Z) (data : list Z) (length value index attempts : Z)
| ControlRead (request : Z) (data : list Z) (length value index attempts : Z)
| GetConnectionSpeed.

(** The [int] a transfer function returns. *)
Definition perform {D : UsbDefs} (libusb : Device) (budget : nat) (op : Operation) : M Z :=
  match op with
  | BulkTransfer endpoint data length attempts timeout =>
      Session.bulkTransfer libusb budget endpoint data length attempts timeout
  | BulkWrite data length attempts => Session.bulkWrite libusb budget data length attempts
  | BulkRead length attempts => Session.bulkRead libusb budget length attempts
  | BulkCommand command attempts => Session.bulkCommand libusb budget command attempts
  | BulkReadMulti length attempts => Session.bulkReadMulti libusb budget length attempts
  | ControlTransfer type request data length value index attempts =>
      let* r := Session.controlTransfer libusb budget type request data length value index
                  attempts in
      ret (fst r)
  | ControlWrite request data length value index attempts =>
      Session.controlWrite libusb budget request data length value index attempts
  | ControlRead request data length value index attempts =>
      let* r := Session.controlRead libusb budget request data length value index attempts in
      ret (fst r)
  | GetConnectionSpeed => Session.getConnectionSpeed libusb budget
  end.

(** The calls a transfer function appends to the log while the device is
    there: transfers only. *)
Definition transfers (calls : list Call) : Prop :=
  Forall (fun c => is_transfer c = true) calls.

(** How a transfer function leaves a session that held a handle: as it
    was, having made some transfers; or disconnected by [connectionLost],
    whose calls end the log. *)
Inductive Outcome (u : USBDevice) (log : list Call) : USBDevice * list Call -> Prop :=
| Kept (calls : list Call) :
    transfers calls -> Outcome u log (u, log ++ calls)
| Lost (calls : list Call) :
    transfers calls -> calls <> [] ->
    Outcome u log (disconnected u, log ++ calls ++ connectionLost_calls u).

(** The packet lengths that [claimInterface] records for a list of
    endpoints, starting from [out] and [inp]: an endpoint with the outbound
    address sets the first, another one with the inbound address the
    second. *)
Fixpoint recorded_lengths (endpoints : list libusb_endpoint_descriptor)
    (endpointOut endPointIn : Z) (out inp : Z) : Z * Z :=
  match endpoints with
  | [] => (out, inp)
  | e :: rest =>
      if bEndpointAddress e =? endpointOut
      then recorded_lengths rest endpointOut endPointIn (wMaxPacketSize e) inp
      else if bEndpointAddress e =? endPointIn
      then recorded_lengths rest endpointOut endPointIn out (wMaxPacketSize e)
      else recorded_lengths rest endpointOut endPointIn out inp
  end.

(** The maximum packet size of the last endpoint with the address
    [address], or [default] if there is none. *)
Definition last_packet_size (endpoints : list libusb_endpoint_descriptor) (address : Z)
    (default : Z) : Z :=
  match List.filter (fun e => bEndpointAddress e =? address) endpoints with
  | [] => default
  | e :: matching => wMaxPacketSize (List.last matching e)
  end.

(** [ConnectionSpeed] is an enumeration of a header that is not among the
    sources; its two values are parameters. *)
Class ConnectionSpeeds : Type := {
  CONNECTION_FULLSPEED : Z;
  CONNECTION_HIGHSPEED : Z
}.

(** Two values that only instantiate the theorems. *)
Definition sample_speeds : ConnectionSpeeds := {|
  CONNECTION_FULLSPEED := 0;
  CONNECTION_HIGHSPEED := 1
|}.

(** What [getPacketSize] does: it returns a number or throws. *)
Inductive PacketSize : Type :=
| Returned (size : Z)
| UnknownUSBSpeed.    (**r [throw new std::runtime_error("Unknown USB speed")] *)

Definition getPacketSize {D : UsbDefs} {C : ConnectionSpeeds} (libusb : Device)
    (budget : nat) : M PacketSize :=
  let* s := Session.getConnectionSpeed libusb budget in
  if s =? CONNECTION_FULLSPEED then ret (Returned 64)
  else if s =? CONNECTION_HIGHSPEED then ret (Returned 512)
  else if s >? CONNECTION_HIGHSPEED then ret UnknownUSBSpeed
  else ret (Returned (-1)).

(** A transfer function that leaves the session in order: from a session
    that holds a handle it ends in one of the two outcomes, and where the
    device was lost it returns [LIBUSB_ERROR_NO_DEVICE]. *)
Definition orderly (c : M Z) : Prop :=
  forall (u : USBDevice) (log : list Call) (res : Z) (s' : USBDevice * list Call),
    handle u = true -> c (u, log) = Some (res, s') ->
    Outcome u log s' /\ (handle (fst s') = false -> res = LIBUSB_ERROR_NO_DEVICE).

(** Transfer functions called one after the other. *)
Fixpoint perform_all {D : UsbDefs} (libusb : Device) (budget : nat) (ops : list Operation)
    : M (list Z) :=
  match ops with
  | [] => ret []
  | op :: rest =>
      let* r := perform libusb budget op in
      let* rs := perform_all libusb budget rest in
      ret (r :: rs)
  end.

(** The destructor of [USBDevice]. *)
Definition destructor : M unit := Session.connectionLost.

(** How often a kind of call occurs in a stretch of the log. *)
Definition count_calls (kind : Call -> bool) (calls : list Call) : nat :=
  length (List.filter kind calls).

Definition is_unref (c : Call) : bool :=
  match c with libusb_unref_device => true | _ => false end.
Definition is_release (c : Call) : bool :=
  match c with libusb_release_interface _ => true | _ => false end.
Definition is_close (c : Call) : bool :=
  match c with libusb_close => true | _ => false end.
Definition is_disconnected_signal (c : Call) : bool :=
  match c with deviceDisconnected => true | _ => false end.

(** A device that has been unplugged: every call reports that there is no
    device. *)
Definition gone_device : Device := fun _ _ =>
  {| r_code := LIBUSB_ERROR_NO_DEVICE; r_transferred := 0; r_data := [] |}.

(** A device that can be opened but whose interface another program holds:
    the claim is refused. *)
Definition busy_device : Device := fun _ c =>
  match c with
  | libusb_claim_interface _ =>
      {| r_code := LIBUSB_ERROR_BUSY; r_transferred := 0; r_data := [] |}
  | _ => ready_device [] c
  end.

(** ** The CSV export ([exporter.cpp]) *)

Module Exporter.
Section WithValues.

(** A [double] and a [QString] go to the stream as they are: the tokens
    below keep them, and the characters that the stream makes of them are
    the parameters of the section [Text] further down.  The arithmetic of
    [double] is not part of the model. *)
Context {double : Type} {QString : Type}.
Variable zero : double.

Record SampleValues : Type := {
  sample : list double;
  interval : double
}.

(** What [result->data(channel)] points to. *)
Record DataChannel : Type := {
  voltage : SampleValues;
  spectrum : SampleValues
}.

(** The members of [settings->scope.voltage[channel]] and of
    [settings->scope.spectrum[channel]] that the export reads. *)
Record ScopeChannel : Type := {
  used : bool;
  name : QString
}.

(** One channel: its two settings and its data, a null pointer for a
    channel without data.  The settings hold one entry of each kind for
    every channel. *)
Record Channel : Type := {
  voltage_settings : ScopeChannel;
  spectrum_settings : ScopeChannel;
  data : option DataChannel
}.

(** What is written to the stream, piece by piece. *)
Inductive Token : Type :=
| Quote | Comma | Newline | Label_t | Label_f
| Name (n : QString)
| Number (x : double)
| Scaled (interval : double) (row : nat).    (**r [interval * row] *)

(** [voltageData[channel]] and [spectrumData[channel]] after the first
    loop. *)
Definition voltageData (ch : Channel) : option SampleValues :=
  match data ch with
  | Some d => if used (voltage_settings ch) then Some (voltage d) else None
  | None => None
  end.

Definition spectrumData (ch : Channel) : option SampleValues :=
  match data ch with
  | Some d => if used (spectrum_settings ch) then Some (spectrum d) else None
  | None => None
  end.

(** The other variables of the first loop. *)
Record Scan : Type := mkScan {
  maxRow : nat;
  isSpectrumUsed : bool;
  timeInterval : double;
  freqInterval : double
}.

Definition scan_channel (st : Scan) (ch : Channel) : Scan :=
  match data ch with
  | None => st
  | Some d =>
      let st1 :=
        if used (voltage_settings ch)
        then mkScan (Nat.max (maxRow st) (length (sample (voltage d)))) (isSpectrumUsed st)
                    (interval (voltage d)) (freqInterval st)
        else st in
      if used (spectrum_settings ch)
      then mkScan (Nat.max (maxRow st1) (length (sample (spectrum d)))) true
                  (timeInterval st1) (interval (spectrum d))
      else st1
  end.

Definition scan (channels : list Channel) : Scan :=
  fold_left scan_channel channels (mkScan 0 false zero zero).

(** The names of the exported channels of one kind. *)
Definition names (pointer : Channel -> option SampleValues)
    (settings : Channel -> ScopeChannel) (channels : list Channel) : list Token :=
  flat_map (fun ch => match pointer ch with
                      | Some _ => [Comma; Quote; Name (name (settings ch)); Quote]
                      | None => []
                      end) channels.

Definition header (channels : list Channel) : list Token :=
  [Quote; Label_t; Quote]
  ++ names voltageData voltage_settings channels
  ++ (if isSpectrumUsed (scan channels)
      then [Comma; Quote; Label_f; Quote] ++ names spectrumData spectrum_settings channels
      else [])
  ++ [Newline].

(** The samples of one row of the exported channels of one kind: a comma
    for every channel, the sample for those that have one in this row. *)
Definition cells (pointer : Channel -> option SampleValues) (row : nat)
    (channels : list Channel) : list Token :=
  flat_map (fun ch => match pointer ch with
                      | Some values =>
                          Comma :: match sample values !! row with
                                   | Some x => [Number x]
                                   | None => []
                                   end
                      | None => []
                      end) channels.

Definition line (channels : list Channel) (row : nat) : list Token :=
  [Scaled (timeInterval (scan channels)) row]
  ++ cells voltageData row channels
  ++ (if isSpectrumUsed (scan channels)
      then [Comma; Scaled (freqInterval (scan channels)) row] ++ cells spectrumData row channels
      else [])
  ++ [Newline].

(** [exportCVS]: whether the file could be opened decides the result; the
    tokens are what the stream receives.  [row] is an [unsigned int] in the
    source and is not bounded here. *)
Definition exportCVS (opened : bool) (channels : list Channel) : bool * list Token :=
  if negb opened then (false, [])
  else (true, header channels ++ flat_map (line channels) (seq 0 (maxRow (scan channels)))).

(** *** Reading the file back *)

(** The lines of a text: the tokens before each [Newline]. *)
Fixpoint lines_from (current : list Token) (tokens : list Token) : list (list Token) :=
  match tokens with
  | [] => match current with [] => [] | _ => [rev current] end
  | Newline :: rest => rev current :: lines_from [] rest
  | t :: rest => lines_from (t :: current) rest
  end.

Definition lines (tokens : list Token) : list (list Token) := lines_from [] tokens.

Definition is_comma (t : Token) : bool := match t with Comma => true | _ => false end.
Definition is_newline (t : Token) : bool := match t with Newline => true | _ => false end.

(** The number of fields of a line. *)
Definition fields (line : list Token) : nat := S (length (List.filter is_comma line)).

(** The exported columns of one kind. *)
Definition columns (pointer : Channel -> option SampleValues) (channels : list Channel)
    : list SampleValues :=
  flat_map (fun ch => match pointer ch with Some values => [values] | None => [] end) channels.

(** The number of columns of the table: the time, the voltage columns and,
    when there is a spectrum column, the frequency and the spectrum
    columns. *)
Definition width (channels : list Channel) : nat :=
  S (length (columns voltageData channels))
  + match columns spectrumData channels with
    | [] => 0
    | _ :: _ => S (length (columns spectrumData channels))
    end.

(** The header and a line without the [Newline] that ends them. *)
Definition header_body (channels : list Channel) : list Token :=
  [Quote; Label_t; Quote]
  ++ names voltageData voltage_settings channels
  ++ (if isSpectrumUsed (scan channels)
      then [Comma; Quote; Label_f; Quote] ++ names spectrumData spectrum_settings channels
      else []).

Definition line_body (channels : list Channel) (row : nat) : list Token :=
  [Scaled (timeInterval (scan channels)) row]
  ++ cells voltageData row channels
  ++ (if isSpectrumUsed (scan channels)
      then [Comma; Scaled (freqInterval (scan channels)) row] ++ cells spectrumData row channels
      else []).

(** The number of samples of the longest of some columns. *)
Definition longest (cols : list SampleValues) : nat :=
  list_max (map (fun values => length (sample values)) cols).

End WithValues.

(** *** The characters of the file *)

Section Text.
Context {double : Type} {QString : Type}.

(** A character is a number, its code.  What [QTextStream] writes for a
    [double], the product [interval * row] and the characters of a
    [QString] are parameters.  A name goes to the stream as it is, without
    any escaping. *)
Variable print : double -> list Z.
Variable times : double -> nat -> double.
Variable chars : QString -> list Z.

Definition quote : Z := 34.
Definition comma : Z := 44.
Definition newline : Z := 10.
Definition letter_t : Z := 116.
Definition letter_f : Z := 102.

Definition token_text (t : @Token double QString) : list Z :=
  match t with
  | Quote => [quote]
  | Comma => [comma]
  | Newline => [newline]
  | Label_t => [letter_t]
  | Label_f => [letter_f]
  | Name n => chars n
  | Number x => print x
  | Scaled interval row => print (times interval row)
  end.

(** The characters that the stream receives. *)
Definition text (tokens : list (@Token double QString)) : list Z :=
  flat_map token_text tokens.

(** The lines of a text: the characters before each newline. *)
Fixpoint text_lines_from (current : list Z) (characters : list Z) : list (list Z) :=
  match characters with
  | [] => match current with [] => [] | _ => [rev current] end
  | c :: rest =>
      if c =? newline then rev current :: text_lines_from [] rest
      else text_lines_from (c :: current) rest
  end.

Definition text_lines (characters : list Z) : list (list Z) :=
  text_lines_from [] characters.

(** The number of commas of a text. *)
Definition commas (characters : list Z) : nat :=
  length (List.filter (fun c => c =? comma) characters).

(** The number of fields of a line that is split at every comma. *)
Definition text_fields (line : list Z) : nat := S (commas line).

(** The number of fields of a line for a reader that takes a quote as the
    start or the end of a quoted part and splits at the commas outside the
    quoted parts; [None] when the line ends inside a quoted part. *)
Fixpoint quoted_fields_from (inside : bool) (line : list Z) : option nat :=
  match line with
  | [] => if inside then None else Some 1%nat
  | c :: rest =>
      if c =? quote then quoted_fields_from (negb inside) rest
      else if (c =? comma) && negb inside then option_map S (quoted_fields_from inside rest)
      else quoted_fields_from inside rest
  end.

Definition quoted_fields (line : list Z) : option nat := quoted_fields_from false line.

(** The names that the header holds: those of the exported channels of one
    kind, and all of them. *)
Definition exported_names (pointer : @Channel double QString -> option (@SampleValues double))
    (settings : @Channel double QString -> @ScopeChannel QString)
    (channels : list (@Channel double QString)) : list QString :=
  flat_map (fun ch => match pointer ch with
                      | Some _ => [name (settings ch)]
                      | None => []
                      end) channels.

Definition header_names (channels : list (@Channel double QString)) : list QString :=
  exported_names voltageData voltage_settings channels
  ++ exported_names spectrumData spectrum_settings channels.

(** The number of commas inside some names. *)
Definition name_commas (names : list QString) : nat :=
  list_sum (map (fun n => commas (chars n)) names).

(** The characters that a text is free of. *)
Definition free_of (c : Z) (characters : list Z) : Prop :=
  Forall (fun c' => c' <> c) characters.

(** A printed number holds no quote, no comma and no newline. *)
Definition plain_numbers : Prop :=
  forall x : double, free_of quote (print x) /\ free_of comma (print x)
                     /\ free_of newline (print x).

(** A part of a line that a reader of quoted fields leaves outside a quoted
    part when it enters it outside one, after [k] more fields. *)
Definition adds_fields (k : nat) (part : list Z) : Prop :=
  forall rest : list Z,
    quoted_fields_from false (part ++ rest)
    = option_map (Nat.add k) (quoted_fields_from false rest).

End Text.

End Exporter.
(** * Properties of the frames *)

(** ** The frames of the specification's scenarios, byte by byte *)

Example BulkSetFilter_bytes :
  BulkSetFilter.BulkSetFilter3 (L := sample_layout) true false true
  = [0x00; 0x0f; 0x05; 0; 0; 0; 0; 0].
Proof. reflexivity. Qed.

Example BulkSetTriggerAndSamplerate_bytes :
  BulkSetTriggerAndSamplerate.setTriggerPosition 0xAABBCC
    (BulkSetTriggerAndSamplerate.BulkSetTriggerAndSamplerate0)
  = [0x01; 0; 0; 0; 0; 0; 0xCC; 0xBB; 0; 0; 0xAA; 0].
Proof. reflexivity. Qed.

Example BulkSetBuffer5200_bytes :
  BulkSetBuffer5200.BulkSetBuffer5200_5 (L := sample_layout) 0x1234 0x5678 0 0 0
  = [0x0d; 0; 0x34; 0x12; 0; 0xff; 0x78; 0x56; 0; 0xff].
Proof. reflexivity. Qed.

Example BulkSetTrigger5200_bytes :
  BulkSetTrigger5200.BulkSetTrigger5200_5 (L := sample_layout) 0 0 true 0 0
  = [0x0e; 0; 0; 0; 0x02; 0; 0; 0].
Proof. reflexivity. Qed.

Example BulkSetTrigger5200_slow_bytes :
  BulkSetTrigger5200.BulkSetTrigger5200_5 (L := sample_layout) 0 0 false 0 0
  = [0x0e; 0; 0x01; 0; 0x02; 0; 0; 0].
Proof. reflexivity. Qed.

Example BulkGetCaptureState_bytes : BulkGetCaptureState = [0x06; 0].
Proof. reflexivity. Qed.

(** ** Bits and bytes *)

Lemma land_shiftl_low (x y n : Z) :
  0 <= n -> 0 <= x < 2 ^ n -> Z.land x (Z.shiftl y n) = 0.
Proof.
  intros Hn Hx. rewrite <- (Z.mod_small x (2 ^ n)) by lia.
  rewrite <- Z.land_ones by lia.
  apply Z.bits_inj'; intros k Hk.
  rewrite !Z.land_spec, Z.bits_0.
  destruct (Z.lt_ge_cases k n) as [Hlt | Hge].
  - rewrite Z.shiftl_spec_low by lia. now rewrite andb_false_r.
  - rewrite Z.ones_spec_high by lia. now rewrite andb_false_r.
Qed.

Lemma lor_shiftl_add (x y n : Z) :
  0 <= n -> 0 <= x < 2 ^ n -> Z.lor x (Z.shiftl y n) = x + y * 2 ^ n.
Proof.
  intros Hn Hx. rewrite <- Z.shiftl_mul_pow2 by lia.
  rewrite <- Z.lxor_lor by (apply land_shiftl_low; lia).
  symmetry. apply Z.add_nocarry_lxor. apply land_shiftl_low; lia.
Qed.

Lemma bf_get_set (f : Bitfield) (v b : Z) :
  0 <= bf_shift f -> 0 <= bf_width f ->
  bf_get f (bf_set f v b) = Z.land v (Z.ones (bf_width f)).
Proof.
  intros Hs Hw. unfold bf_get, bf_set.
  apply Z.bits_inj'; intros n Hn.
  rewrite !Z.land_spec, Z.shiftr_spec, Z.lor_spec, Z.land_spec by lia.
  rewrite Z.lnot_spec, !Z.shiftl_spec, Z.land_spec by lia.
  replace (n + bf_shift f - bf_shift f) with n by lia.
  rewrite Z.testbit_ones_nonneg by lia.
  destruct (n <? bf_width f); simpl.
  - rewrite !andb_true_r, andb_false_r. reflexivity.
  - now rewrite !andb_false_r.
Qed.

Lemma land_ones_small (v w : Z) : 0 <= w -> 0 <= v < 2 ^ w -> Z.land v (Z.ones w) = v.
Proof. intros Hw Hv. rewrite Z.land_ones by lia. apply Z.mod_small; lia. Qed.

Lemma bf_ok_bounds (f : Bitfield) :
  bf_ok f = true -> 0 <= bf_shift f /\ 0 < bf_width f /\ bf_shift f + bf_width f <= 8.
Proof. unfold bf_ok. rewrite !andb_true_iff. lia. Qed.

Lemma bf_get_set_value (f : Bitfield) (v b : Z) :
  bf_ok f = true -> 0 <= v < bf_range f -> bf_get f (bf_set f v b) = v.
Proof.
  intros Hok Hv. apply bf_ok_bounds in Hok.
  rewrite bf_get_set by lia. apply land_ones_small; [lia | exact Hv].
Qed.

Lemma bf_range_gt_1 (f : Bitfield) : bf_ok f = true -> 2 <= bf_range f.
Proof.
  intros Hok. apply bf_ok_bounds in Hok. unfold bf_range.
  change 2 with (2 ^ 1) at 1. apply Z.pow_le_mono_r; lia.
Qed.

Lemma bf_range_le_256 (f : Bitfield) : bf_ok f = true -> bf_range f <= 256.
Proof.
  intros Hok. apply bf_ok_bounds in Hok. unfold bf_range.
  change 256 with (2 ^ 8). apply Z.pow_le_mono_r; lia.
Qed.

(** A flag written as 0 or 1 into a member reads back. *)
Lemma bf_get_set_flag (f : Bitfield) (flag : bool) (b : Z) :
  bf_ok f = true -> (bf_get f (bf_set f (bit_of_bool flag) b) =? 1) = flag.
Proof.
  intros Hok. pose proof (bf_range_gt_1 f Hok).
  rewrite bf_get_set_value by (try assumption; destruct flag; simpl; lia).
  now destruct flag.
Qed.

Lemma bit_of_bool_of_int (v : Z) : 0 <= v < 2 -> bit_of_bool (bool_of_int v) = v.
Proof.
  intros Hv. unfold bool_of_int.
  assert (v = 0 \/ v = 1) as [-> | ->] by lia; reflexivity.
Qed.

(** A 16-bit value split over two bytes and joined again. *)
Lemma le16_join_split (v : Z) :
  0 <= v < 2 ^ 16 ->
  uint16_t (Z.lor (uint16_t (uint8_t v)) (shl (uint16_t (uint8_t (shr v 8))) 8)) = v.
Proof.
  intros Hv. unfold uint16_t, uint8_t, shl, shr.
  rewrite Z.shiftr_div_pow2 by lia.
  rewrite (Z.mod_small (v mod 2 ^ 8) (2 ^ 16)) by (pose proof (Z.mod_pos_bound v (2 ^ 8)); lia).
  rewrite (Z.mod_small ((v / 2 ^ 8) mod 2 ^ 8) (2 ^ 16))
    by (pose proof (Z.mod_pos_bound (v / 2 ^ 8) (2 ^ 8)); lia).
  rewrite lor_shiftl_add by (pose proof (Z.mod_pos_bound v (2 ^ 8)); lia).
  change (2 ^ 8) with 256 in *. change (2 ^ 16) with 65536 in *.
  Z.div_mod_to_equations. lia.
Qed.

(** A 24-bit value split over three bytes and joined again. *)
Lemma le24_join_split (v : Z) :
  0 <= v < 2 ^ 24 ->
  Z.lor (Z.lor (uint8_t v) (shl (uint8_t (shr v 8)) 8)) (shl (uint8_t (shr v 16)) 16) = v.
Proof.
  intros Hv. unfold uint8_t, shl, shr.
  rewrite !Z.shiftr_div_pow2 by lia.
  pose proof (Z.mod_pos_bound v (2 ^ 8)).
  pose proof (Z.mod_pos_bound (v / 2 ^ 8) (2 ^ 8)).
  pose proof (Z.mod_pos_bound (v / 2 ^ 16) (2 ^ 8)).
  rewrite (lor_shiftl_add (v mod 2 ^ 8)) by lia.
  rewrite lor_shiftl_add by (change (2 ^ 8) with 256 in *; change (2 ^ 16) with 65536; lia).
  change (2 ^ 8) with 256 in *. change (2 ^ 16) with 65536 in *.
  change (2 ^ 24) with 16777216 in *.
  Z.div_mod_to_equations. lia.
Qed.

Lemma uint8_t_range (x : Z) : 0 <= uint8_t x < 256.
Proof. unfold uint8_t. apply Z.mod_pos_bound. lia. Qed.

Lemma uint16_t_byte (x : Z) : 0 <= x < 256 -> uint16_t x = x.
Proof. intros. unfold uint16_t. apply Z.mod_small. lia. Qed.

Lemma uint32_t_byte (x : Z) : 0 <= x < 256 -> uint32_t x = x.
Proof. intros. unfold uint32_t. apply Z.mod_small. lia. Qed.

Lemma uint8_t_small (x : Z) : 0 <= x < 256 -> uint8_t x = x.
Proof. intros. unfold uint8_t. apply Z.mod_small. lia. Qed.

Lemma uint32_t_small (x : Z) : 0 <= x < 2 ^ 24 -> uint32_t x = x.
Proof. intros. unfold uint32_t. apply Z.mod_small. lia. Qed.

(** The three bytes of a 24-bit value, read as the getters of the 24-bit
    positions read them. *)
Lemma le24_read (v : Z) :
  0 <= v < 2 ^ 24 ->
  uint32_t (Z.lor (Z.lor (uint32_t (uint8_t v)) (shl (uint32_t (uint8_t (shr v 8))) 8))
                  (shl (uint32_t (uint8_t (shr v 16))) 16)) = v.
Proof.
  intros Hv.
  rewrite (uint32_t_byte (uint8_t v)), (uint32_t_byte (uint8_t (shr v 8))),
    (uint32_t_byte (uint8_t (shr v 16))) by apply uint8_t_range.
  rewrite le24_join_split by exact Hv. now apply uint32_t_small.
Qed.

(** ** Reading what was written *)

Lemma getBits_setBits (f : Bitfield) (i : nat) (v : Z) (array : list Z) :
  (i < length array)%nat ->
  DataArray.getBits f i (DataArray.setBits f i v array) = bf_get f (bf_set f v (array !!! i)).
Proof.
  intros Hi. unfold DataArray.getBits, DataArray.setBits.
  now rewrite list_lookup_total_insert_eq.
Qed.

Lemma setBits_other (f : Bitfield) (i j : nat) (v : Z) (array : list Z) :
  i <> j -> DataArray.setBits f i v array !!! j = array !!! j.
Proof. intros Hij. unfold DataArray.setBits. now rewrite list_lookup_total_insert_ne. Qed.

Lemma length_setBits (f : Bitfield) (i : nat) (v : Z) (array : list Z) :
  length (DataArray.setBits f i v array) = length array.
Proof. unfold DataArray.setBits. apply length_insert. Qed.

Lemma layout_ok_member (L : BitLayout) (f : Bitfield) :
  layout_ok L = true -> In f (layout_members L) -> bf_ok f = true.
Proof. unfold layout_ok. rewrite forallb_forall. auto. Qed.

(** Reading a byte of an array after some stores. *)
Ltac read_bytes :=
  repeat first
    [ rewrite list_lookup_total_insert_eq by (rewrite ?length_insert; lia)
    | rewrite list_lookup_total_insert_ne by lia ].

(** The member named in the goal lies inside its byte. *)
Ltac member_ok HL :=
  apply (layout_ok_member _ _ HL); simpl; tauto.

Section RoundTrip.
Context {L : BitLayout}.
Hypothesis HL : layout_ok L = true.

Lemma member_round_trip (f : Bitfield) (i : nat) (v : Z) (array : list Z) :
  In f (layout_members L) -> (i < length array)%nat -> 0 <= v < bf_range f ->
  DataArray.getBits f i (DataArray.setBits f i v array) = v.
Proof.
  intros Hf Hi Hv. rewrite getBits_setBits by assumption.
  apply bf_get_set_value; [exact (layout_ok_member _ _ HL Hf) | exact Hv].
Qed.

Lemma flag_round_trip (f : Bitfield) (i : nat) (v : Z) (array : list Z) :
  In f (layout_members L) -> (i < length array)%nat -> 0 <= v < 2 ->
  bit_of_bool (DataArray.getBits f i (DataArray.setBits f i (bit_of_bool (bool_of_int v)) array)
               =? 1) = v.
Proof.
  intros Hf Hi Hv. rewrite getBits_setBits by assumption.
  rewrite bf_get_set_flag by exact (layout_ok_member _ _ HL Hf).
  now apply bit_of_bool_of_int.
Qed.

End RoundTrip.

Lemma byte_round_trip (i : nat) (v : Z) (array : list Z) :
  (i < length array)%nat -> <[i := v]> array !!! i = v.
Proof. intros Hi. now rewrite list_lookup_total_insert_eq. Qed.

Lemma word_round_trip (i j : nat) (v : Z) (array : list Z) :
  i <> j -> (i < length array)%nat -> (j < length array)%nat -> 0 <= v < 2 ^ 16 ->
  let array' := <[j := uint8_t (shr v 8)]> (<[i := uint8_t v]> array) in
  uint16_t (Z.lor (uint16_t (array' !!! i)) (shl (uint16_t (array' !!! j)) 8)) = v.
Proof.
  intros Hij Hi Hj Hv array'. subst array'. read_bytes. now apply le16_join_split.
Qed.

Lemma position_round_trip (i j k : nat) (v : Z) (array : list Z) :
  i <> j -> i <> k -> j <> k ->
  (i < length array)%nat -> (j < length array)%nat -> (k < length array)%nat ->
  0 <= v < 2 ^ 24 ->
  let array' := <[k := uint8_t (shr v 16)]>
                  (<[j := uint8_t (shr v 8)]> (<[i := uint8_t v]> array)) in
  Z.lor (Z.lor (array' !!! i) (shl (array' !!! j) 8)) (shl (array' !!! k) 16) = v.
Proof.
  intros Hij Hik Hjk Hi Hj Hk Hv array'. subst array'. read_bytes.
  now apply le24_join_split.
Qed.

(** C1.  For every field of every frame, whatever the array holds before:
    the setter called with a value of the field's range, followed by the
    getter, returns that value. *)
Theorem field_set_get (L : BitLayout) (f : Field) (v : Z) (array : list Z) :
  layout_ok L = true ->
  (frame_length f <= length array)%nat ->
  0 <= v < field_range f ->
  field_get f (field_set f v array) = v.
Proof.
  intros HL Hlen Hv.
  destruct f; simpl in Hlen, Hv; cbn [field_get field_set].
  all: try (apply (member_round_trip HL); [simpl; tauto | lia | exact Hv]).
  all: try (apply (flag_round_trip HL); [simpl; tauto | lia | exact Hv]).
  all: try (apply byte_round_trip; lia).
  all: try (apply word_round_trip; [lia .. | exact Hv]).
  - (* BulkSetFilter, a channel *)
    unfold BulkSetFilter.getChannel, BulkSetFilter.setChannel.
    destruct (channel =? 0);
      (apply (flag_round_trip HL); [simpl; tauto | lia | exact Hv]).
  - (* BulkSetTriggerAndSamplerate, the trigger position *)
    unfold BulkSetTriggerAndSamplerate.getTriggerPosition,
      BulkSetTriggerAndSamplerate.setTriggerPosition.
    read_bytes. now apply le24_read.
  - (* BulkSetGain, a channel *)
    unfold BulkSetGain.getGain, BulkSetGain.setGain.
    destruct (channel =? 0);
      (apply (member_round_trip HL); [simpl; tauto | lia | exact Hv]).
  - (* BulkSetBuffer5200, usedPre *)
    unfold BulkSetBuffer5200.getUsedPre, BulkSetBuffer5200.setUsedPre.
    read_bytes. apply uint8_t_small. lia.
  - (* BulkSetBuffer5200, usedPost *)
    unfold BulkSetBuffer5200.getUsedPost, BulkSetBuffer5200.setUsedPost.
    assert (Hok : bf_ok DBufferBits_triggerPositionUsed = true) by member_ok HL.
    pose proof (bf_range_le_256 _ Hok).
    rewrite uint8_t_small by lia.
    apply (member_round_trip HL); [simpl; tauto | lia | exact Hv].
  - (* BulkSetTrigger5200, the inverted fastRate *)
    unfold BulkSetTrigger5200.getFastRate, BulkSetTrigger5200.setFastRate.
    rewrite getBits_setBits by lia.
    assert (Hok : bf_ok ETsrBits_fastRate = true) by member_ok HL.
    pose proof (bf_range_gt_1 _ Hok).
    assert (v = 0 \/ v = 1) as [-> | ->] by lia; simpl;
      rewrite bf_get_set_value by (try assumption; lia); reflexivity.
  - (* BulkSetBuffer2250, the post position *)
    unfold BulkSetBuffer2250.getTriggerPositionPost, BulkSetBuffer2250.setTriggerPositionPost.
    read_bytes. now apply le24_read.
  - (* BulkSetBuffer2250, the pre position *)
    unfold BulkSetBuffer2250.getTriggerPositionPre, BulkSetBuffer2250.setTriggerPositionPre.
    read_bytes. rewrite (uint32_t_byte (uint8_t v)) by apply uint8_t_range.
    rewrite !uint16_t_byte by apply uint8_t_range.
    rewrite le24_join_split by exact Hv.
    unfold uint32_t. apply Z.mod_small. lia.
Qed.

(** An instance: the 24-bit trigger position written into a frame whose
    bytes are all set. *)
Lemma field_set_get_witness :
  field_get (L := sample_layout) TriggerAndSamplerate_triggerPosition
    (field_set (L := sample_layout) TriggerAndSamplerate_triggerPosition 0xAABBCC
               (replicate 12 0xff))
  = 0xAABBCC.
Proof.
  apply (field_set_get sample_layout TriggerAndSamplerate_triggerPosition 0xAABBCC
                       (replicate 12 0xff)).
  - reflexivity.
  - simpl. lia.
  - simpl. lia.
Defined.

(** ** The capture-state response *)

Lemma bytes_lookup (array : list Z) (i : nat) :
  DataArray.bytes array -> (i < length array)%nat -> 0 <= array !!! i < 256.
Proof. intros Hb Hi. exact (Forall_lookup_total_1 _ array i Hb Hi). Qed.

Lemma getTriggerPoint_bytes (array : list Z) :
  DataArray.bytes array -> (4 <= length array)%nat ->
  BulkResponseGetCaptureState.getTriggerPoint array
  = array !!! 2%nat + 256 * array !!! 3%nat + 65536 * array !!! 1%nat.
Proof.
  intros Hb Hlen. unfold BulkResponseGetCaptureState.getTriggerPoint, shl.
  pose proof (bytes_lookup array 1 Hb ltac:(lia)).
  pose proof (bytes_lookup array 2 Hb ltac:(lia)).
  pose proof (bytes_lookup array 3 Hb ltac:(lia)).
  rewrite (lor_shiftl_add (array !!! 2%nat)) by lia.
  rewrite lor_shiftl_add by lia.
  unfold uint32_t. rewrite Z.mod_small by lia. lia.
Qed.



(** ** The split trigger position *)

(** C3.  [setTriggerPosition] stores the low byte of a 24-bit position at
    offset 6, the middle byte at offset 7 and the high byte at offset 10,
    and [getTriggerPosition] reads the position back; for 0xAABBCC the three
    bytes are 0xCC, 0xBB and 0xAA. *)
Theorem setTriggerPosition_layout (array : list Z) (position : Z) :
  length array = 12%nat -> 0 <= position < 2 ^ 24 ->
  (let array' := BulkSetTriggerAndSamplerate.setTriggerPosition position array in
   array' !!! 6%nat = position mod 256
   /\ array' !!! 7%nat = (position / 256) mod 256
   /\ array' !!! 10%nat = position / 65536
   /\ BulkSetTriggerAndSamplerate.getTriggerPosition array' = position)
  /\ (let array' := BulkSetTriggerAndSamplerate.setTriggerPosition 0xAABBCC array in
      array' !!! 6%nat = 0xCC /\ array' !!! 7%nat = 0xBB /\ array' !!! 10%nat = 0xAA
      /\ BulkSetTriggerAndSamplerate.getTriggerPosition array' = 0xAABBCC).
Proof.
  intros Hlen Hp.
  assert (Hget : forall p, 0 <= p < 2 ^ 24 ->
            BulkSetTriggerAndSamplerate.getTriggerPosition
              (BulkSetTriggerAndSamplerate.setTriggerPosition p array) = p).
  { intros p Hrange.
    unfold BulkSetTriggerAndSamplerate.getTriggerPosition,
      BulkSetTriggerAndSamplerate.setTriggerPosition.
    read_bytes. now apply le24_read. }
  split; cbv zeta; unfold BulkSetTriggerAndSamplerate.setTriggerPosition.
  - repeat split.
    + read_bytes. reflexivity.
    + read_bytes. unfold uint8_t, shr. now rewrite Z.shiftr_div_pow2 by lia.
    + read_bytes. unfold uint8_t, shr. rewrite Z.shiftr_div_pow2 by lia.
      apply Z.mod_small. change (2 ^ 16) with 65536. change (2 ^ 8) with 256.
      change (2 ^ 24) with 16777216 in Hp. Z.div_mod_to_equations. lia.
    + now apply Hget.
  - repeat split.
    + read_bytes. reflexivity.
    + read_bytes. reflexivity.
    + read_bytes. reflexivity.
    + apply Hget. lia.
Qed.

Lemma setTriggerPosition_layout_witness :
  BulkSetTriggerAndSamplerate.setTriggerPosition 0xAABBCC (replicate 12 0) !!! 10%nat = 0xAA.
Proof.
  refine (proj1 (proj2 (proj2 (proj2
           (setTriggerPosition_layout (replicate 12 0) 0xAABBCC _ _))))).
  - reflexivity.
  - lia.
Defined.

(** ** The sentinel bytes *)

Section Sentinels.
Context {L : BitLayout}.

Lemma Buffer5200_call_sentinels (array : list Z) (c : Buffer5200Setter) :
  Buffer5200_call array c !!! 5%nat = array !!! 5%nat
  /\ Buffer5200_call array c !!! 9%nat = array !!! 9%nat.
Proof.
  destruct c; simpl;
    unfold BulkSetBuffer5200.setTriggerPositionPre, BulkSetBuffer5200.setTriggerPositionPost,
      BulkSetBuffer5200.setUsedPre, BulkSetBuffer5200.setUsedPost,
      BulkSetBuffer5200.setRecordLength, DataArray.setBits;
    split; read_bytes; reflexivity.
Qed.

Lemma Buffer5200_calls_sentinels (cs : list Buffer5200Setter) (array : list Z) :
  Buffer5200_calls array cs !!! 5%nat = array !!! 5%nat
  /\ Buffer5200_calls array cs !!! 9%nat = array !!! 9%nat.
Proof.
  unfold Buffer5200_calls. revert array.
  induction cs as [| c cs IH]; intros array; simpl.
  - split; reflexivity.
  - destruct (IH (Buffer5200_call array c)) as [H5 H9].
    destruct (Buffer5200_call_sentinels array c) as [E5 E9].
    split; congruence.
Qed.

Lemma Trigger5200_call_sentinel (array : list Z) (c : Trigger5200Setter) :
  Trigger5200_call array c !!! 4%nat = array !!! 4%nat.
Proof.
  destruct c; simpl;
    unfold BulkSetTrigger5200.setTriggerSource, BulkSetTrigger5200.setUsedChannels,
      BulkSetTrigger5200.setFastRate, BulkSetTrigger5200.setTriggerSlope,
      BulkSetTrigger5200.setTriggerPulse, DataArray.setBits;
    read_bytes; reflexivity.
Qed.

Lemma Trigger5200_calls_sentinel (cs : list Trigger5200Setter) (array : list Z) :
  Trigger5200_calls array cs !!! 4%nat = array !!! 4%nat.
Proof.
  unfold Trigger5200_calls. revert array.
  induction cs as [| c cs IH]; intros array; simpl.
  - reflexivity.
  - rewrite IH. apply Trigger5200_call_sentinel.
Qed.

(** The constructor with arguments is the default one followed by five
    setter calls. *)
Lemma BulkSetBuffer5200_5_calls (pre post usedPre usedPost recordLength : Z) :
  BulkSetBuffer5200.BulkSetBuffer5200_5 pre post usedPre usedPost recordLength
  = Buffer5200_calls BulkSetBuffer5200.BulkSetBuffer5200_0
      [SetTriggerPositionPre pre; SetTriggerPositionPost post; SetUsedPre usedPre;
       SetUsedPost usedPost; SetRecordLength recordLength].
Proof. reflexivity. Qed.

End Sentinels.

(** C4.  Whatever setters are called on a [BulkSetBuffer5200] frame, in
    whatever order and with whatever arguments, the bytes at offsets 5 and 9
    stay 0xff; so they do in the frame built by
    [BulkSetBuffer5200(0x1234, 0x5678, ...)].  Whatever setters are called on
    a [BulkSetTrigger5200] frame, the byte at offset 4 stays 0x02. *)
Theorem sentinels_preserved (L : BitLayout) :
  (forall cs : list Buffer5200Setter,
     Buffer5200_calls BulkSetBuffer5200.BulkSetBuffer5200_0 cs !!! 5%nat = 0xff
     /\ Buffer5200_calls BulkSetBuffer5200.BulkSetBuffer5200_0 cs !!! 9%nat = 0xff)
  /\ (forall (usedPre usedPost recordLength : Z) (cs : list Buffer5200Setter),
        let frame := BulkSetBuffer5200.BulkSetBuffer5200_5 0x1234 0x5678 usedPre usedPost
                       recordLength in
        (frame !!! 5%nat = 0xff /\ frame !!! 9%nat = 0xff)
        /\ (Buffer5200_calls frame cs !!! 5%nat = 0xff
            /\ Buffer5200_calls frame cs !!! 9%nat = 0xff))
  /\ (forall cs : list Trigger5200Setter,
        Trigger5200_calls BulkSetTrigger5200.BulkSetTrigger5200_0 cs !!! 4%nat = 0x02)
  /\ (forall (triggerSource usedChannels : Z) (fastRate : bool) (triggerSlope triggerPulse : Z)
             (cs : list Trigger5200Setter),
        Trigger5200_calls
          (BulkSetTrigger5200.BulkSetTrigger5200_5 triggerSource usedChannels fastRate
             triggerSlope triggerPulse) cs !!! 4%nat = 0x02).
Proof.
  assert (H0 : forall cs : list Buffer5200Setter,
            Buffer5200_calls BulkSetBuffer5200.BulkSetBuffer5200_0 cs !!! 5%nat = 0xff
            /\ Buffer5200_calls BulkSetBuffer5200.BulkSetBuffer5200_0 cs !!! 9%nat = 0xff).
  { intros cs. destruct (Buffer5200_calls_sentinels cs BulkSetBuffer5200.BulkSetBuffer5200_0)
      as [-> ->]. split; reflexivity. }
  assert (T0 : forall cs : list Trigger5200Setter,
            Trigger5200_calls BulkSetTrigger5200.BulkSetTrigger5200_0 cs !!! 4%nat = 0x02).
  { intros cs. rewrite Trigger5200_calls_sentinel. reflexivity. }
  split; [exact H0 | split; [| split; [exact T0 |]]].
  - intros usedPre usedPost recordLength cs frame. subst frame.
    rewrite BulkSetBuffer5200_5_calls. split.
    + apply H0.
    + unfold Buffer5200_calls. rewrite <- fold_left_app. apply H0.
  - intros triggerSource usedChannels fastRate triggerSlope triggerPulse cs.
    change (BulkSetTrigger5200.BulkSetTrigger5200_5 triggerSource usedChannels fastRate
              triggerSlope triggerPulse)
      with (Trigger5200_calls BulkSetTrigger5200.BulkSetTrigger5200_0
              [SetTriggerSource triggerSource; SetUsedChannels usedChannels;
               SetFastRate fastRate; SetTriggerSlope triggerSlope;
               SetTriggerPulse (negb (triggerPulse =? 0))]).
    unfold Trigger5200_calls. rewrite <- fold_left_app. apply T0.
Qed.

(** ** The two lengths of [BulkSetBuffer2250] *)

(** C9.  The constructor with two arguments builds an array of 12 bytes,
    the default constructor one of 10: two frames of the same type, of
    different lengths. *)
Theorem BulkSetBuffer2250_lengths (triggerPositionPre triggerPositionPost : Z) :
  DataArray.getSize (BulkSetBuffer2250.BulkSetBuffer2250_2 triggerPositionPre
                       triggerPositionPost) = 12%nat
  /\ DataArray.getSize BulkSetBuffer2250.BulkSetBuffer2250_0 = 10%nat
  /\ DataArray.getSize (BulkSetBuffer2250.BulkSetBuffer2250_2 triggerPositionPre
                          triggerPositionPost)
     <> DataArray.getSize BulkSetBuffer2250.BulkSetBuffer2250_0.
Proof.
  assert (H12 : DataArray.getSize (BulkSetBuffer2250.BulkSetBuffer2250_2 triggerPositionPre
                                     triggerPositionPost) = 12%nat).
  { unfold DataArray.getSize, BulkSetBuffer2250.BulkSetBuffer2250_2,
      BulkSetBuffer2250.setTriggerPositionPost, BulkSetBuffer2250.setTriggerPositionPre,
      BulkSetBuffer2250.init, DataArray.new.
    rewrite !length_insert. apply length_replicate. }
  assert (H10 : DataArray.getSize BulkSetBuffer2250.BulkSetBuffer2250_0 = 10%nat)
    by reflexivity.
  split; [exact H12 | split; [exact H10 |]].
  rewrite H12, H10. discriminate.
Qed.

(** ** The inverted flag of [BulkSetTrigger5200] *)

(** C10.  [setFastRate(b)] stores the negation of [b] in the [fastRate]
    member of the byte at offset 2 (0 for [true], 1 for [false]);
    [getFastRate] answers [true] exactly when the member is 0; so the
    getter after the setter returns [b]. *)
Theorem setFastRate_inverted (L : BitLayout) (b : bool) (array : list Z) :
  layout_ok L = true -> length array = 8%nat ->
  DataArray.getBits ETsrBits_fastRate 2 (BulkSetTrigger5200.setFastRate b array)
    = bit_of_bool (negb b)
  /\ (forall frame : list Z,
        BulkSetTrigger5200.getFastRate frame = true
        <-> DataArray.getBits ETsrBits_fastRate 2 frame = 0)
  /\ BulkSetTrigger5200.getFastRate (BulkSetTrigger5200.setFastRate b array) = b.
Proof.
  intros HL Hlen.
  assert (Hok : bf_ok ETsrBits_fastRate = true) by member_ok HL.
  pose proof (bf_range_gt_1 _ Hok) as Hr.
  assert (Hbit : DataArray.getBits ETsrBits_fastRate 2
                   (BulkSetTrigger5200.setFastRate b array) = bit_of_bool (negb b)).
  { unfold BulkSetTrigger5200.setFastRate. rewrite getBits_setBits by lia.
    destruct b; simpl; apply bf_get_set_value; try assumption; lia. }
  split; [exact Hbit | split].
  - intros frame. unfold BulkSetTrigger5200.getFastRate. apply Z.eqb_eq.
  - unfold BulkSetTrigger5200.getFastRate. rewrite Hbit. now destruct b.
Qed.

Lemma setFastRate_inverted_witness :
  BulkSetTrigger5200.getFastRate (L := sample_layout)
    (BulkSetTrigger5200.setFastRate (L := sample_layout) true (replicate 8 0xff)) = true.
Proof.
  refine (proj2 (proj2 (setFastRate_inverted sample_layout true (replicate 8 0xff) _ _))).
  - reflexivity.
  - reflexivity.
Defined.

(** * Properties of the session *)

Import Session.

(** Running the primitive steps of the monad. *)
Ltac run := unfold bind, ret, this, modify, call, note, out_of_budget; cbn [fst snd].

Lemma reply_after_shift (libusb : Device) (log : list Call) (c : Call) (k : nat) :
  reply_after libusb (log ++ [c]) c k = reply_after libusb log c (S k).
Proof. unfold reply_after. now rewrite <- app_assoc. Qed.

Lemma replicate_snoc_app (log : list Call) (c : Call) (n : nat) :
  (log ++ [c]) ++ replicate n c = log ++ replicate (S n) c.
Proof. now rewrite <- app_assoc. Qed.

Section Transfers.
Context {D : UsbDefs}.
Variable libusb : Device.

Lemma connectionLost_connected (u : USBDevice) (log : list Call) :
  handle u = true ->
  connectionLost (u, log) = Some (tt, (disconnected u, log ++ connectionLost_calls u)).
Proof.
  intros Hh. unfold connectionLost. run. rewrite Hh. simpl.
  unfold disconnected, connectionLost_calls. now rewrite <- !app_assoc.
Qed.

(** ** The retry loop of [bulkTransfer] *)

(** While the answers are timeouts and tries are left, the loop goes on. *)
Lemma bulkTransfer_loop_timeouts (endpoint : Z) (data : list Z) (length attempts timeout : Z)
    (u : USBDevice) (n : nat) :
  let c := libusb_bulk_transfer endpoint (outbound endpoint data) length timeout in
  forall (budget : nat) (attempt transferred : Z) (log : list Call),
    (forall k, (k < n)%nat -> r_code (reply_after libusb log c k) = LIBUSB_ERROR_TIMEOUT) ->
    n = 0%nat \/ attempt + Z.of_nat n <= attempts \/ attempts = -1 ->
    (n <= budget)%nat ->
    exists transferred',
      bulkTransfer_loop libusb budget endpoint data length attempts timeout
                        attempt LIBUSB_ERROR_TIMEOUT transferred (u, log)
      = bulkTransfer_loop libusb (budget - n) endpoint data length attempts timeout
                          (attempt + Z.of_nat n) LIBUSB_ERROR_TIMEOUT transferred'
                          (u, log ++ replicate n c).
Proof.
  intros c. induction n as [| n IH]; intros budget attempt transferred log Hto Hatt Hbud.
  - exists transferred. simpl. now rewrite Nat.sub_0_r, Z.add_0_r, app_nil_r.
  - destruct budget as [| budget]; [lia |].
    assert (Hgo : (attempt <? attempts) || (attempts =? -1) = true).
    { apply orb_true_iff. destruct Hatt as [Hn | [Hlt | ->]]; [lia | left | right].
      - apply Z.ltb_lt. lia.
      - reflexivity. }
    destruct (IH budget (attempt + 1) (r_transferred (libusb log c)) (log ++ [c]))
      as [t' Ht'].
    + intros k Hk. rewrite reply_after_shift. apply Hto. lia.
    + lia.
    + lia.
    + exists t'. cbn [bulkTransfer_loop]. rewrite Hgo. simpl. run.
      fold c. pose proof (Hto 0%nat ltac:(lia)) as H0.
      unfold reply_after in H0. simpl in H0. rewrite app_nil_r in H0.
      rewrite H0. rewrite Ht'.
      replace (attempt + 1 + Z.of_nat n) with (attempt + Z.of_nat (S n)) by lia.
      now rewrite replicate_snoc_app.
Qed.

(** The loop leaves when no try is left. *)
Lemma bulkTransfer_loop_exhausted (budget : nat) (endpoint : Z) (data : list Z)
    (length attempts timeout attempt errorCode transferred : Z) (s : USBDevice * list Call) :
  attempts <= attempt -> attempts <> -1 ->
  bulkTransfer_loop libusb budget endpoint data length attempts timeout
                    attempt errorCode transferred s
  = Some ((errorCode, transferred), s).
Proof.
  intros Hle Hne.
  assert (Hstop : (attempt <? attempts) || (attempts =? -1) = false).
  { apply orb_false_iff. split; [apply Z.ltb_ge; lia | apply Z.eqb_neq; lia]. }
  destruct budget; cbn [bulkTransfer_loop]; rewrite Hstop; reflexivity.
Qed.

(** The loop leaves after an answer that is no timeout. *)
Lemma bulkTransfer_loop_answer (budget : nat) (endpoint : Z) (data : list Z)
    (length attempts timeout attempt transferred : Z) (u : USBDevice) (log : list Call) :
  let c := libusb_bulk_transfer endpoint (outbound endpoint data) length timeout in
  attempt < attempts \/ attempts = -1 ->
  r_code (libusb log c) <> LIBUSB_ERROR_TIMEOUT ->
  bulkTransfer_loop libusb (S budget) endpoint data length attempts timeout
                    attempt LIBUSB_ERROR_TIMEOUT transferred (u, log)
  = Some ((r_code (libusb log c), r_transferred (libusb log c)), (u, log ++ [c])).
Proof.
  intros c Hatt Hans.
  assert (Hgo : (attempt <? attempts) || (attempts =? -1) = true).
  { apply orb_true_iff. destruct Hatt as [Hlt | ->]; [left | right].
    - now apply Z.ltb_lt.
    - reflexivity. }
  cbn [bulkTransfer_loop]. rewrite Hgo. simpl. run. fold c.
  assert (Hne : (r_code (libusb log c) =? LIBUSB_ERROR_TIMEOUT) = false)
    by now apply Z.eqb_neq.
  destruct budget; cbn [bulkTransfer_loop]; rewrite Hne, andb_false_r; reflexivity.
Qed.

(** [bulkTransfer] on a session without a handle. *)
Lemma bulkTransfer_no_handle (budget : nat) (endpoint : Z) (data : list Z)
    (length attempts timeout : Z) (u : USBDevice) (log : list Call) :
  handle u = false ->
  bulkTransfer libusb budget endpoint data length attempts timeout (u, log)
  = Some (LIBUSB_ERROR_NO_DEVICE, (u, log)).
Proof. intros Hh. unfold bulkTransfer. run. now rewrite Hh. Qed.

(** [bulkTransfer] when all the tries there are have timed out. *)
Lemma bulkTransfer_exhausted (budget : nat) (endpoint : Z) (data : list Z)
    (length attempts timeout : Z) (u : USBDevice) (log : list Call) (n : nat) :
  let c := libusb_bulk_transfer endpoint (outbound endpoint data) length timeout in
  (forall k, (k < n)%nat -> r_code (reply_after libusb log c k) = LIBUSB_ERROR_TIMEOUT) ->
  handle u = true -> attempts <> -1 -> Z.of_nat n = Z.max attempts 0 -> (n <= budget)%nat ->
  bulkTransfer libusb budget endpoint data length attempts timeout (u, log)
  = Some (LIBUSB_ERROR_TIMEOUT, (u, log ++ replicate n c)).
Proof.
  intros c Hto Hh Hne Hn Hbud. unfold bulkTransfer. run. rewrite Hh. simpl.
  destruct (bulkTransfer_loop_timeouts endpoint data length attempts timeout u n
              budget 0 0 log Hto ltac:(lia) Hbud) as [t' Ht'].
  fold c in Ht'. rewrite Ht'.
  rewrite bulkTransfer_loop_exhausted by lia. reflexivity.
Qed.

(** [bulkTransfer] when the try after [n] timeouts is answered. *)
Lemma bulkTransfer_answered (budget : nat) (endpoint : Z) (data : list Z)
    (length attempts timeout : Z) (u : USBDevice) (log : list Call) (n : nat) :
  let c := libusb_bulk_transfer endpoint (outbound endpoint data) length timeout in
  let reply := reply_after libusb log c in
  (forall k, (k < n)%nat -> r_code (reply k) = LIBUSB_ERROR_TIMEOUT) ->
  handle u = true -> Z.of_nat n < attempts \/ attempts = -1 ->
  r_code (reply n) <> LIBUSB_ERROR_TIMEOUT -> (n < budget)%nat ->
  bulkTransfer libusb budget endpoint data length attempts timeout (u, log)
  = if r_code (reply n) =? LIBUSB_ERROR_NO_DEVICE
    then Some (LIBUSB_ERROR_NO_DEVICE,
               (disconnected u, log ++ replicate (S n) c ++ connectionLost_calls u))
    else Some (if r_code (reply n) <? 0 then r_code (reply n)
               else r_transferred (reply n),
               (u, log ++ replicate (S n) c)).
Proof.
  intros c reply Hto Hh Hatt Hans Hbud. rewrite replicate_S_end, !app_assoc.
  unfold bulkTransfer. run. rewrite Hh. simpl.
  destruct (bulkTransfer_loop_timeouts endpoint data length attempts timeout u n
              budget 0 0 log Hto ltac:(lia) ltac:(lia)) as [t' Ht'].
  fold c in Ht'. rewrite Ht'.
  destruct (budget - n)%nat as [| b] eqn:Hb; [lia |].
  unfold reply, reply_after in Hans |- *.
  rewrite bulkTransfer_loop_answer by (try assumption; lia). fold c.
  set (r := libusb (log ++ replicate n c) c) in *.
  destruct (r_code r =? LIBUSB_ERROR_NO_DEVICE) eqn:Hnd.
  - apply Z.eqb_eq in Hnd. rewrite connectionLost_connected by assumption.
    rewrite Hnd. reflexivity.
  - simpl. now destruct (r_code r <? 0).
Qed.

End Transfers.

(** C7, as the source has it.  On a session without a handle
    [bulkTransfer] answers [NO_DEVICE] and transfers nothing.  Otherwise
    let the first [n] tries time out.  If [attempts] is not -1 and [n] is
    all the tries there are ([attempts] of them, none for a negative
    [attempts]), the result is [TIMEOUT] after exactly [n] transfers.  If
    another try is allowed ([n < attempts], or [attempts] is -1) and its
    answer is no timeout, the loop ends after [n + 1] transfers: on
    [NO_DEVICE] the session is disconnected and the code returned, on
    another error the code is returned, else the number of bytes
    transferred.  Only -1 stands for "without limit". *)
Theorem bulkTransfer_retry (libusb : Device) (budget : nat)
    (endpoint : Z) (data : list Z) (length attempts timeout : Z)
    (u : USBDevice) (log : list Call) (n : nat) :
  let c := libusb_bulk_transfer endpoint (outbound endpoint data) length timeout in
  let reply := reply_after libusb log c in
  (forall k, (k < n)%nat -> r_code (reply k) = LIBUSB_ERROR_TIMEOUT) ->
  (handle u = false ->
     bulkTransfer libusb budget endpoint data length attempts timeout (u, log)
     = Some (LIBUSB_ERROR_NO_DEVICE, (u, log)))
  /\ (handle u = true -> attempts <> -1 -> Z.of_nat n = Z.max attempts 0 ->
      (n <= budget)%nat ->
      bulkTransfer libusb budget endpoint data length attempts timeout (u, log)
      = Some (LIBUSB_ERROR_TIMEOUT, (u, log ++ replicate n c)))
  /\ (handle u = true -> Z.of_nat n < attempts \/ attempts = -1 ->
      r_code (reply n) <> LIBUSB_ERROR_TIMEOUT -> (n < budget)%nat ->
      bulkTransfer libusb budget endpoint data length attempts timeout (u, log)
      = if r_code (reply n) =? LIBUSB_ERROR_NO_DEVICE
        then Some (LIBUSB_ERROR_NO_DEVICE,
                   (disconnected u, log ++ replicate (S n) c ++ connectionLost_calls u))
        else Some (if r_code (reply n) <? 0 then r_code (reply n)
                   else r_transferred (reply n),
                   (u, log ++ replicate (S n) c))).
Proof.
  intros c reply Hto. split; [| split].
  - apply bulkTransfer_no_handle.
  - intros Hh Hne Hn Hbud. now apply bulkTransfer_exhausted.
  - intros Hh Hatt Hans Hbud. now apply bulkTransfer_answered.
Qed.

(** A device that times out twice and then delivers 64 bytes: three
    transfers, 64 bytes returned. *)
Lemma bulkTransfer_retry_witness :
  bulkTransfer (slow_device 2) 5 0x86 [] 64 3 500 (connected_session, [])
  = Some (64, (connected_session, replicate 3 (libusb_bulk_transfer 0x86 [] 64 500))).
Proof.
  refine (proj2 (proj2 (bulkTransfer_retry (slow_device 2) 5 0x86 [] 64 3 500
                          connected_session [] 2 _)) _ _ _ _).
  - intros k Hk. destruct k as [| [| k]]; [reflexivity | reflexivity | lia].
  - reflexivity.
  - left. lia.
  - discriminate.
  - lia.
Defined.

(** C7 as stated fails for a negative [attempts] other than -1: with
    [attempts = -2] a ready device is never asked and the result is
    [TIMEOUT]. *)
Lemma bulkTransfer_minus_two :
  bulkTransfer ready_device 5 0x86 [] 64 (-2) 500 (connected_session, [])
  = Some (LIBUSB_ERROR_TIMEOUT, (connected_session, [])).
Proof. reflexivity. Qed.

(** ** What a transfer function appends to the log *)

Lemma no_transfer_nil : no_transfer [].
Proof. constructor. Qed.

Lemma no_transfer_connectionLost (u : USBDevice) : no_transfer (connectionLost_calls u).
Proof. unfold connectionLost_calls. repeat constructor. Qed.

Section Logs.
Context {D : UsbDefs}.
Variable libusb : Device.

Lemma bulkTransfer_loop_log (endpoint : Z) (data : list Z) (length attempts timeout : Z)
    (u : USBDevice) (budget : nat) :
  let c := libusb_bulk_transfer endpoint (outbound endpoint data) length timeout in
  forall (attempt errorCode transferred : Z) (log : list Call) res s',
    bulkTransfer_loop libusb budget endpoint data length attempts timeout
                      attempt errorCode transferred (u, log) = Some (res, s') ->
    exists k, s' = (u, log ++ replicate k c) /\ (k = 0%nat -> fst res = errorCode).
Proof.
  intros c. induction budget as [| budget IH];
    intros attempt errorCode transferred log res s' Hrun;
    cbn [bulkTransfer_loop] in Hrun;
    destruct (((attempt <? attempts) || (attempts =? -1))
              && (errorCode =? LIBUSB_ERROR_TIMEOUT)).
  - discriminate.
  - injection Hrun as <- <-. exists 0%nat. simpl. now rewrite app_nil_r.
  - revert Hrun. run. intros Hrun. apply IH in Hrun as [k [-> _]].
    exists (S k). split; [| lia]. now rewrite replicate_snoc_app.
  - injection Hrun as <- <-. exists 0%nat. simpl. now rewrite app_nil_r.
Qed.

(** [bulkTransfer] appends some tries of one transfer and, when the device
    is gone, the calls of [connectionLost]; a result that is no error comes
    from at least one try and leaves the session as it was. *)
Lemma bulkTransfer_log (budget : nat) (endpoint : Z) (data : list Z)
    (length attempts timeout : Z) (u u' : USBDevice) (log log' : list Call) (res : Z) :
  let c := libusb_bulk_transfer endpoint (outbound endpoint data) length timeout in
  handle u = true ->
  bulkTransfer libusb budget endpoint data length attempts timeout (u, log)
  = Some (res, (u', log')) ->
  exists k tail, log' = log ++ replicate k c ++ tail /\ no_transfer tail.
Proof.
  intros c Hh. unfold bulkTransfer. run. rewrite Hh. simpl.
  destruct (bulkTransfer_loop libusb budget endpoint data length attempts timeout 0
              LIBUSB_ERROR_TIMEOUT 0 (u, log)) as [[[e t] s1] |] eqn:Hloop; [| discriminate].
  apply bulkTransfer_loop_log in Hloop as [k [-> _]]. fold c.
  destruct (e =? LIBUSB_ERROR_NO_DEVICE).
  - rewrite connectionLost_connected by assumption.
    intros Hrun. exists k, (connectionLost_calls u). split.
    + destruct (e <? 0); injection Hrun as _ _ <-; now rewrite app_assoc.
    + apply no_transfer_connectionLost.
  - simpl. intros Hrun. exists k, []. split; [| apply no_transfer_nil].
    destruct (e <? 0); injection Hrun as _ _ <-; now rewrite app_nil_r.
Qed.

Lemma controlTransfer_loop_log (type request : Z) (length value index attempts : Z)
    (u : USBDevice) (budget : nat) :
  forall (data : list Z),
  let c := libusb_control_transfer type request value index (outbound type data) length
             HANTEK_TIMEOUT in
  forall (attempt errorCode : Z) (log : list Call) res s',
    controlTransfer_loop libusb budget type request data length value index attempts
                         attempt errorCode (u, log) = Some (res, s') ->
    exists k, s' = (u, log ++ replicate k c) /\ (k = 0%nat -> fst res = errorCode).
Proof.
  induction budget as [| budget IH];
    intros data c attempt errorCode log res s' Hrun;
    cbn [controlTransfer_loop] in Hrun;
    destruct (((attempt <? attempts) || (attempts =? -1))
              && (errorCode =? LIBUSB_ERROR_TIMEOUT)).
  - discriminate.
  - injection Hrun as <- <-. exists 0%nat. simpl. now rewrite app_nil_r.
  - revert Hrun. run. intros Hrun. apply IH in Hrun as [k [-> _]].
    exists (S k). split; [| lia].
    assert (Hsame : outbound type (if Z.testbit type 7 then r_data (libusb log c) else data)
                    = outbound type data).
    { unfold outbound. now destruct (Z.testbit type 7). }
    fold c. rewrite Hsame. fold c. now rewrite replicate_snoc_app.
  - injection Hrun as <- <-. exists 0%nat. simpl. now rewrite app_nil_r.
Qed.

Lemma controlTransfer_log (budget : nat) (type request : Z) (data : list Z)
    (length value index attempts : Z) (u u' : USBDevice) (log log' : list Call)
    (res : Z * list Z) :
  let c := libusb_control_transfer type request value index (outbound type data) length
             HANTEK_TIMEOUT in
  handle u = true ->
  controlTransfer libusb budget type request data length value index attempts (u, log)
  = Some (res, (u', log')) ->
  exists k tail,
    log' = log ++ replicate k c ++ tail /\ no_transfer tail
    /\ (0 <= fst res -> (0 < k)%nat /\ tail = [] /\ u' = u).
Proof.
  intros c Hh. unfold controlTransfer. run. rewrite Hh. simpl.
  destruct (controlTransfer_loop libusb budget type request data length value index attempts
              0 LIBUSB_ERROR_TIMEOUT (u, log)) as [[[e d] s1] |] eqn:Hloop; [| discriminate].
  apply controlTransfer_loop_log in Hloop as [k [-> Hk]]. fold c. simpl in Hk.
  destruct (e =? LIBUSB_ERROR_NO_DEVICE) eqn:Hnd.
  - rewrite connectionLost_connected by assumption.
    intros Hrun. injection Hrun as <- <- <-. exists k, (connectionLost_calls u).
    split; [now rewrite app_assoc | split; [apply no_transfer_connectionLost |]].
    simpl. apply Z.eqb_eq in Hnd. unfold LIBUSB_ERROR_NO_DEVICE in Hnd. lia.
  - simpl. intros Hrun. injection Hrun as <- <- <-. exists k, [].
    split; [now rewrite app_nil_r | split; [apply no_transfer_nil |]].
    simpl. intros Hpos. split; [| split; reflexivity].
    destruct k; [| lia]. specialize (Hk eq_refl).
    unfold LIBUSB_ERROR_TIMEOUT in Hk. lia.
Qed.

(** With a bound on the tries, a budget of that many iterations is enough
    for a retry loop to return. *)
Lemma bulkTransfer_loop_total (endpoint : Z) (data : list Z) (length attempts timeout : Z)
    (budget : nat) :
  attempts <> -1 ->
  forall (attempt errorCode transferred : Z) (s : USBDevice * list Call),
    (Z.to_nat (attempts - attempt) <= budget)%nat ->
    exists res s',
      bulkTransfer_loop libusb budget endpoint data length attempts timeout
                        attempt errorCode transferred s = Some (res, s').
Proof.
  intros Hne. induction budget as [| budget IH]; intros attempt errorCode transferred s Hb;
    cbn [bulkTransfer_loop];
    destruct ((attempt <? attempts) || (attempts =? -1)) eqn:Hgo; simpl.
  - apply orb_true_iff in Hgo as [Hlt | Heq].
    + apply Z.ltb_lt in Hlt. lia.
    + apply Z.eqb_eq in Heq. lia.
  - eauto.
  - destruct (errorCode =? LIBUSB_ERROR_TIMEOUT); [| eauto].
    run. apply IH. lia.
  - eauto.
Qed.

Lemma controlTransfer_loop_total (type request : Z) (length value index attempts : Z)
    (budget : nat) :
  attempts <> -1 ->
  forall (data : list Z) (attempt errorCode : Z) (s : USBDevice * list Call),
    (Z.to_nat (attempts - attempt) <= budget)%nat ->
    exists res s',
      controlTransfer_loop libusb budget type request data length value index attempts
                           attempt errorCode s = Some (res, s').
Proof.
  intros Hne. induction budget as [| budget IH]; intros data attempt errorCode s Hb;
    cbn [controlTransfer_loop];
    destruct ((attempt <? attempts) || (attempts =? -1)) eqn:Hgo; simpl.
  - apply orb_true_iff in Hgo as [Hlt | Heq].
    + apply Z.ltb_lt in Hlt. lia.
    + apply Z.eqb_eq in Heq. lia.
  - eauto.
  - destruct (errorCode =? LIBUSB_ERROR_TIMEOUT); [| eauto].
    run. apply IH. lia.
  - eauto.
Qed.

Lemma connectionLost_total (s : USBDevice * list Call) :
  exists s', connectionLost s = Some (tt, s').
Proof. unfold connectionLost. run. destruct (handle (fst s)); simpl; eauto. Qed.

Lemma bulkTransfer_total (budget : nat) (endpoint : Z) (data : list Z)
    (length attempts timeout : Z) (s : USBDevice * list Call) :
  attempts <> -1 -> (Z.to_nat attempts <= budget)%nat ->
  exists res s', bulkTransfer libusb budget endpoint data length attempts timeout s
                 = Some (res, s').
Proof.
  intros Hne Hb. unfold bulkTransfer. run. destruct (handle (fst s)); simpl; [| eauto].
  destruct (bulkTransfer_loop_total endpoint data length attempts timeout budget Hne
              0 LIBUSB_ERROR_TIMEOUT 0 s) as [[e t] [s1 ->]]; [rewrite Z.sub_0_r; lia |].
  destruct (e =? LIBUSB_ERROR_NO_DEVICE).
  - destruct (connectionLost_total s1) as [s2 ->]. destruct (e <? 0); eauto.
  - simpl. destruct (e <? 0); eauto.
Qed.

Lemma controlTransfer_total (budget : nat) (type request : Z) (data : list Z)
    (length value index attempts : Z) (s : USBDevice * list Call) :
  attempts <> -1 -> (Z.to_nat attempts <= budget)%nat ->
  exists res s', controlTransfer libusb budget type request data length value index attempts s
                 = Some (res, s').
Proof.
  intros Hne Hb. unfold controlTransfer. run. destruct (handle (fst s)); simpl; [| eauto].
  destruct (controlTransfer_loop_total type request length value index attempts budget Hne
              data 0 LIBUSB_ERROR_TIMEOUT s) as [[e d] [s1 ->]]; [rewrite Z.sub_0_r; lia |].
  destruct (e =? LIBUSB_ERROR_NO_DEVICE).
  - destruct (connectionLost_total s1) as [s2 ->]. eauto.
  - simpl. eauto.
Qed.

End Logs.

(** ** The order of the transfers of a bulk command *)

Section BulkCommand.
Context {D : UsbDefs}.
Variable libusb : Device.

Lemma getConnectionSpeed_log (budget : nat) (u u' : USBDevice) (log log' : list Call)
    (res : Z) :
  handle u = true ->
  getConnectionSpeed libusb budget (u, log) = Some (res, (u', log')) ->
  exists k tail,
    log' = log ++ replicate k get_speed_transfer ++ tail /\ no_transfer tail
    /\ (0 <= res -> (0 < k)%nat /\ tail = [] /\ u' = u).
Proof.
  intros Hh. unfold getConnectionSpeed, controlRead. run. rewrite Hh. cbn [negb].
  destruct (controlTransfer libusb budget (Z.lor LIBUSB_REQUEST_TYPE_VENDOR LIBUSB_ENDPOINT_IN)
              CONTROL_GETSPEED ControlGetSpeed (Z.of_nat (DataArray.getSize ControlGetSpeed))
              control_value_default control_index_default HANTEK_ATTEMPTS (u, log))
    as [[[e d] [u1 log1]] |] eqn:Hct; [| discriminate].
  apply controlTransfer_log in Hct as (k & tail & -> & Htail & Hpos); [| assumption].
  cbn [fst] in Hpos. intros Hrun. exists k, tail.
  split; [| split; [assumption |]].
  - destruct (e <? 0); now injection Hrun as _ _ <-.
  - intros Hres. destruct (e <? 0) eqn:He.
    + injection Hrun as <- _ _. apply Z.ltb_lt in He. lia.
    + injection Hrun as _ <- _. apply Z.ltb_ge in He.
      destruct (Hpos He) as (Hk & Ht & Hu). auto.
Qed.

Lemma bulkWrite_log (budget : nat) (command : list Z) (attempts : Z)
    (u u' : USBDevice) (log log' : list Call) (res : Z) :
  handle u = true ->
  bulkWrite libusb budget command (Z.of_nat (DataArray.getSize command)) attempts (u, log)
  = Some (res, (u', log')) ->
  exists ng nw tail,
    log' = log ++ replicate ng get_speed_transfer
               ++ replicate nw (bulk_write_transfer command) ++ tail
    /\ no_transfer tail /\ ((0 < nw)%nat -> (0 < ng)%nat).
Proof.
  intros Hh. unfold bulkWrite. run. rewrite Hh. cbn [negb].
  destruct (getConnectionSpeed libusb budget (u, log)) as [[e [u1 log1]] |] eqn:Hsp;
    [| discriminate].
  apply getConnectionSpeed_log in Hsp as (ng & tail & -> & Htail & Hpos); [| assumption].
  destruct (e <? 0) eqn:He.
  - intros Hrun. injection Hrun as _ _ <-. exists ng, 0%nat, tail.
    split; [reflexivity | split; [assumption | lia]].
  - apply Z.ltb_ge in He. destruct (Hpos He) as (Hng & -> & ->).
    intros Hrun. apply bulkTransfer_log in Hrun as (nw & tail & -> & Htail'); [| assumption].
    exists ng, nw, tail. rewrite app_nil_r, <- app_assoc.
    split; [reflexivity | split; [assumption | lia]].
Qed.

Lemma controlWrite_log (budget : nat) (request : Z) (data : list Z)
    (length value index attempts : Z) (u u' : USBDevice) (log log' : list Call) (res : Z) :
  let c := libusb_control_transfer (Z.lor LIBUSB_REQUEST_TYPE_VENDOR LIBUSB_ENDPOINT_OUT)
             request value index data length HANTEK_TIMEOUT in
  handle u = true ->
  controlWrite libusb budget request data length value index attempts (u, log)
  = Some (res, (u', log')) ->
  exists k tail,
    log' = log ++ replicate k c ++ tail /\ no_transfer tail
    /\ (0 <= res -> (0 < k)%nat /\ tail = [] /\ u' = u).
Proof.
  intros c Hh. unfold controlWrite. run. rewrite Hh. cbn [negb].
  destruct (controlTransfer libusb budget (Z.lor LIBUSB_REQUEST_TYPE_VENDOR LIBUSB_ENDPOINT_OUT)
              request data length value index attempts (u, log))
    as [[r [u1 log1]] |] eqn:Hct; [| discriminate].
  apply controlTransfer_log in Hct as (k & tail & -> & Htail & Hpos); [| assumption].
  intros Hrun. injection Hrun as <- <- <-. exists k, tail. auto.
Qed.

Lemma getConnectionSpeed_total (budget : nat) (s : USBDevice * list Call) :
  HANTEK_ATTEMPTS <> -1 -> (Z.to_nat HANTEK_ATTEMPTS <= budget)%nat ->
  exists res s', getConnectionSpeed libusb budget s = Some (res, s').
Proof.
  intros Hne Hb. unfold getConnectionSpeed, controlRead. run.
  destruct (handle (fst s)); cbn [negb].
  - destruct (controlTransfer_total libusb budget
                (Z.lor LIBUSB_REQUEST_TYPE_VENDOR LIBUSB_ENDPOINT_IN) CONTROL_GETSPEED
                ControlGetSpeed (Z.of_nat (DataArray.getSize ControlGetSpeed))
                control_value_default control_index_default HANTEK_ATTEMPTS s Hne Hb)
      as [[e d] [s1 ->]].
    destruct (e <? 0); eauto.
  - destruct (LIBUSB_ERROR_NO_DEVICE <? 0); eauto.
Qed.

Lemma bulkWrite_total (budget : nat) (data : list Z) (length attempts : Z)
    (s : USBDevice * list Call) :
  HANTEK_ATTEMPTS <> -1 -> (Z.to_nat HANTEK_ATTEMPTS <= budget)%nat ->
  attempts <> -1 -> (Z.to_nat attempts <= budget)%nat ->
  exists res s', bulkWrite libusb budget data length attempts s = Some (res, s').
Proof.
  intros Hne Hb Hne' Hb'. unfold bulkWrite. run. destruct (handle (fst s)); cbn [negb].
  - destruct (getConnectionSpeed_total budget s Hne Hb) as [e [s1 ->]].
    destruct (e <? 0); [eauto |]. now apply bulkTransfer_total.
  - eauto.
Qed.

End BulkCommand.

(** C5, as the source has it.  On a session without a handle [bulkCommand]
    answers [NO_DEVICE], and on a connected session with bulk transfers
    disabled it answers [SUCCESS]; neither makes any call.  Otherwise the
    transfers it makes are, in this order: the BEGIN_COMMAND control write
    (once per try), the GETSPEED control read of [bulkWrite] (once per try),
    and the bulk write of the command (once per try); the bulk write is made
    only after both of the others.  With bounded tries it returns. *)
Theorem bulkCommand_order (D : UsbDefs) (libusb : Device) (budget : nat)
    (command : list Z) (attempts : Z) (u : USBDevice) (log : list Call) :
  (handle u = false ->
     bulkCommand libusb budget command attempts (u, log)
     = Some (LIBUSB_ERROR_NO_DEVICE, (u, log)))
  /\ (handle u = true -> allowBulkTransfer u = false ->
      bulkCommand libusb budget command attempts (u, log) = Some (LIBUSB_SUCCESS, (u, log)))
  /\ (handle u = true -> allowBulkTransfer u = true ->
      forall (res : Z) (u' : USBDevice) (log' : list Call),
        bulkCommand libusb budget command attempts (u, log) = Some (res, (u', log')) ->
        exists (nb ng nw : nat) (tail : list Call),
          log' = log ++ replicate nb (begin_command_transfer u)
                     ++ replicate ng get_speed_transfer
                     ++ replicate nw (bulk_write_transfer command) ++ tail
          /\ no_transfer tail
          /\ ((0 < nw)%nat -> (0 < nb)%nat /\ (0 < ng)%nat))
  /\ (HANTEK_ATTEMPTS <> -1 -> (Z.to_nat HANTEK_ATTEMPTS <= budget)%nat ->
      attempts <> -1 -> (Z.to_nat attempts <= budget)%nat ->
      exists res s', bulkCommand libusb budget command attempts (u, log) = Some (res, s')).
Proof.
  split; [| split; [| split]].
  - intros Hh. unfold bulkCommand. run. now rewrite Hh.
  - intros Hh Hallow. unfold bulkCommand. run. now rewrite Hh, Hallow.
  - intros Hh Hallow res u' log'. unfold bulkCommand. run. rewrite Hh, Hallow. cbn [negb].
    destruct (controlWrite libusb budget CONTROL_BEGINCOMMAND (beginCommandControl u)
                (Z.of_nat (DataArray.getSize (beginCommandControl u)))
                control_value_default control_index_default HANTEK_ATTEMPTS (u, log))
      as [[e [u1 log1]] |] eqn:Hcw; [| discriminate].
    apply controlWrite_log in Hcw as (nb & tail & -> & Htail & Hpos); [| assumption].
    destruct (e <? 0) eqn:He.
    + intros Hrun. injection Hrun as _ _ <-. exists nb, 0%nat, 0%nat, tail.
      split; [reflexivity | split; [assumption | lia]].
    + apply Z.ltb_ge in He. destruct (Hpos He) as (Hnb & -> & ->).
      intros Hrun. apply bulkWrite_log in Hrun as (ng & nw & tail & -> & Htail' & Hng);
        [| assumption].
      exists nb, ng, nw, tail. rewrite app_nil_r, <- app_assoc.
      split; [reflexivity | split; [assumption | lia]].
  - intros Hne Hb Hne' Hb'. unfold bulkCommand. run.
    destruct (handle u); cbn [negb]; [| eauto].
    destruct (allowBulkTransfer u); cbn [negb]; [| eauto].
    unfold controlWrite. run. destruct (handle u); cbn [negb].
    + destruct (controlTransfer_total libusb budget
                  (Z.lor LIBUSB_REQUEST_TYPE_VENDOR LIBUSB_ENDPOINT_OUT) CONTROL_BEGINCOMMAND
                  (beginCommandControl u)
                  (Z.of_nat (DataArray.getSize (beginCommandControl u)))
                  control_value_default control_index_default HANTEK_ATTEMPTS (u, log) Hne Hb)
        as [[e d] [s1 ->]].
      cbn [fst]. destruct (e <? 0); [eauto |]. now apply bulkWrite_total.
    + destruct (LIBUSB_ERROR_NO_DEVICE <? 0); [eauto |]. now apply bulkWrite_total.
Qed.

(** A run on a ready device: one transfer of each kind. *)
Lemma bulkCommand_order_witness :
  exists (nb ng nw : nat) (tail : list Call),
    [begin_command_transfer (D := sample_defs) connected_session;
     get_speed_transfer (D := sample_defs);
     bulk_write_transfer (D := sample_defs) BulkForceTrigger]
    = [] ++ replicate nb (begin_command_transfer (D := sample_defs) connected_session)
         ++ replicate ng (get_speed_transfer (D := sample_defs))
         ++ replicate nw (bulk_write_transfer (D := sample_defs) BulkForceTrigger) ++ tail
    /\ no_transfer tail
    /\ ((0 < nw)%nat -> (0 < nb)%nat /\ (0 < ng)%nat).
Proof.
  refine (proj1 (proj2 (proj2 (bulkCommand_order sample_defs ready_device 3 BulkForceTrigger 3
                                 connected_session []))) _ _ 2 connected_session _ _).
  - reflexivity.
  - reflexivity.
  - reflexivity.
Defined.

(** C5 as stated fails twice.  Between the BEGIN_COMMAND control write
    and the bulk write there is another transfer, the GETSPEED control
    read (first run); and with bulk transfers disabled a session without
    a handle answers [NO_DEVICE], not success (second run). *)
Lemma bulkCommand_speed_query_between :
  bulkCommand (D := sample_defs) ready_device 3 BulkForceTrigger 3 (connected_session, [])
  = Some (2, (connected_session,
              [ libusb_control_transfer 0x40 0xb3 0 0 [0x0f; 0; 0; 0; 0; 0; 0; 0; 0; 0] 10 500;
                libusb_control_transfer 0xc0 0xb2 0 0 [] 10 500;
                libusb_bulk_transfer 0x02 [0x02; 0] 2 500 ]))
  /\ bulkCommand (D := sample_defs) ready_device 3 BulkForceTrigger 3
       (set_allowBulkTransfer false detached_session, [])
     = Some (LIBUSB_ERROR_NO_DEVICE, (set_allowBulkTransfer false detached_session, [])).
Proof. split; reflexivity. Qed.

(** ** Reading several packets *)

Lemma packet_sizes_length (count : nat) (remaining P : Z) :
  length (packet_sizes count remaining P) = count.
Proof. revert remaining. induction count; intros; simpl; [reflexivity | now rewrite IHcount]. Qed.

Lemma packet_count_0 (L P : Z) : 0 < P -> L <= 0 -> packet_count L P = 0%nat.
Proof.
  intros HP HL. unfold packet_count.
  assert ((L + P - 1) / P <= 0); [| lia].
  apply Z.lt_succ_r. apply Z.div_lt_upper_bound; lia.
Qed.

Lemma packet_count_S (L P : Z) :
  0 < P -> 0 < L -> packet_count L P = S (packet_count (L - Z.min L P) P).
Proof.
  intros HP HL. unfold packet_count.
  destruct (Z.le_gt_cases L P) as [Hle | Hgt].
  - rewrite Z.min_l by lia. replace (L - L + P - 1) with (P - 1) by lia.
    rewrite (Z.div_small (P - 1) P) by lia.
    assert ((L + P - 1) / P = 1); [| lia].
    symmetry. apply Z.div_unique with (r := L - 1); lia.
  - rewrite Z.min_r by lia.
    replace (L + P - 1) with ((L - P + P - 1) + 1 * P) by lia.
    rewrite Z.div_add by lia.
    assert (0 <= (L - P + P - 1) / P) by (apply Z.div_pos; lia).
    lia.
Qed.

Section ReadMulti.
Context {D : UsbDefs}.
Variable libusb : Device.

(** One packet that the device delivers in full. *)
Lemma bulkTransfer_supplied (budget : nat) (n attempts : Z) (u : USBDevice)
    (log : list Call) :
  r_code (libusb log (bulk_read_transfer n)) = LIBUSB_SUCCESS ->
  r_transferred (libusb log (bulk_read_transfer n)) = n ->
  handle u = true ->
  0 < attempts \/ attempts = -1 -> (0 < budget)%nat ->
  bulkTransfer libusb budget HANTEK_EP_IN [] n attempts HANTEK_TIMEOUT_MULTI (u, log)
  = Some (n, (u, log ++ [bulk_read_transfer n])).
Proof.
  intros Hcode Hcount Hh Hatt Hb.
  pose proof (bulkTransfer_answered libusb budget HANTEK_EP_IN [] n attempts
                HANTEK_TIMEOUT_MULTI u log 0) as Hans.
  cbv zeta in Hans. specialize (Hans ltac:(intros k Hk; lia)).
  unfold reply_after in Hans. cbn [replicate] in Hans. rewrite app_nil_r in Hans.
  fold (bulk_read_transfer n) in Hans.
  rewrite Hans; [| assumption | lia | | assumption].
  - rewrite Hcode, Hcount. reflexivity.
  - rewrite Hcode. discriminate.
Qed.

(** The loop on a device that delivers in full: from [received] bytes on,
    it asks for the remaining packets and ends with all [L] bytes. *)
Lemma bulkReadMulti_loop_full (budget : nat) (L attempts : Z) (u : USBDevice) :
  supplies_in_full libusb -> handle u = true ->
  0 < attempts \/ attempts = -1 -> (0 < budget)%nat ->
  0 < inPacketLength u < 2 ^ 31 -> 0 < L < 2 ^ 32 ->
  forall (count n : nat) (received errorCode : Z) (log : list Call),
    0 <= received <= L -> (received < L -> errorCode = inPacketLength u) ->
    count = packet_count (L - received) (inPacketLength u) -> (count <= n)%nat ->
    exists errorCode',
      bulkReadMulti_loop libusb n budget L attempts received errorCode (u, log)
      = Some ((L, errorCode'),
              (u, log ++ map bulk_read_transfer
                           (packet_sizes count (L - received) (inPacketLength u)))).
Proof.
  intros Hfull Hh Hatt Hb HP HL.
  induction count as [| count IH]; intros n received errorCode log Hr He Hc Hn.
  - assert (received = L) as ->.
    { destruct (Z.eq_dec received L) as [| Hne]; [assumption |].
      rewrite packet_count_S in Hc by lia. discriminate. }
    exists errorCode. simpl. rewrite app_nil_r.
    destruct n; cbn [bulkReadMulti_loop]; run; now rewrite Z.ltb_irrefl.
  - assert (Hlt : received < L).
    { destruct (Z.lt_ge_cases received L) as [| Hge]; [assumption |].
      rewrite packet_count_0 in Hc by lia. discriminate. }
    rewrite (He Hlt). destruct n as [| n]; [lia |].
    cbn [bulkReadMulti_loop]. run.
    assert (Hcond : (received <? L) && (inPacketLength u =? inPacketLength u) = true).
    { apply andb_true_iff. split; [now apply Z.ltb_lt | apply Z.eqb_refl]. }
    rewrite Hcond.
    assert (Hmin : Z.min (uint32_t (L - received)) (uint32_t (inPacketLength u))
                   = Z.min (L - received) (inPacketLength u)).
    { unfold uint32_t. rewrite !Z.mod_small by lia. reflexivity. }
    rewrite Hmin. set (chunk := Z.min (L - received) (inPacketLength u)).
    destruct (Hfull log chunk) as [Hcode Hcount].
    rewrite bulkTransfer_supplied by assumption.
    assert (Hchunk : 0 < chunk) by (unfold chunk; lia).
    assert (Hgt : (chunk >? 0) = true) by (rewrite Z.gtb_ltb; now apply Z.ltb_lt).
    rewrite Hgt.
    assert (Hsum : uint32_t (received + chunk) = received + chunk).
    { unfold uint32_t. apply Z.mod_small. unfold chunk. lia. }
    rewrite Hsum.
    destruct (IH n (received + chunk) chunk (log ++ [bulk_read_transfer chunk]))
      as [e' He'].
    + unfold chunk. lia.
    + unfold chunk. lia.
    + rewrite packet_count_S in Hc by lia. fold chunk in Hc.
      replace (L - (received + chunk)) with (L - received - chunk) by lia. lia.
    + lia.
    + exists e'. rewrite He'. cbn [packet_sizes map]. fold chunk.
      replace (L - (received + chunk)) with (L - received - chunk) by lia.
      now rewrite <- app_assoc.
Qed.

(** While the device delivers full packets and bytes are missing, the
    loop goes on. *)
Lemma bulkReadMulti_loop_packets (budget : nat) (L attempts : Z) (u : USBDevice) :
  handle u = true -> 0 < attempts \/ attempts = -1 -> (0 < budget)%nat ->
  0 < inPacketLength u < 2 ^ 31 -> 0 < L < 2 ^ 32 ->
  let c := bulk_read_transfer (inPacketLength u) in
  forall (k n : nat) (received : Z) (log : list Call),
    (forall i, (i < k)%nat ->
       r_code (reply_after libusb log c i) = LIBUSB_SUCCESS
       /\ r_transferred (reply_after libusb log c i) = inPacketLength u) ->
    0 <= received -> received + Z.of_nat k * inPacketLength u < L -> (k <= n)%nat ->
    bulkReadMulti_loop libusb n budget L attempts received (inPacketLength u) (u, log)
    = bulkReadMulti_loop libusb (n - k) budget L attempts
        (received + Z.of_nat k * inPacketLength u) (inPacketLength u)
        (u, log ++ replicate k c).
Proof.
  intros Hh Hatt Hb HP HL c.
  induction k as [| k IH]; intros n received log Hfull Hr Hlt Hn.
  - simpl. now rewrite Nat.sub_0_r, Z.add_0_r, app_nil_r.
  - destruct n as [| n]; [lia |].
    cbn [bulkReadMulti_loop]. run.
    assert (Hcond : (received <? L) && (inPacketLength u =? inPacketLength u) = true).
    { apply andb_true_iff. split; [apply Z.ltb_lt; nia | apply Z.eqb_refl]. }
    rewrite Hcond.
    assert (Hmin : Z.min (uint32_t (L - received)) (uint32_t (inPacketLength u))
                   = inPacketLength u).
    { unfold uint32_t. rewrite !Z.mod_small by nia. nia. }
    rewrite Hmin. fold c.
    destruct (Hfull 0%nat ltac:(lia)) as [Hcode Hcount].
    unfold reply_after in Hcode, Hcount. cbn [replicate] in Hcode, Hcount.
    rewrite app_nil_r in Hcode, Hcount.
    rewrite bulkTransfer_supplied by assumption. fold c.
    assert (Hgt : (inPacketLength u >? 0) = true) by (rewrite Z.gtb_ltb; apply Z.ltb_lt; lia).
    rewrite Hgt.
    assert (Hsum : uint32_t (received + inPacketLength u) = received + inPacketLength u).
    { unfold uint32_t. apply Z.mod_small. nia. }
    rewrite Hsum. rewrite IH.
    + replace (received + inPacketLength u + Z.of_nat k * inPacketLength u)
        with (received + Z.of_nat (S k) * inPacketLength u) by lia.
      now rewrite replicate_snoc_app.
    + intros i Hi. rewrite reply_after_shift. apply Hfull. lia.
    + lia.
    + nia.
    + lia.
Qed.

(** The loop ends with the first transfer that reports anything but a full
    packet. *)
Lemma bulkReadMulti_loop_stop (n budget : nat) (L attempts received x : Z)
    (u u' : USBDevice) (log log' : list Call) :
  received < L ->
  bulkTransfer libusb budget HANTEK_EP_IN []
    (Z.min (uint32_t (L - received)) (uint32_t (inPacketLength u)))
    attempts HANTEK_TIMEOUT_MULTI (u, log) = Some (x, (u', log')) ->
  x <> inPacketLength u' ->
  bulkReadMulti_loop libusb (S n) budget L attempts received (inPacketLength u) (u, log)
  = Some ((if x >? 0 then uint32_t (received + x) else received, x), (u', log')).
Proof.
  intros Hlt Hbt Hx. cbn [bulkReadMulti_loop]. run.
  assert (Hcond : (received <? L) && (inPacketLength u =? inPacketLength u) = true).
  { apply andb_true_iff. split; [now apply Z.ltb_lt | apply Z.eqb_refl]. }
  rewrite Hcond, Hbt.
  assert (Hstop : (x =? inPacketLength u') = false) by now apply Z.eqb_neq.
  destruct n; cbn [bulkReadMulti_loop]; run; rewrite Hstop, andb_false_r; reflexivity.
Qed.

End ReadMulti.

(** A read of at least one byte.  With total length [L], packet
    length [P] and a device that delivers every packet in full, the
    session makes the ⌈L/P⌉ inbound bulk transfers of [packet_sizes], each
    asking for the smaller of [P] and what remains, and returns [L]. *)
Theorem bulkReadMulti_full (D : UsbDefs) (libusb : Device) (budget : nat) (L attempts : Z)
    (u : USBDevice) (log log1 : list Call) (speed : Z) :
  supplies_in_full libusb -> handle u = true ->
  0 < attempts \/ attempts = -1 ->
  0 < inPacketLength u < 2 ^ 31 -> 0 < L <= INT_MAX ->
  getConnectionSpeed libusb budget (u, log) = Some (speed, (u, log1)) -> 0 <= speed ->
  (packet_count L (inPacketLength u) <= budget)%nat ->
  bulkReadMulti libusb budget L attempts (u, log)
  = Some (L, (u, log1 ++ map bulk_read_transfer
                           (packet_sizes (packet_count L (inPacketLength u)) L
                                         (inPacketLength u))))
  /\ length (packet_sizes (packet_count L (inPacketLength u)) L (inPacketLength u))
     = packet_count L (inPacketLength u).
Proof.
  intros Hfull Hh Hatt HP HL Hspeed Hpos Hbud. split; [| apply packet_sizes_length].
  unfold INT_MAX in HL.
  assert (Hb : (0 < budget)%nat).
  { rewrite packet_count_S in Hbud by lia. lia. }
  unfold bulkReadMulti. run. rewrite Hh. cbn [negb]. rewrite Hspeed.
  assert (Hs : (speed <? 0) = false) by now apply Z.ltb_ge.
  rewrite Hs. cbn [fst].
  destruct (bulkReadMulti_loop_full libusb budget L attempts u Hfull Hh Hatt Hb HP
              ltac:(lia) (packet_count L (inPacketLength u)) budget 0 (inPacketLength u) log1)
    as [e' He']; [lia | reflexivity | now rewrite Z.sub_0_r | assumption |].
  rewrite He'. rewrite Z.sub_0_r.
  assert (Hgt : (L >? 0) = true) by (rewrite Z.gtb_ltb; apply Z.ltb_lt; lia).
  rewrite Hgt. unfold int.
  replace ((L + 2 ^ 31) mod 2 ^ 32 - 2 ^ 31) with L; [reflexivity |].
  rewrite Z.mod_small by lia. lia.
Qed.

(** C6, at the length where the source departs from it.  On a connected
    session whose speed query succeeds, a read of zero bytes makes no bulk
    transfer, as the claim has it, but returns the packet length
    [inPacketLength], not the zero bytes it has received: [errorCode] is
    preset to the packet length for the loop test and returned when nothing
    has been received. *)
Theorem bulkReadMulti_zero_length (D : UsbDefs) (libusb : Device) (budget : nat)
    (attempts : Z) (u : USBDevice) (log log1 : list Call) (speed : Z) :
  handle u = true ->
  getConnectionSpeed libusb budget (u, log) = Some (speed, (u, log1)) -> 0 <= speed ->
  bulkReadMulti libusb budget 0 attempts (u, log) = Some (inPacketLength u, (u, log1)).
Proof.
  intros Hh Hspeed Hpos. unfold bulkReadMulti. run. rewrite Hh. cbn [negb]. rewrite Hspeed.
  assert (Hs : (speed <? 0) = false) by now apply Z.ltb_ge.
  rewrite Hs. cbn [fst].
  destruct budget; cbn [bulkReadMulti_loop]; run; reflexivity.
Qed.

(** On the sample session: 512 is returned for a read of zero bytes,
    after the speed query alone. *)
Lemma bulkReadMulti_zero_length_witness :
  bulkReadMulti (D := sample_defs) ready_device 3 0 1 (connected_session, [])
  = Some (512, (connected_session, [get_speed_transfer (D := sample_defs)])).
Proof.
  apply (bulkReadMulti_zero_length sample_defs ready_device 3 1 connected_session []
           [get_speed_transfer (D := sample_defs)] 1).
  - reflexivity.
  - reflexivity.
  - lia.
Defined.

(** 1200 bytes in packets of 512: three transfers of 512, 512 and 176. *)
Lemma bulkReadMulti_full_witness :
  bulkReadMulti (D := sample_defs) ready_device 3 1200 1 (connected_session, [])
  = Some (1200, (connected_session,
                 [get_speed_transfer (D := sample_defs)]
                 ++ map (bulk_read_transfer (D := sample_defs)) [512; 512; 176])).
Proof.
  refine (proj1 (bulkReadMulti_full sample_defs ready_device 3 1200 1 connected_session []
                   [get_speed_transfer (D := sample_defs)] 1 _ _ _ _ _ _ _ _)).
  - intros log n. split; reflexivity.
  - reflexivity.
  - left. lia.
  - simpl. lia.
  - unfold INT_MAX. lia.
  - reflexivity.
  - lia.
  - vm_compute. lia.
Defined.

(** A read that is cut short.  Let the device deliver [k] full
    packets, fewer than the read needs, and let the next transfer report
    [x], fewer bytes than a packet (and no more than were asked for) or an
    error.  Then that transfer is the
    last one, and the result is the number of bytes received so far if it is
    positive, and [x] otherwise. *)
Theorem bulkReadMulti_short (D : UsbDefs) (libusb : Device) (budget : nat) (L attempts : Z)
    (u u' : USBDevice) (log log1 log' : list Call) (speed x : Z) (k : nat) :
  let P := inPacketLength u in
  let c := bulk_read_transfer P in
  handle u = true -> 0 < attempts \/ attempts = -1 ->
  0 < P < 2 ^ 31 -> 0 < L <= INT_MAX ->
  getConnectionSpeed libusb budget (u, log) = Some (speed, (u, log1)) -> 0 <= speed ->
  (forall i, (i < k)%nat ->
     r_code (reply_after libusb log1 c i) = LIBUSB_SUCCESS
     /\ r_transferred (reply_after libusb log1 c i) = P) ->
  Z.of_nat k * P < L ->
  bulkTransfer libusb budget HANTEK_EP_IN [] (Z.min (L - Z.of_nat k * P) P) attempts
               HANTEK_TIMEOUT_MULTI (u, log1 ++ replicate k c) = Some (x, (u', log')) ->
  x < P -> x <= L - Z.of_nat k * P -> inPacketLength u' = P -> (k < budget)%nat ->
  bulkReadMulti libusb budget L attempts (u, log)
  = Some (if Z.of_nat k * P + Z.max x 0 >? 0 then Z.of_nat k * P + Z.max x 0 else x,
          (u', log')).
Proof.
  intros P c Hh Hatt HP HL Hspeed Hpos Hfull Hk Hlast Hx Hx' HP' Hbud.
  unfold INT_MAX in HL. subst P.
  unfold bulkReadMulti. run. rewrite Hh. cbn [negb]. rewrite Hspeed.
  assert (Hs : (speed <? 0) = false) by now apply Z.ltb_ge.
  rewrite Hs. cbn [fst].
  rewrite (bulkReadMulti_loop_packets libusb budget L attempts u Hh Hatt ltac:(lia) HP
             ltac:(lia) k budget 0 log1 Hfull ltac:(lia) ltac:(lia) ltac:(lia)).
  fold c. rewrite Z.add_0_l.
  destruct (budget - k)%nat as [| n] eqn:Hn; [lia |].
  assert (Hmin : Z.min (uint32_t (L - Z.of_nat k * inPacketLength u))
                       (uint32_t (inPacketLength u))
                 = Z.min (L - Z.of_nat k * inPacketLength u) (inPacketLength u)).
  { unfold uint32_t. rewrite !Z.mod_small by nia. reflexivity. }
  rewrite (bulkReadMulti_loop_stop libusb n budget L attempts _ x u u' _ log' Hk);
    [| now rewrite Hmin | lia].
  destruct (x >? 0) eqn:Hgt; rewrite Z.gtb_ltb in Hgt.
  - apply Z.ltb_lt in Hgt. rewrite Z.max_l by lia.
    assert (Hsum : uint32_t (Z.of_nat k * inPacketLength u + x)
                   = Z.of_nat k * inPacketLength u + x).
    { unfold uint32_t. apply Z.mod_small. nia. }
    rewrite Hsum.
    assert (Hg : (Z.of_nat k * inPacketLength u + x >? 0) = true)
      by (rewrite Z.gtb_ltb; apply Z.ltb_lt; nia).
    rewrite Hg. unfold int. do 3 f_equal.
    rewrite Z.mod_small by nia. lia.
  - apply Z.ltb_ge in Hgt. rewrite Z.max_r by lia. rewrite Z.add_0_r.
    destruct (Z.of_nat k * inPacketLength u >? 0) eqn:Hg; [| reflexivity].
    unfold int. do 3 f_equal. rewrite Z.mod_small by nia. lia.
Qed.

(** 1200 bytes in packets of 512 from a device that delivers one full
    packet and then 100 bytes: two transfers, 612 bytes returned. *)
Lemma bulkReadMulti_short_witness :
  bulkReadMulti (D := sample_defs) short_device 3 1200 1 (connected_session, [])
  = Some (612, (connected_session,
                [get_speed_transfer (D := sample_defs)]
                ++ map (bulk_read_transfer (D := sample_defs)) [512; 512])).
Proof.
  refine (bulkReadMulti_short sample_defs short_device 3 1200 1 connected_session
            connected_session [] [get_speed_transfer (D := sample_defs)] _ 1 100 1
            _ _ _ _ _ _ _ _ _ _ _ _ _).
  - reflexivity.
  - left. lia.
  - simpl. lia.
  - unfold INT_MAX. lia.
  - reflexivity.
  - lia.
  - intros i Hi. destruct i as [| i]; [split; reflexivity | lia].
  - simpl. lia.
  - reflexivity.
  - simpl. lia.
  - simpl. lia.
  - reflexivity.
  - lia.
Defined.

(** ** Connecting *)

(** Deciding a test of the source with a known fact. *)
Ltac resolve H := rewrite H; cbv beta iota; cbn [fst snd negb].

Section Connect.
Context {D : UsbDefs}.
Variable libusb : Device.

Lemma connectDevice_interfaces_none (interfaces : list libusb_interface) (errorCode : Z)
    (s : USBDevice * list Call) :
  first_interface interfaces = None ->
  connectDevice_interfaces libusb interfaces errorCode s = Some (errorCode, s).
Proof.
  induction interfaces as [| i rest IH]; intros Hnone; cbn [connectDevice_interfaces].
  - reflexivity.
  - cbn [first_interface] in Hnone. destruct (altsetting i) as [| d ds].
    + now apply IH.
    + destruct (interface_matches d); [discriminate | now apply IH].
Qed.

Lemma connectDevice_interfaces_some (interfaces : list libusb_interface) (errorCode : Z)
    (d : libusb_interface_descriptor) (s : USBDevice * list Call) :
  first_interface interfaces = Some d ->
  connectDevice_interfaces libusb interfaces errorCode s
  = claimInterface libusb d HANTEK_EP_OUT HANTEK_EP_IN s.
Proof.
  induction interfaces as [| i rest IH]; intros Hsome; cbn [connectDevice_interfaces].
  - discriminate.
  - cbn [first_interface] in Hsome. destruct (altsetting i) as [| d' ds].
    + now apply IH.
    + destruct (interface_matches d'); [now injection Hsome as -> | now apply IH].
Qed.

Lemma first_interface_matches (interfaces : list libusb_interface)
    (d : libusb_interface_descriptor) :
  first_interface interfaces = Some d -> interface_matches d = true.
Proof.
  induction interfaces as [| i rest IH]; cbn [first_interface]; [discriminate |].
  destruct (altsetting i) as [| d' ds]; [exact IH |].
  destruct (interface_matches d') eqn:Hm; [| exact IH].
  intros Hsome. now injection Hsome as <-.
Qed.

Lemma interface_matches_endpoints (d : libusb_interface_descriptor) :
  interface_matches d = true -> exists e1 e2, endpoint d = [e1; e2].
Proof.
  unfold interface_matches, bNumEndpoints. rewrite !andb_true_iff.
  intros (_ & Hn). apply Z.eqb_eq in Hn.
  destruct (endpoint d) as [| e1 [| e2 [| e3 rest]]]; cbn [length] in Hn; try lia.
  eauto.
Qed.

Lemma claimInterface_refused (d : libusb_interface_descriptor) (u : USBDevice)
    (log : list Call) :
  let r := libusb log (libusb_claim_interface (bInterfaceNumber d)) in
  r_code r < 0 ->
  claimInterface libusb d HANTEK_EP_OUT HANTEK_EP_IN (u, log)
  = Some (r_code r, (u, log ++ [libusb_claim_interface (bInterfaceNumber d)])).
Proof.
  intros r Hneg. unfold claimInterface. run. fold r.
  apply Z.ltb_lt in Hneg. now rewrite Hneg.
Qed.

Lemma claimInterface_granted (d : libusb_interface_descriptor)
    (e1 e2 : libusb_endpoint_descriptor) (u : USBDevice) (log : list Call) :
  let r := libusb log (libusb_claim_interface (bInterfaceNumber d)) in
  endpoint d = [e1; e2] -> 0 <= r_code r ->
  claimInterface libusb d HANTEK_EP_OUT HANTEK_EP_IN (u, log)
  = Some (LIBUSB_SUCCESS,
          (mkUSBDevice (model u) (device u) (handle u) (bInterfaceNumber d)
                       (recorded_out e1 e2) (recorded_in e1 e2)
                       (allowBulkTransfer u) (beginCommandControl u),
           log ++ [libusb_claim_interface (bInterfaceNumber d)])).
Proof.
  intros r Hep Hpos. unfold claimInterface. run. fold r.
  apply Z.ltb_ge in Hpos. rewrite Hpos, Hep.
  cbn [claimInterface_endpoints]. run. unfold recorded_out, recorded_in.
  destruct (bEndpointAddress e1 =? HANTEK_EP_OUT), (bEndpointAddress e2 =? HANTEK_EP_OUT),
    (bEndpointAddress e1 =? HANTEK_EP_IN), (bEndpointAddress e2 =? HANTEK_EP_IN);
    reflexivity.
Qed.

(** After a successful open the outcome is that of the search for an
    interface. *)
Lemma connectDevice_opened (u : USBDevice) (log : list Call) :
  ids_differ u = false -> handle u = false ->
  r_code (libusb log libusb_open) = LIBUSB_SUCCESS ->
  connectDevice libusb (u, log)
  = match connectDevice_interfaces libusb (config_interface (device u))
            LIBUSB_ERROR_NOT_FOUND (set_handle true u, log ++ [libusb_open]) with
    | Some (errorCode, s') =>
        if negb (errorCode =? LIBUSB_SUCCESS)
        then Some ((false, Some (UsbError errorCode (bus_number (device u))
                                          (device_address (device u)))), s')
        else Some ((true, None), s')
    | None => None
    end.
Proof.
  intros Hid Hh Hopen. unfold connectDevice, needsFirmware, isConnected. run.
  fold (ids_differ u). resolve Hid. resolve Hh. resolve Hopen.
  change (negb (LIBUSB_SUCCESS =? LIBUSB_SUCCESS)) with false. cbv beta iota.
  cbn [fst snd set_handle device].
  destruct (connectDevice_interfaces libusb (config_interface (device u))
              LIBUSB_ERROR_NOT_FOUND (set_handle true u, log ++ [libusb_open]))
    as [[e s'] |]; [| reflexivity].
  now destruct (negb (e =? LIBUSB_SUCCESS)).
Qed.

End Connect.


(** C8, as the source has it.  [connectDevice] fails, storing no message,
    when the product or vendor ID of the descriptor differs from the
    model's.  Else, on a session that holds a handle, it succeeds at once
    and makes no call.  Else it opens the device: a refused open fails with
    the message that carries the code; without a matching interface it fails
    with [NOT_FOUND]; a refused claim fails with the code of the claim.  It
    succeeds after the claim of the first vendor-specific interface with
    two endpoints, whose number and packet sizes it has then recorded. *)
Theorem connectDevice_outcomes (D : UsbDefs) (libusb : Device) (u : USBDevice)
    (log : list Call) :
  let opened := libusb log libusb_open in
  let claim d := libusb (log ++ [libusb_open]) (libusb_claim_interface (bInterfaceNumber d)) in
  (ids_differ u = true -> connectDevice libusb (u, log) = Some ((false, None), (u, log)))
  /\ (ids_differ u = false -> handle u = true ->
      connectDevice libusb (u, log) = Some ((true, None), (u, log)))
  /\ (ids_differ u = false -> handle u = false -> r_code opened <> LIBUSB_SUCCESS ->
      connectDevice libusb (u, log)
      = Some ((false, Some (CouldntOpenDevice (r_code opened))),
              (set_handle false u, log ++ [libusb_open])))
  /\ (ids_differ u = false -> handle u = false -> r_code opened = LIBUSB_SUCCESS ->
      first_interface (config_interface (device u)) = None ->
      exists s', connectDevice libusb (u, log)
                 = Some ((false, Some (UsbError LIBUSB_ERROR_NOT_FOUND (bus_number (device u))
                                                (device_address (device u)))), s'))
  /\ (forall d, ids_differ u = false -> handle u = false -> r_code opened = LIBUSB_SUCCESS ->
      first_interface (config_interface (device u)) = Some d -> r_code (claim d) < 0 ->
      exists s', connectDevice libusb (u, log)
                 = Some ((false, Some (UsbError (r_code (claim d)) (bus_number (device u))
                                                (device_address (device u)))), s'))
  /\ (forall d e1 e2, ids_differ u = false -> handle u = false ->
      r_code opened = LIBUSB_SUCCESS ->
      first_interface (config_interface (device u)) = Some d -> endpoint d = [e1; e2] ->
      0 <= r_code (claim d) ->
      interface_matches d = true
      /\ connectDevice libusb (u, log)
         = Some ((true, None),
                 (claimed d e1 e2 u,
                  log ++ [libusb_open; libusb_claim_interface (bInterfaceNumber d)]))).
Proof.
  intros opened claim.
  split; [| split; [| split; [| split; [| split]]]].
  - intros Hid. unfold connectDevice, needsFirmware. run. fold (ids_differ u).
    now resolve Hid.
  - intros Hid Hh. unfold connectDevice, needsFirmware, isConnected. run.
    fold (ids_differ u). resolve Hid. now resolve Hh.
  - intros Hid Hh Hopen. unfold connectDevice, needsFirmware, isConnected. run.
    fold (ids_differ u). resolve Hid. resolve Hh. fold opened.
    apply Z.eqb_neq in Hopen. now resolve Hopen.
  - intros Hid Hh Hopen Hnone.
    rewrite connectDevice_opened by assumption.
    rewrite connectDevice_interfaces_none by assumption.
    eexists. reflexivity.
  - intros d Hid Hh Hopen Hsome Hneg.
    rewrite connectDevice_opened by assumption.
    rewrite (connectDevice_interfaces_some libusb _ _ d) by assumption.
    rewrite claimInterface_refused by exact Hneg. fold (claim d).
    assert (Hne : (r_code (claim d) =? LIBUSB_SUCCESS) = false)
      by (apply Z.eqb_neq; unfold LIBUSB_SUCCESS; lia).
    rewrite Hne. eexists. reflexivity.
  - intros d e1 e2 Hid Hh Hopen Hsome Hep Hpos.
    split; [exact (first_interface_matches _ _ Hsome) |].
    rewrite connectDevice_opened by assumption.
    rewrite (connectDevice_interfaces_some libusb _ _ d) by assumption.
    rewrite (claimInterface_granted libusb d e1 e2) by assumption.
    change (negb (LIBUSB_SUCCESS =? LIBUSB_SUCCESS)) with false. cbv iota.
    unfold claimed. cbn [set_handle model device handle allowBulkTransfer beginCommandControl].
    now rewrite <- app_assoc.
Qed.

(** The sample session connects to a ready device: the interface is claimed
    and both packet lengths are 512. *)
Lemma connectDevice_outcomes_witness :
  connectDevice (D := sample_defs) ready_device (detached_session, [])
  = Some ((true, None), (connected_session, [libusb_open; libusb_claim_interface 0])).
Proof.
  refine (proj2 (proj2 (proj2 (proj2 (proj2 (proj2
            (connectDevice_outcomes sample_defs ready_device detached_session [])))))
            sample_interface
            {| bEndpointAddress := 0x02; wMaxPacketSize := 512 |}
            {| bEndpointAddress := 0x86; wMaxPacketSize := 512 |} _ _ _ _ _ _)).
  - reflexivity.
  - reflexivity.
  - reflexivity.
  - reflexivity.
  - reflexivity.
  - vm_compute. discriminate.
Defined.

(** C8 as stated fails on a session that is already connected:
    [connectDevice] does not fail, it reports success and makes no call. *)
Lemma connectDevice_already_connected :
  connectDevice (D := sample_defs) ready_device (connected_session, [])
  = Some ((true, None), (connected_session, [])).
Proof. reflexivity. Qed.

(** * More on the frames *)

(** ** Bits of a member *)

Lemma bf_set_testbit (f : Bitfield) (v b n : Z) :
  0 <= bf_shift f -> 0 <= bf_width f -> 0 <= n ->
  Z.testbit (bf_set f v b) n
  = if (bf_shift f <=? n) && (n <? bf_shift f + bf_width f)
    then Z.testbit v (n - bf_shift f) else Z.testbit b n.
Proof.
  intros Hs Hw Hn. unfold bf_set.
  rewrite Z.lor_spec, Z.land_spec, Z.lnot_spec, !Z.shiftl_spec, Z.land_spec by lia.
  destruct (Z.leb_spec (bf_shift f) n) as [Hle | Hlt]; cbn [andb].
  - rewrite Z.testbit_ones_nonneg by lia.
    destruct (Z.ltb_spec n (bf_shift f + bf_width f)) as [Hin | Hout].
    + assert (Hb : (n - bf_shift f <? bf_width f) = true) by (apply Z.ltb_lt; lia).
      rewrite Hb. cbn [negb]. now rewrite andb_false_r, andb_true_r.
    + assert (Hb : (n - bf_shift f <? bf_width f) = false) by (apply Z.ltb_ge; lia).
      rewrite Hb. cbn [negb]. now rewrite andb_true_r, andb_false_r, orb_false_r.
  - rewrite !(Z.testbit_neg_r _ (n - bf_shift f)) by lia.
    cbn [negb andb]. now rewrite andb_true_r, orb_false_r.
Qed.

Lemma bf_get_testbit (f : Bitfield) (b n : Z) :
  0 <= bf_shift f -> 0 <= bf_width f -> 0 <= n ->
  Z.testbit (bf_get f b) n = (n <? bf_width f) && Z.testbit b (n + bf_shift f).
Proof.
  intros Hs Hw Hn. unfold bf_get.
  rewrite Z.land_spec, Z.shiftr_spec, Z.testbit_ones_nonneg by lia.
  apply andb_comm.
Qed.

(** Case analysis on the position of a bit against a member. *)
Ltac bit_cases :=
  repeat match goal with
  | |- context [(?a <=? ?b)] => destruct (Z.leb_spec a b)
  | |- context [(?a <? ?b)] => destruct (Z.ltb_spec a b)
  end; cbn [andb orb negb]; try reflexivity; try lia.

(** The last assignment to a member wins. *)
Lemma bf_set_set (f : Bitfield) (v w b : Z) :
  bf_ok f = true -> bf_set f v (bf_set f w b) = bf_set f v b.
Proof.
  intros Hok. apply bf_ok_bounds in Hok. apply Z.bits_inj'; intros n Hn.
  rewrite !bf_set_testbit by lia. bit_cases.
Qed.

(** Assigning to a member what it holds changes nothing. *)
Lemma bf_set_get (f : Bitfield) (b : Z) :
  bf_ok f = true -> bf_set f (bf_get f b) b = b.
Proof.
  intros Hok. apply bf_ok_bounds in Hok. apply Z.bits_inj'; intros n Hn.
  rewrite bf_set_testbit by lia.
  destruct ((bf_shift f <=? n) && (n <? bf_shift f + bf_width f)) eqn:Hin; [| reflexivity].
  apply andb_true_iff in Hin as [Hle Hlt]. apply Z.leb_le in Hle. apply Z.ltb_lt in Hlt.
  rewrite bf_get_testbit by lia.
  replace (n - bf_shift f + bf_shift f) with n by lia.
  assert (Hb : (n - bf_shift f <? bf_width f) = true) by (apply Z.ltb_lt; lia).
  now rewrite Hb.
Qed.

(** A member is not touched by an assignment to another one. *)
Lemma bf_get_set_apart (f g : Bitfield) (v b : Z) :
  bf_ok f = true -> bf_ok g = true -> members_apart f g = true ->
  bf_get g (bf_set f v b) = bf_get g b.
Proof.
  intros Hf Hg Hapart. apply bf_ok_bounds in Hf. apply bf_ok_bounds in Hg.
  unfold members_apart in Hapart. apply orb_true_iff in Hapart.
  rewrite !Z.leb_le in Hapart.
  apply Z.bits_inj'; intros n Hn.
  rewrite !bf_get_testbit by lia.
  destruct (Z.ltb_spec n (bf_width g)) as [Hin | Hout]; cbn [andb]; [| reflexivity].
  rewrite bf_set_testbit by lia. bit_cases.
Qed.

(** Assignments to members that share no bit commute. *)
Lemma bf_set_comm (f g : Bitfield) (v w b : Z) :
  bf_ok f = true -> bf_ok g = true -> members_apart f g = true ->
  bf_set f v (bf_set g w b) = bf_set g w (bf_set f v b).
Proof.
  intros Hf Hg Hapart. apply bf_ok_bounds in Hf. apply bf_ok_bounds in Hg.
  unfold members_apart in Hapart. apply orb_true_iff in Hapart.
  rewrite !Z.leb_le in Hapart.
  apply Z.bits_inj'; intros n Hn.
  rewrite !bf_set_testbit by lia. bit_cases.
Qed.

Lemma members_apart_sym (f g : Bitfield) : members_apart f g = members_apart g f.
Proof. unfold members_apart. apply orb_comm. Qed.

(** A member holds a value below [bf_range]. *)
Lemma bf_get_range (f : Bitfield) (b : Z) :
  bf_ok f = true -> 0 <= bf_get f b < bf_range f.
Proof.
  intros Hok. apply bf_ok_bounds in Hok. unfold bf_get, bf_range.
  rewrite Z.land_ones by lia. apply Z.mod_pos_bound. apply Z.pow_pos_nonneg; lia.
Qed.

(** An assignment to a member of a byte leaves a byte. *)
Lemma bf_set_byte (f : Bitfield) (v b : Z) :
  bf_ok f = true -> 0 <= b < 256 -> 0 <= bf_set f v b < 256.
Proof.
  intros Hok Hb. apply bf_ok_bounds in Hok.
  assert (Hhigh : forall n, 8 <= n -> Z.testbit (bf_set f v b) n = false).
  { intros n Hn. rewrite bf_set_testbit by lia.
    assert (Hout : (bf_shift f <=? n) && (n <? bf_shift f + bf_width f) = false).
    { apply andb_false_iff. right. apply Z.ltb_ge. lia. }
    rewrite Hout. destruct (Z.eq_dec b 0) as [-> | Hnz]; [apply Z.bits_0 |].
    apply Z.bits_above_log2; [lia |].
    assert (Z.log2 b < 8); [| lia]. apply Z.log2_lt_pow2; lia. }
  assert (Hnonneg : 0 <= bf_set f v b).
  { apply Z.bits_iff_nonneg_ex. exists 8. intros n Hn. apply Hhigh. lia. }
  split; [exact Hnonneg |].
  destruct (Z.eq_dec (bf_set f v b) 0) as [-> | Hnz]; [lia |].
  change 256 with (2 ^ 8). apply Z.log2_lt_pow2; [lia |].
  destruct (Z.lt_ge_cases (Z.log2 (bf_set f v b)) 8) as [| Hge]; [assumption |].
  pose proof (Z.bit_log2 (bf_set f v b) ltac:(lia)) as Hbit.
  rewrite Hhigh in Hbit by lia. discriminate.
Qed.

(** ** Arrays, offset by offset *)

Ltac members :=
  repeat match goal with
  | H : _ ∉ _ :: _ |- _ => apply not_elem_of_cons in H as [? ?]
  | H : _ ∈ [] |- _ => apply elem_of_nil in H; contradiction
  end;
  rewrite ?elem_of_cons, ?not_elem_of_cons, ?elem_of_nil in *;
  intuition (subst; try congruence; eauto).

Lemma list_eq_total (l k : list Z) :
  length l = length k -> (forall i, (i < length l)%nat -> l !!! i = k !!! i) -> l = k.
Proof.
  intros Hlen Hall. apply (list_eq_same_length l k (length l)); [congruence | reflexivity |].
  intros i x y Hi Hx Hy. specialize (Hall i Hi).
  rewrite (list_lookup_total_correct _ _ _ Hx), (list_lookup_total_correct _ _ _ Hy) in Hall.
  exact Hall.
Qed.

Lemma list_insert_total_id (array : list Z) (i : nat) : <[i := array !!! i]> array = array.
Proof.
  destruct (Nat.lt_ge_cases i (length array)) as [Hlt | Hge].
  - apply list_insert_id. now apply list_lookup_lookup_total_lt.
  - now apply list_insert_ge.
Qed.

Lemma length_store_bytes (offsets : list nat) (values array : list Z) :
  length (store_bytes offsets values array) = length array.
Proof.
  revert values array. induction offsets as [| o os IH]; intros [| x xs] array; cbn; trivial.
  rewrite IH. apply length_insert.
Qed.

Lemma store_bytes_total (offsets : list nat) (values array : list Z) (i : nat) :
  Forall (fun o => (o < length array)%nat) offsets ->
  store_bytes offsets values array !!! i = default (array !!! i) (assigned offsets values i).
Proof.
  revert values array. induction offsets as [| o os IH]; intros [| x xs] array Hin;
    cbn [store_bytes assigned]; try reflexivity.
  inversion Hin as [| ? ? Ho Hos]; subst.
  rewrite IH by (rewrite length_insert; exact Hos).
  destruct (assigned os xs i) as [later |]; [reflexivity |]. cbn [default].
  destruct (decide (o = i)) as [-> | Hne]; cbn [default].
  - now apply list_lookup_total_insert_eq.
  - now apply list_lookup_total_insert_ne.
Qed.

Lemma assigned_None (offsets : list nat) (values : list Z) (i : nat) :
  i ∉ offsets -> assigned offsets values i = None.
Proof.
  revert values. induction offsets as [| o os IH]; intros [| x xs] Hnot; cbn; trivial.
  rewrite IH by members.
  destruct (decide (o = i)) as [-> | Hne]; [members | reflexivity].
Qed.

Lemma assigned_Some_in (offsets : list nat) (values : list Z) (i : nat) (x : Z) :
  assigned offsets values i = Some x -> i ∈ offsets.
Proof.
  intros Hsome. destruct (decide (i ∈ offsets)) as [| Hnot]; [assumption |].
  rewrite assigned_None in Hsome by assumption. discriminate.
Qed.

Lemma assigned_is_Some (offsets : list nat) (values : list Z) (i : nat) :
  length values = length offsets -> i ∈ offsets -> is_Some (assigned offsets values i).
Proof.
  revert values. induction offsets as [| o os IH]; intros [| x xs] Hlen Hin;
    cbn in Hlen |- *; try lia; [members |].
  destruct (decide (i ∈ os)) as [Hos | Hnot].
  - destruct (IH xs ltac:(lia) Hos) as [y ->]. eauto.
  - rewrite assigned_None by assumption.
    assert (o = i) as -> by members. rewrite decide_True by reflexivity. eauto.
Qed.

(** With no offset twice, every offset is left with the value paired
    with it. *)
Lemma assigned_map (offsets : list nat) (values : list Z) :
  NoDup offsets -> length values = length offsets ->
  map (fun i => default 0 (assigned offsets values i)) offsets = values.
Proof.
  revert values. induction offsets as [| o os IH]; intros [| x xs] Hnd Hlen;
    cbn in Hlen |- *; try lia; [reflexivity |].
  apply NoDup_cons in Hnd as [Hnot Hnd].
  rewrite assigned_None by assumption. rewrite decide_True by reflexivity. cbn [default].
  f_equal. transitivity (map (fun i => default 0 (assigned os xs i)) os);
    [| apply IH; [assumption | lia]].
  apply map_ext_in. intros i Hi. apply list_elem_of_In in Hi.
  destruct (assigned_is_Some os xs i ltac:(lia) Hi) as [y ->]. reflexivity.
Qed.

Lemma assigned_None_length (offsets : list nat) (values values' : list Z) (i : nat) :
  length values = length values' ->
  assigned offsets values i = None -> assigned offsets values' i = None.
Proof.
  revert values values'. induction offsets as [| o os IH]; intros [| x xs] [| x' xs'] Hlen;
    cbn in Hlen |- *; try lia; trivial.
  destruct (assigned os xs i) eqn:Hrec; [discriminate |].
  rewrite (IH xs xs' ltac:(lia) Hrec).
  destruct (decide (o = i)); [discriminate | reflexivity].
Qed.

(** ** Places *)

Lemma length_write_place (p : Place) (raw array : list Z) :
  length (write_place p raw array) = length array.
Proof.
  destruct p as [o m | os]; cbn.
  - destruct raw; [reflexivity | apply length_insert].
  - apply length_store_bytes.
Qed.

Lemma place_ok_offsets (p : Place) (n : nat) :
  place_ok p n -> Forall (fun o => (o < n)%nat) (place_offsets p).
Proof.
  destruct p as [o m | os]; cbn.
  - intros [Ho _]. now repeat constructor.
  - now intros [_ Hos].
Qed.

Lemma write_place_total (p : Place) (raw array : list Z) (i : nat) :
  Forall (fun o => (o < length array)%nat) (place_offsets p) ->
  write_place p raw array !!! i = default (array !!! i) (written p raw array i).
Proof.
  destruct p as [o m | os]; cbn [write_place written place_offsets]; intros Hin.
  - destruct raw as [| x xs]; [reflexivity |].
    inversion Hin as [| ? ? Ho _]; subst.
    destruct (decide (o = i)) as [-> | Hne]; cbn [default].
    + now apply list_lookup_total_insert_eq.
    + now apply list_lookup_total_insert_ne.
  - now apply store_bytes_total.
Qed.

Lemma written_None (p : Place) (raw array : list Z) (i : nat) :
  i ∉ place_offsets p -> written p raw array i = None.
Proof.
  destruct p as [o m | os]; cbn [written place_offsets]; intros Hnot.
  - destruct raw; [reflexivity |]. rewrite decide_False; [reflexivity | members].
  - now apply assigned_None.
Qed.

(** A write is confined to the offsets of its place. *)
Lemma write_place_confined (p : Place) (raw array : list Z) (i : nat) :
  i ∉ place_offsets p -> write_place p raw array !!! i = array !!! i.
Proof.
  destruct p as [o m | os]; cbn [write_place place_offsets]; intros Hnot.
  - destruct raw; [reflexivity |]. apply list_lookup_total_insert_ne. members.
  - revert raw array. induction os as [| o os IH]; intros [| x xs] array;
      cbn [store_bytes]; try reflexivity.
    rewrite IH by members. apply list_lookup_total_insert_ne. members.
Qed.

(** What is written can be read back. *)
Lemma read_write_place (p : Place) (raw array : list Z) :
  place_ok p (length array) -> raw_fits p raw ->
  read_place p (write_place p raw array) = raw.
Proof.
  destruct p as [o m | os]; cbn [place_ok raw_fits read_place write_place].
  - intros [Ho Hok] (x & -> & Hx).
    rewrite list_lookup_total_insert_eq by assumption.
    now rewrite bf_get_set_value.
  - intros [Hnd Hin] [Hlen _].
    transitivity (map (fun i => default 0 (assigned os raw i)) os);
      [| now apply assigned_map].
    apply map_ext_in. intros i Hi. apply list_elem_of_In in Hi.
    rewrite store_bytes_total by assumption.
    destruct (assigned_is_Some os raw i Hlen Hi) as [y ->]. reflexivity.
Qed.

(** A write to one place is not seen at a place apart from it. *)
Lemma read_write_apart (p q : Place) (raw array : list Z) :
  place_ok p (length array) -> place_ok q (length array) -> places_apart p q ->
  read_place q (write_place p raw array) = read_place q array.
Proof.
  intros Hp Hq Hapart.
  destruct p as [o m | os], q as [o' m' | os']; cbn [places_apart place_offsets] in Hapart.
  - cbn [read_place]. f_equal. destruct Hp as [Ho Hm], Hq as [Ho' Hm'].
    destruct (decide (o = o')) as [<- | Hne].
    + destruct Hapart as [Habs | Hmem]; [contradiction |].
      cbn [write_place]. destruct raw as [| x xs]; [reflexivity |].
      rewrite list_lookup_total_insert_eq by assumption.
      now apply bf_get_set_apart.
    + rewrite write_place_confined by (cbn; members). reflexivity.
  - cbn [read_place]. apply map_ext_in. intros i Hi. apply list_elem_of_In in Hi.
    apply write_place_confined. cbn. intros Hin. apply (Hapart i); members.
  - cbn [read_place]. f_equal. f_equal.
    apply write_place_confined. cbn. intros Hin. apply (Hapart o'); members.
  - cbn [read_place]. apply map_ext_in. intros i Hi. apply list_elem_of_In in Hi.
    apply write_place_confined. cbn. intros Hin. now apply (Hapart i).
Qed.

(** The last write to a place wins. *)
Lemma write_write_place (p : Place) (raw raw' array : list Z) :
  place_ok p (length array) -> length raw = length raw' ->
  write_place p raw (write_place p raw' array) = write_place p raw array.
Proof.
  intros Hp Hlen. apply list_eq_total; [now rewrite !length_write_place |].
  intros i _. pose proof (place_ok_offsets p _ Hp) as Hin.
  rewrite !write_place_total by (rewrite ?length_write_place; exact Hin).
  destruct p as [o m | os]; cbn [written].
  - destruct raw as [| x xs], raw' as [| x' xs']; cbn in Hlen; try lia; [reflexivity |].
    destruct Hp as [Ho Hm]. destruct (decide (o = i)) as [-> | Hne]; cbn [default].
    + f_equal. cbn [write_place]. rewrite list_lookup_total_insert_eq by assumption.
      now apply bf_set_set.
    + reflexivity.
  - destruct (assigned os raw i) as [y |] eqn:Hy; cbn [default]; [reflexivity |].
    now rewrite (assigned_None_length os raw raw' i Hlen Hy).
Qed.

(** Writes to places apart from each other can be made in either order. *)
Lemma write_place_comm (p q : Place) (raw raw' array : list Z) :
  place_ok p (length array) -> place_ok q (length array) -> places_apart p q ->
  write_place p raw (write_place q raw' array) = write_place q raw' (write_place p raw array).
Proof.
  intros Hp Hq Hapart. apply list_eq_total; [now rewrite !length_write_place |].
  intros i _.
  pose proof (place_ok_offsets p _ Hp) as Hpin. pose proof (place_ok_offsets q _ Hq) as Hqin.
  rewrite !write_place_total by (rewrite ?length_write_place; assumption).
  destruct p as [o m | os], q as [o' m' | os']; cbn [places_apart place_offsets] in Hapart;
    cbn [written].
  - destruct Hp as [Ho Hm], Hq as [Ho' Hm'].
    destruct raw as [| x xs], raw' as [| x' xs']; try reflexivity.
    cbn [write_place].
    destruct (decide (o = i)) as [-> | Hne], (decide (o' = i)) as [-> | Hne']; cbn [default].
    + rewrite !list_lookup_total_insert_eq by assumption.
      destruct Hapart as [Habs | Hmem]; [contradiction |]. now apply bf_set_comm.
    + now rewrite list_lookup_total_insert_ne by assumption.
    + now rewrite list_lookup_total_insert_ne by assumption.
    + reflexivity.
  - destruct raw as [| x xs].
    + cbn [write_place]. reflexivity.
    + destruct (decide (o = i)) as [-> | Hne]; cbn [default].
      * rewrite assigned_None by (intros Hin; apply (Hapart i); members).
        cbn [default].
        rewrite write_place_confined by (cbn; intros Hin; apply (Hapart i); members).
        reflexivity.
      * reflexivity.
  - destruct raw' as [| x' xs'].
    + cbn [write_place]. reflexivity.
    + destruct (decide (o' = i)) as [-> | Hne]; cbn [default].
      * rewrite assigned_None by (intros Hin; apply (Hapart i); members).
        cbn [default].
        rewrite write_place_confined by (cbn; intros Hin; apply (Hapart i); members).
        reflexivity.
      * reflexivity.
  - destruct (assigned os raw i) as [y |] eqn:Hy, (assigned os' raw' i) as [y' |] eqn:Hy';
      cbn [default]; try reflexivity.
    exfalso. apply (Hapart i); eapply assigned_Some_in; eassumption.
Qed.

(** Writing back what was read changes nothing. *)
Lemma write_read_place (p : Place) (array : list Z) :
  match p with Member _ member => bf_ok member = true | Bytes _ => True end ->
  write_place p (read_place p array) array = array.
Proof.
  destruct p as [o m | os]; cbn [write_place read_place]; intros Hm.
  - destruct (Nat.lt_ge_cases o (length array)) as [Hlt | Hge].
    + rewrite bf_set_get by assumption. apply list_insert_total_id.
    + now apply list_insert_ge.
  - clear. induction os as [| o os IH]; cbn [map store_bytes]; [reflexivity |].
    now rewrite list_insert_total_id.
Qed.

(** ** The accessors, place by place *)

Section FieldPlaces.
Context {L : BitLayout}.

(** Every setter writes the encoding of its argument to the place of its
    field. *)
Lemma field_set_write (f : Field) (v : Z) (array : list Z) :
  field_set f v array = write_place (field_place f) (encode (field_kind f) v) array.
Proof.
  destruct f; try reflexivity.
  - cbn. unfold BulkSetFilter.setChannel. destruct (channel =? 0); reflexivity.
  - cbn. unfold BulkSetGain.setGain. destruct (channel =? 0); reflexivity.
Qed.

(** Every getter decodes what it reads at the place of its field. *)
Lemma field_get_read (f : Field) (array : list Z) :
  field_get f array = decode (field_kind f) (read_place (field_place f) array).
Proof.
  destruct f; try reflexivity.
  - cbn. unfold BulkSetFilter.getChannel. destruct (channel =? 0); reflexivity.
  - cbn. unfold BulkSetGain.getGain. destruct (channel =? 0); reflexivity.
Qed.

End FieldPlaces.

(** ** What the frames hold, kind by kind *)

Lemma bytes_lookup_total (array : list Z) (i : nat) :
  DataArray.bytes array -> 0 <= array !!! i < 256.
Proof.
  intros Hb. destruct (Nat.lt_ge_cases i (length array)) as [Hlt | Hge].
  - exact (Forall_lookup_total_1 _ array i Hb Hlt).
  - rewrite list_lookup_total_alt, (lookup_ge_None_2 array i Hge). cbn. lia.
Qed.

Lemma le16_split_join (x0 x1 : Z) :
  0 <= x0 < 256 -> 0 <= x1 < 256 ->
  uint16_t (Z.lor (uint16_t x0) (shl (uint16_t x1) 8)) = x0 + 256 * x1
  /\ uint8_t (x0 + 256 * x1) = x0 /\ uint8_t (shr (x0 + 256 * x1) 8) = x1.
Proof.
  intros H0 H1.
  rewrite (uint16_t_byte x0), (uint16_t_byte x1) by assumption.
  unfold shl. rewrite lor_shiftl_add by lia.
  unfold uint16_t, uint8_t, shr. rewrite Z.shiftr_div_pow2 by lia.
  change (2 ^ 8) with 256. change (2 ^ 16) with 65536.
  rewrite (Z.mod_small (x0 + x1 * 256) 65536) by lia.
  repeat split; try lia; Z.div_mod_to_equations; lia.
Qed.

Lemma le24_join (x0 x1 x2 : Z) :
  0 <= x0 < 256 -> 0 <= x1 < 256 -> 0 <= x2 < 256 ->
  Z.lor (Z.lor x0 (shl x1 8)) (shl x2 16) = x0 + 256 * x1 + 65536 * x2.
Proof.
  intros H0 H1 H2. unfold shl.
  rewrite (lor_shiftl_add x0 x1 8) by lia.
  rewrite lor_shiftl_add by (change (2 ^ 16) with 65536; change (2 ^ 8) with 256; lia).
  change (2 ^ 16) with 65536; change (2 ^ 8) with 256. lia.
Qed.

Lemma le24_split (x0 x1 x2 : Z) :
  0 <= x0 < 256 -> 0 <= x1 < 256 -> 0 <= x2 < 256 ->
  uint8_t (x0 + 256 * x1 + 65536 * x2) = x0
  /\ uint8_t (shr (x0 + 256 * x1 + 65536 * x2) 8) = x1
  /\ uint8_t (shr (x0 + 256 * x1 + 65536 * x2) 16) = x2.
Proof.
  intros H0 H1 H2. unfold uint8_t, shr. rewrite !Z.shiftr_div_pow2 by lia.
  change (2 ^ 8) with 256. change (2 ^ 16) with 65536.
  repeat split; Z.div_mod_to_equations; lia.
Qed.

Section FieldLaws.
Context {L : BitLayout}.
Hypothesis HL : layout_ok L = true.

(** The place of a field lies inside the frame of the field. *)
Lemma field_place_ok (f : Field) (n : nat) :
  (frame_length f <= n)%nat -> place_ok (field_place f) n.
Proof.
  destruct f; cbn; intros Hn.
  all: try (split; [lia | member_ok HL]).
  all: try (split; [repeat (apply NoDup_cons; split; [members |]); apply NoDup_nil_2
                   | repeat constructor; lia]).
  - split; [lia |]. destruct (channel =? 0); member_ok HL.
  - split; [lia |]. destruct (channel =? 0); member_ok HL.
Qed.

Lemma field_member_ok (f : Field) :
  match field_place f with Member _ member => bf_ok member = true | Bytes _ => True end.
Proof.
  destruct f; cbn; trivial; try member_ok HL; destruct (channel =? 0); member_ok HL.
Qed.

Lemma encode_length (k : FieldKind) (v w : Z) : length (encode k v) = length (encode k w).
Proof. destruct k; reflexivity. Qed.

End FieldLaws.

(** ** Laws of the accessors *)

Section AccessorLaws.
Context {L : BitLayout}.
Hypothesis HL : layout_ok L = true.

Lemma encode_fits (f : Field) (v : Z) :
  0 <= v < field_range f -> raw_fits (field_place f) (encode (field_kind f) v).
Proof.
  pose proof (field_member_ok HL f) as Hok.
  destruct f; cbn in Hok |- *; intros Hv.
  all: try (eexists; split; [reflexivity |]).
  all: try (pose proof (bf_range_gt_1 _ Hok);
            assert (v = 0 \/ v = 1) as [-> | ->] by lia; cbn; lia).
  all: try exact Hv.
  all: try (split; [reflexivity | repeat constructor; try apply uint8_t_range; lia]).
  - destruct (channel =? 0); exact Hv.
  - pose proof (bf_range_le_256 _ Hok). rewrite uint8_t_small by lia. exact Hv.
Qed.

Lemma decode_encode (f : Field) (v : Z) :
  0 <= v < field_range f -> decode (field_kind f) (encode (field_kind f) v) = v.
Proof.
  pose proof (field_member_ok HL f) as Hok.
  destruct f; cbn in Hok |- *; intros Hv.
  all: try reflexivity.
  all: try (assert (v = 0 \/ v = 1) as [-> | ->] by lia; reflexivity).
  all: try (apply le16_join_split; exact Hv).
  all: try (apply le24_read; exact Hv).
  - apply uint8_t_small. lia.
  - pose proof (bf_range_le_256 _ Hok). apply uint8_t_small. lia.
  - rewrite (uint32_t_byte (uint8_t v)) by apply uint8_t_range.
    rewrite !uint16_t_byte by apply uint8_t_range.
    rewrite le24_join_split by exact Hv. now apply uint32_t_small.
Qed.

(** A setter followed by its getter, through the place of the field. *)
Lemma field_get_set_same (f : Field) (v : Z) (array : list Z) :
  (frame_length f <= length array)%nat -> 0 <= v < field_range f ->
  field_get f (field_set f v array) = v.
Proof.
  intros Hlen Hv. rewrite field_get_read, field_set_write.
  rewrite read_write_place by (apply field_place_ok || apply encode_fits; assumption).
  now apply decode_encode.
Qed.

Lemma length_field_set (f : Field) (v : Z) (array : list Z) :
  length (field_set f v array) = length array.
Proof. rewrite field_set_write. apply length_write_place. Qed.

Lemma field_offsets_data (f : Field) : Forall (fun i => (2 <= i)%nat) (field_offsets f).
Proof. destruct f; cbn; repeat constructor. Qed.

Hypothesis HA : layout_apart L = true.

(** Two different fields of one frame share no bit. *)
Lemma fields_apart (f g : Field) :
  field_frame f = field_frame g -> ~ same_field f g ->
  places_apart (field_place f) (field_place g).
Proof.
  intros Hframe Hne.
  assert (Hsym := members_apart_sym).
  pose proof HA as Hap. unfold layout_apart in Hap; cbn in Hap.
  rewrite !andb_true_iff in Hap.
  repeat match goal with H : _ /\ _ |- _ => destruct H end.
  destruct f, g; try discriminate Hframe; clear Hframe;
    try (exfalso; apply Hne; reflexivity);
    cbn [field_place places_apart place_offsets];
    try (intros i Hi Hj; clear - Hi Hj; members; fail);
    try (left; discriminate);
    try (right; first [ assumption | rewrite Hsym; assumption ]).
  all: cbn in Hne;
    repeat match goal with
    | |- context [if ?c =? 0 then _ else _] => destruct (c =? 0)
    end;
    try (exfalso; apply Hne; reflexivity);
    right; first [ assumption | rewrite Hsym; assumption ].
Qed.

End AccessorLaws.

(** ** Bytes in, bytes out *)

Lemma write_place_bytes (p : Place) (raw array : list Z) :
  match p with
  | Member _ member => bf_ok member = true
  | Bytes _ => Forall (fun b => 0 <= b < 256) raw
  end ->
  DataArray.bytes array -> DataArray.bytes (write_place p raw array).
Proof.
  destruct p as [o m | os]; cbn [write_place]; intros Hp Hb.
  - destruct raw as [| x xs]; [assumption |].
    apply Forall_insert; [assumption |].
    apply bf_set_byte; [assumption | now apply bytes_lookup_total].
  - revert raw array Hp Hb. induction os as [| o os IH]; intros [| x xs] array Hp Hb;
      cbn [store_bytes]; try assumption.
    inversion Hp; subst. apply IH; [assumption |]. now apply Forall_insert.
Qed.

Lemma decode_word24 (x0 x1 x2 : Z) :
  0 <= x0 < 256 -> 0 <= x1 < 256 -> 0 <= x2 < 256 ->
  decode Word24 [x0; x1; x2] = x0 + 256 * x1 + 65536 * x2
  /\ decode Word24Pre [x0; x1; x2] = x0 + 256 * x1 + 65536 * x2.
Proof.
  intros H0 H1 H2. cbn [decode].
  rewrite (uint32_t_byte x0), (uint32_t_byte x1), (uint32_t_byte x2) by assumption.
  rewrite (uint16_t_byte x1), (uint16_t_byte x2) by assumption.
  rewrite le24_join by assumption. split; apply uint32_t_small; lia.
Qed.

Lemma flag_get_cases (m : Bitfield) (b : Z) :
  bf_ok m = true -> bf_width m = 1 -> bf_get m b = 0 \/ bf_get m b = 1.
Proof.
  intros Hok Hw. pose proof (bf_get_range m b Hok) as Hr.
  unfold bf_range in Hr. rewrite Hw in Hr. change (2 ^ 1) with 2 in Hr. lia.
Qed.

Section FrameLaws.
Context {L : BitLayout}.
Hypothesis HL : layout_ok L = true.

Lemma encode_bytes (f : Field) (v : Z) :
  0 <= v < field_argument_range f ->
  match field_place f with
  | Member _ member => bf_ok member = true
  | Bytes _ => Forall (fun b => 0 <= b < 256) (encode (field_kind f) v)
  end.
Proof.
  pose proof (field_member_ok HL f) as Hok.
  destruct f; cbn in Hok |- *; intros Hv; try exact Hok;
    repeat constructor; try apply uint8_t_range; lia.
Qed.

(** What a getter returns lies in the range of its field. *)
Lemma decode_range (f : Field) (array : list Z) :
  DataArray.bytes array ->
  0 <= decode (field_kind f) (read_place (field_place f) array) < field_range f.
Proof.
  intros Hb. pose proof (field_member_ok HL f) as Hok.
  pose proof (fun i => bytes_lookup_total array i Hb) as Hbyte.
  destruct f; cbn [field_place field_kind read_place field_range map] in Hok |- *.
  all: try (cbn [decode]; match goal with |- context [bit_of_bool ?c] => destruct c end;
            cbn; lia).
  all: try (cbn [decode]; apply bf_get_range; exact Hok).
  all: try (cbn [decode]; apply Hbyte).
  all: try (match goal with
            | |- context [decode Word16 [?x0; ?x1]] =>
                cbn [decode];
                destruct (le16_split_join x0 x1) as (-> & _ & _); [apply Hbyte .. |];
                pose proof (Hbyte 2%nat); pose proof (Hbyte 3%nat); pose proof (Hbyte 4%nat);
                pose proof (Hbyte 5%nat); pose proof (Hbyte 6%nat); pose proof (Hbyte 7%nat);
                change (2 ^ 16) with 65536; lia
            end).
  all: try (match goal with
            | |- context [decode _ [?x0; ?x1; ?x2]] =>
                destruct (decode_word24 x0 x1 x2) as [Hd Hd']; [apply Hbyte .. |];
                rewrite ?Hd, ?Hd';
                pose proof (Hbyte 2%nat); pose proof (Hbyte 3%nat); pose proof (Hbyte 4%nat);
                pose proof (Hbyte 6%nat); pose proof (Hbyte 7%nat); pose proof (Hbyte 8%nat);
                pose proof (Hbyte 10%nat); change (2 ^ 24) with 16777216; lia
            end).
  - cbn [decode]. destruct (channel =? 0); apply bf_get_range; exact Hok.
Qed.

Hypothesis HF : layout_flags L = true.

(** What a getter returns, its setter encodes as it was in the frame. *)
Lemma encode_decode_read (f : Field) (array : list Z) :
  DataArray.bytes array ->
  encode (field_kind f) (decode (field_kind f) (read_place (field_place f) array))
  = read_place (field_place f) array.
Proof.
  intros Hb. pose proof (field_member_ok HL f) as Hok.
  pose proof (fun i => bytes_lookup_total array i Hb) as Hbyte.
  pose proof HF as Hw. unfold layout_flags in Hw. cbn in Hw.
  rewrite !andb_true_iff, !Z.eqb_eq in Hw.
  repeat match goal with H : _ /\ _ |- _ => destruct H end.
  destruct f; cbn [field_place field_kind read_place map] in Hok |- *.
  all: try reflexivity.
  all: try (match goal with
            | |- context [bf_get ?m ?b] =>
                destruct (flag_get_cases m b Hok ltac:(assumption)) as [-> | ->]; reflexivity
            end).
  all: try (cbn [decode encode]; rewrite uint8_t_small by apply Hbyte; reflexivity).
  all: try (match goal with
            | |- context [decode Word16 [?x0; ?x1]] =>
                cbn [decode];
                destruct (le16_split_join x0 x1) as (-> & H16 & H16'); [apply Hbyte .. |];
                cbn [encode]; rewrite H16, H16'; reflexivity
            end).
  all: try (match goal with
            | |- context [decode _ [?x0; ?x1; ?x2]] =>
                destruct (decode_word24 x0 x1 x2) as [Hd Hd']; [apply Hbyte .. |];
                rewrite ?Hd, ?Hd'; cbn [encode];
                destruct (le24_split x0 x1 x2) as (H24 & H24' & H24''); [apply Hbyte .. |];
                rewrite H24, H24', H24''; reflexivity
            end).
  - destruct (channel =? 0);
      match goal with
      | |- context [bf_get ?m ?b] =>
          destruct (flag_get_cases m b Hok ltac:(assumption)) as [-> | ->]; reflexivity
      end.
  - cbn [decode encode]. pose proof (bf_get_range _ (array !!! 8%nat) Hok).
    pose proof (bf_range_le_256 _ Hok). rewrite uint8_t_small by lia. reflexivity.
Qed.

End FrameLaws.

(** ** The frames as records of independent fields *)

Lemma frame_length_size (f : Field) : frame_length f = frame_size (field_frame f).
Proof. destruct f; reflexivity. Qed.

Lemma places_apart_sym (p q : Place) : places_apart p q -> places_apart q p.
Proof.
  destruct p as [o m | os], q as [o' m' | os']; cbn.
  - intros [Hne | Hm]; [left; congruence | right; now rewrite members_apart_sym].
  - intros H i Hi Hj. exact (H i Hj Hi).
  - intros H i Hi Hj. exact (H i Hj Hi).
  - intros H i Hi Hj. exact (H i Hj Hi).
Qed.

Section Records.
Context {L : BitLayout}.
Hypothesis HL : layout_ok L = true.
Hypothesis HA : layout_apart L = true.

Lemma field_get_other (f g : Field) (v : Z) (array : list Z) :
  field_frame f = field_frame g -> ~ same_field f g ->
  (frame_length f <= length array)%nat ->
  field_get g (field_set f v array) = field_get g array.
Proof.
  intros Hframe Hne Hlen. rewrite !field_get_read, field_set_write. f_equal.
  apply read_write_apart.
  - now apply field_place_ok.
  - apply field_place_ok; [assumption |]. rewrite frame_length_size, <- Hframe.
    now rewrite <- frame_length_size.
  - now apply fields_apart.
Qed.

Lemma set_fields_other (f : Field) (assignments : list (Field * Z)) (array : list Z) :
  Forall (fun fv => field_frame (fst fv) = field_frame f) assignments ->
  Forall (fun g => ~ same_field f g) (map fst assignments) ->
  (frame_length f <= length array)%nat ->
  field_get f (set_fields assignments array) = field_get f array.
Proof.
  revert array. induction assignments as [| [g w] rest IH]; intros array Hfr Hd Hlen;
    [reflexivity |].
  cbn [set_fields fold_left fst snd]. cbn [map fst] in Hd.
  inversion Hfr as [| ? ? Hg Hrest]; subst. inversion Hd as [| ? ? Hfg Hdrest]; subst.
  cbn [fst] in Hg.
  change (field_get f (set_fields rest (field_set g w array)) = field_get f array).
  rewrite IH by (try assumption; now rewrite length_field_set).
  apply field_get_other; [assumption | | ].
  - intros Hs. apply Hfg. clear - Hs. destruct g, f; cbn in Hs |- *; congruence.
  - rewrite frame_length_size, Hg, <- frame_length_size. exact Hlen.
Qed.

Lemma set_fields_each (fr : Frame) (assignments : list (Field * Z)) (array : list Z) :
  assignments_fit fr assignments -> fields_distinct (map fst assignments) ->
  (frame_size fr <= length array)%nat ->
  Forall (fun fv => field_get (fst fv) (set_fields assignments array) = snd fv) assignments.
Proof.
  revert array. induction assignments as [| [f v] rest IH]; intros array Hfit Hd Hlen;
    [constructor |].
  inversion Hfit as [| ? ? [Hf Hv] Hrest]; subst. cbn [fst snd] in Hv.
  cbn [map fst fields_distinct] in Hd. destruct Hd as [Hhead Hd].
  assert (Hflen : (frame_length f <= length array)%nat) by now rewrite frame_length_size.
  constructor.
  - cbn [fst snd set_fields fold_left].
    change (field_get f (set_fields rest (field_set f v array)) = v).
    rewrite set_fields_other.
    + now apply field_get_set_same.
    + eapply Forall_impl; [exact Hrest |]. intros [g w] [Hg _]. exact Hg.
    + exact Hhead.
    + now rewrite length_field_set.
  - apply (IH (field_set f v array)); [assumption .. |]. now rewrite length_field_set.
Qed.

End Records.

(** ** Properties of the frame accessors *)

(** X1.  A setter keeps the length of the frame and writes only inside the
    place of its field: every byte at another offset keeps its value, and so
    do the opcode at offset 0 and the byte after it, which no field
    occupies. *)
Theorem field_set_confined (L : BitLayout) (f : Field) (v : Z) (array : list Z) :
  (frame_length f <= length array)%nat ->
  length (field_set f v array) = length array
  /\ (forall i, i ∉ field_offsets f -> field_set f v array !!! i = array !!! i)
  /\ field_set f v array !!! 0%nat = array !!! 0%nat
  /\ field_set f v array !!! 1%nat = array !!! 1%nat.
Proof.
  intros _. split; [apply length_field_set |].
  assert (Hout : forall i, i ∉ field_offsets f -> field_set f v array !!! i = array !!! i).
  { intros i Hi. rewrite field_set_write. now apply write_place_confined. }
  split; [exact Hout |].
  pose proof (field_offsets_data f) as Hdata. rewrite Forall_forall in Hdata.
  split; apply Hout; intros Hin; apply Hdata in Hin; lia.
Qed.

Lemma field_set_confined_witness :
  field_set (L := sample_layout) TriggerAndSamplerate_triggerPosition 0xAABBCC
    (replicate 12 0xff) !!! 0%nat = 0xff.
Proof.
  refine (proj1 (proj2 (proj2
    (field_set_confined sample_layout TriggerAndSamplerate_triggerPosition 0xAABBCC
       (replicate 12 0xff) _)))).
  cbn. lia.
Defined.

(** X2.  A setter called with a value of the type of its parameter turns a
    frame of bytes into a frame of bytes: no element leaves the range of
    [uint8_t]. *)
Theorem field_set_bytes (L : BitLayout) (f : Field) (v : Z) (array : list Z) :
  layout_ok L = true ->
  DataArray.bytes array ->
  0 <= v < field_argument_range f ->
  DataArray.bytes (field_set f v array).
Proof.
  intros HL Hb Hv. rewrite field_set_write.
  apply write_place_bytes; [| exact Hb].
  pose proof (encode_bytes HL f v Hv) as He.
  destruct (field_place f); exact He.
Qed.

Lemma field_set_bytes_witness :
  DataArray.bytes
    (field_set (L := sample_layout) Samplerate5200_samplerateSlow 0xABCD (replicate 6 0)).
Proof.
  apply (field_set_bytes sample_layout Samplerate5200_samplerateSlow 0xABCD (replicate 6 0)).
  - reflexivity.
  - apply Forall_replicate. lia.
  - cbn. lia.
Defined.

(** X3.  On a frame of bytes every getter returns a value of the range of
    its field: 0 or 1 for a flag, a value below two to the width of the
    member for a bit-field member, below 2^8, 2^16 or 2^24 for the byte
    fields. *)
Theorem field_get_range (L : BitLayout) (f : Field) (array : list Z) :
  layout_ok L = true ->
  (frame_length f <= length array)%nat ->
  DataArray.bytes array ->
  0 <= field_get f array < field_range f.
Proof.
  intros HL _ Hb. rewrite field_get_read. now apply decode_range.
Qed.

Lemma field_get_range_witness :
  0 <= field_get (L := sample_layout) Buffer2250_triggerPositionPre (replicate 10 0xff)
    < 2 ^ 24.
Proof.
  apply (field_get_range sample_layout Buffer2250_triggerPositionPre (replicate 10 0xff)).
  - reflexivity.
  - cbn. lia.
  - apply Forall_replicate. lia.
Defined.

(** X4.  Calling a setter twice leaves what the second call alone leaves:
    no trace of the first value remains in the frame. *)
Theorem field_set_overwrite (L : BitLayout) (f : Field) (v w : Z) (array : list Z) :
  layout_ok L = true ->
  (frame_length f <= length array)%nat ->
  field_set f v (field_set f w array) = field_set f v array.
Proof.
  intros HL Hlen. rewrite !field_set_write.
  apply write_write_place; [now apply field_place_ok | apply encode_length].
Qed.

Lemma field_set_overwrite_witness :
  field_set (L := sample_layout) Trigger5200_triggerSource 1
    (field_set (L := sample_layout) Trigger5200_triggerSource 3 (replicate 8 0))
  = field_set (L := sample_layout) Trigger5200_triggerSource 1 (replicate 8 0).
Proof.
  apply (field_set_overwrite sample_layout Trigger5200_triggerSource 1 3 (replicate 8 0)).
  - reflexivity.
  - cbn. lia.
Defined.

(** X5.  When the members of each bit-field structure share no bit, a
    setter does not change what the getter of another field of the same
    frame returns. *)
Theorem field_get_set_other (L : BitLayout) (f g : Field) (v : Z) (array : list Z) :
  layout_ok L = true -> layout_apart L = true ->
  field_frame f = field_frame g -> ~ same_field f g ->
  (frame_length f <= length array)%nat ->
  field_get g (field_set f v array) = field_get g array.
Proof. intros HL HA. now apply field_get_other. Qed.

Lemma field_get_set_other_witness :
  field_get (L := sample_layout) TriggerAndSamplerate_recordLength
    (field_set (L := sample_layout) TriggerAndSamplerate_triggerSource 3 (replicate 12 0xff))
  = field_get (L := sample_layout) TriggerAndSamplerate_recordLength (replicate 12 0xff).
Proof.
  apply (field_get_set_other sample_layout TriggerAndSamplerate_triggerSource
           TriggerAndSamplerate_recordLength 3 (replicate 12 0xff)).
  - reflexivity.
  - reflexivity.
  - reflexivity.
  - cbn. discriminate.
  - cbn. lia.
Defined.

(** X6.  Under the same condition the setters of two different fields of a
    frame can be called in either order: the frame is the same, byte for
    byte. *)
Theorem field_set_commute (L : BitLayout) (f g : Field) (v w : Z) (array : list Z) :
  layout_ok L = true -> layout_apart L = true ->
  field_frame f = field_frame g -> ~ same_field f g ->
  (frame_length f <= length array)%nat ->
  field_set f v (field_set g w array) = field_set g w (field_set f v array).
Proof.
  intros HL HA Hframe Hne Hlen. rewrite !field_set_write.
  apply write_place_comm.
  - now apply field_place_ok.
  - apply field_place_ok; [assumption |].
    now rewrite frame_length_size, <- Hframe, <- frame_length_size.
  - now apply fields_apart.
Qed.

Lemma field_set_commute_witness :
  field_set (L := sample_layout) Buffer5200_usedPost 5
    (field_set (L := sample_layout) Buffer5200_recordLength 2 (replicate 10 0))
  = field_set (L := sample_layout) Buffer5200_recordLength 2
      (field_set (L := sample_layout) Buffer5200_usedPost 5 (replicate 10 0)).
Proof.
  apply (field_set_commute sample_layout Buffer5200_usedPost Buffer5200_recordLength 5 2
           (replicate 10 0)).
  - reflexivity.
  - reflexivity.
  - reflexivity.
  - cbn. discriminate.
  - cbn. lia.
Defined.

(** X7.  When the flags are one bit wide, handing a setter what its getter
    returns leaves a frame of bytes as it is: every bit pattern a field can
    hold is reproduced by its accessors. *)
Theorem field_set_get_identity (L : BitLayout) (f : Field) (array : list Z) :
  layout_ok L = true -> layout_flags L = true ->
  (frame_length f <= length array)%nat ->
  DataArray.bytes array ->
  field_set f (field_get f array) array = array.
Proof.
  intros HL HF _ Hb. rewrite field_set_write, field_get_read.
  rewrite encode_decode_read by assumption.
  apply write_read_place. exact (field_member_ok HL f).
Qed.

Lemma field_set_get_identity_witness :
  field_set (L := sample_layout) Trigger5200_fastRate
    (field_get (L := sample_layout) Trigger5200_fastRate (replicate 8 0xff))
    (replicate 8 0xff)
  = replicate 8 0xff.
Proof.
  apply (field_set_get_identity sample_layout Trigger5200_fastRate (replicate 8 0xff)).
  - reflexivity.
  - reflexivity.
  - cbn. lia.
  - apply Forall_replicate. lia.
Defined.

(** X8.  After any sequence of setter calls on pairwise different fields
    of one frame, each with a value of the range of its field, every getter
    returns the value its setter was called with, whatever the order of the
    calls. *)
Theorem set_fields_get (L : BitLayout) (fr : Frame) (assignments : list (Field * Z))
    (array : list Z) :
  layout_ok L = true -> layout_apart L = true ->
  assignments_fit fr assignments -> fields_distinct (map fst assignments) ->
  (frame_size fr <= length array)%nat ->
  Forall (fun fv => field_get (fst fv) (set_fields assignments array) = snd fv) assignments.
Proof. intros HL HA. now apply set_fields_each. Qed.

Lemma set_fields_get_witness :
  Forall (fun fv => field_get (L := sample_layout) (fst fv)
                      (set_fields (L := sample_layout)
                         [(Trigger5200_fastRate, 1); (Trigger5200_triggerSource, 2);
                          (Trigger5200_triggerPulse, 1)] (replicate 8 0xff)) = snd fv)
    [(Trigger5200_fastRate, 1); (Trigger5200_triggerSource, 2); (Trigger5200_triggerPulse, 1)].
Proof.
  apply (set_fields_get sample_layout FrameSetTrigger5200).
  - reflexivity.
  - reflexivity.
  - repeat constructor; cbn; lia.
  - cbn. repeat split; repeat constructor; discriminate.
  - cbn. lia.
Defined.

(** ** The constructors with arguments *)

Lemma bool_of_int_bit (b : bool) : bool_of_int (bit_of_bool b) = b.
Proof. now destruct b. Qed.

Lemma bit_of_bool_inj (b c : bool) : bit_of_bool b = bit_of_bool c -> b = c.
Proof. destruct b, c; cbn; congruence. Qed.

Lemma bit_of_bool_range (b : bool) : 0 <= bit_of_bool b < 2.
Proof. destruct b; cbn; lia. Qed.

Lemma field_set_opcode {L : BitLayout} (f : Field) (v : Z) (array : list Z) :
  field_set f v array !!! 0%nat = array !!! 0%nat.
Proof.
  rewrite field_set_write. apply write_place_confined.
  pose proof (field_offsets_data f) as Hdata. rewrite Forall_forall in Hdata.
  intros Hin. apply Hdata in Hin. lia.
Qed.

Lemma set_fields_opcode {L : BitLayout} (assignments : list (Field * Z)) (array : list Z) :
  set_fields assignments array !!! 0%nat = array !!! 0%nat
  /\ length (set_fields assignments array) = length array.
Proof.
  revert array. induction assignments as [| [f v] rest IH]; intros array; [now split |].
  change (set_fields ((f, v) :: rest) array) with (set_fields rest (field_set f v array)).
  destruct (IH (field_set f v array)) as [-> ->].
  split; [apply field_set_opcode | apply length_field_set].
Qed.

(** X9.  The frame that the nine-argument constructor of
    [BulkSetTriggerAndSamplerate] builds returns every argument through the
    getter of its field, when the members of the two bit-field structures
    share no bit and the arguments fit their fields; its opcode is
    [BULK_SETTRIGGERANDSAMPLERATE] and its length 12. *)
Theorem BulkSetTriggerAndSamplerate9_getters (L : BitLayout)
    (downsampler triggerPosition triggerSource recordLength samplerateId : Z)
    (downsamplingMode : bool) (usedChannels : Z) (fastRate : bool) (triggerSlope : Z) :
  layout_ok L = true -> layout_apart L = true ->
  0 <= downsampler < 2 ^ 16 -> 0 <= triggerPosition < 2 ^ 24 ->
  0 <= triggerSource < bf_range Tsr1Bits_triggerSource ->
  0 <= recordLength < bf_range Tsr1Bits_recordLength ->
  0 <= samplerateId < bf_range Tsr1Bits_samplerateId ->
  0 <= usedChannels < bf_range Tsr2Bits_usedChannels ->
  0 <= triggerSlope < bf_range Tsr2Bits_triggerSlope ->
  let frame :=
    BulkSetTriggerAndSamplerate.BulkSetTriggerAndSamplerate9 downsampler triggerPosition
      triggerSource recordLength samplerateId downsamplingMode usedChannels fastRate
      triggerSlope in
  BulkSetTriggerAndSamplerate.getDownsampler frame = downsampler
  /\ BulkSetTriggerAndSamplerate.getTriggerPosition frame = triggerPosition
  /\ BulkSetTriggerAndSamplerate.getTriggerSource frame = triggerSource
  /\ BulkSetTriggerAndSamplerate.getRecordLength frame = recordLength
  /\ BulkSetTriggerAndSamplerate.getSamplerateId frame = samplerateId
  /\ BulkSetTriggerAndSamplerate.getDownsamplingMode frame = downsamplingMode
  /\ BulkSetTriggerAndSamplerate.getUsedChannels frame = usedChannels
  /\ BulkSetTriggerAndSamplerate.getFastRate frame = fastRate
  /\ BulkSetTriggerAndSamplerate.getTriggerSlope frame = triggerSlope
  /\ frame !!! 0%nat = BulkCode.BULK_SETTRIGGERANDSAMPLERATE
  /\ DataArray.getSize frame = 12%nat.
Proof.
  intros HL HA Hds Htp Hts Hrl Hsi Huc Hsl frame.
  set (assignments :=
         [(TriggerAndSamplerate_triggerSource, triggerSource);
          (TriggerAndSamplerate_recordLength, recordLength);
          (TriggerAndSamplerate_samplerateId, samplerateId);
          (TriggerAndSamplerate_downsamplingMode, bit_of_bool downsamplingMode);
          (TriggerAndSamplerate_usedChannels, usedChannels);
          (TriggerAndSamplerate_fastRate, bit_of_bool fastRate);
          (TriggerAndSamplerate_triggerSlope, triggerSlope);
          (TriggerAndSamplerate_downsampler, downsampler);
          (TriggerAndSamplerate_triggerPosition, triggerPosition)]).
  assert (Hframe : frame =
    set_fields assignments BulkSetTriggerAndSamplerate.BulkSetTriggerAndSamplerate0).
  { subst frame assignments. cbn [set_fields fold_left fst snd field_set].
    now rewrite !bool_of_int_bit. }
  assert (Hfit : assignments_fit FrameSetTriggerAndSamplerate assignments).
  { pose proof (bit_of_bool_range downsamplingMode). pose proof (bit_of_bool_range fastRate).
    repeat constructor; cbn [fst snd field_range]; lia. }
  assert (Hdist : fields_distinct (map fst assignments)).
  { cbn. repeat split; repeat constructor; discriminate. }
  pose proof (set_fields_each HL HA FrameSetTriggerAndSamplerate assignments
                BulkSetTriggerAndSamplerate.BulkSetTriggerAndSamplerate0 Hfit Hdist
                ltac:(cbn; lia)) as Hall.
  destruct (set_fields_opcode assignments
              BulkSetTriggerAndSamplerate.BulkSetTriggerAndSamplerate0) as [Hop Hsize].
  rewrite <- Hframe in Hall, Hop, Hsize. clearbody frame. subst assignments.
  rewrite !Forall_cons in Hall. cbn [fst snd field_get] in Hall.
  destruct Hall as (H1 & H2 & H3 & H4 & H5 & H6 & H7 & H8 & H9 & _).
  apply bit_of_bool_inj in H4, H6.
  repeat split; assumption.
Qed.

Lemma BulkSetTriggerAndSamplerate9_getters_witness :
  BulkSetTriggerAndSamplerate.getTriggerPosition
    (BulkSetTriggerAndSamplerate.BulkSetTriggerAndSamplerate9 (L := sample_layout)
       0x1234 0xAABBCC 2 5 3 true 1 false 1) = 0xAABBCC.
Proof.
  refine (proj1 (proj2
    (BulkSetTriggerAndSamplerate9_getters sample_layout 0x1234 0xAABBCC 2 5 3 true 1 false 1
       _ _ _ _ _ _ _ _ _))); try reflexivity; (split; vm_compute; [discriminate | reflexivity]).
Defined.

(** X10.  The frame that the five-argument constructor of
    [BulkSetTrigger5200] builds returns its arguments through the getters:
    [fastRate] as it was passed although the member holds its negation, and
    [triggerPulse], which the constructor takes as a [uint8_t], as whether
    it was different from zero. *)
Theorem BulkSetTrigger5200_5_getters (L : BitLayout)
    (triggerSource usedChannels : Z) (fastRate : bool) (triggerSlope triggerPulse : Z) :
  layout_ok L = true -> layout_apart L = true ->
  0 <= triggerSource < bf_range ETsrBits_triggerSource ->
  0 <= usedChannels < bf_range ETsrBits_usedChannels ->
  0 <= triggerSlope < bf_range ETsrBits_triggerSlope ->
  let frame :=
    BulkSetTrigger5200.BulkSetTrigger5200_5 triggerSource usedChannels fastRate triggerSlope
      triggerPulse in
  BulkSetTrigger5200.getTriggerSource frame = triggerSource
  /\ BulkSetTrigger5200.getUsedChannels frame = usedChannels
  /\ BulkSetTrigger5200.getFastRate frame = fastRate
  /\ BulkSetTrigger5200.getTriggerSlope frame = triggerSlope
  /\ BulkSetTrigger5200.getTriggerPulse frame = negb (triggerPulse =? 0)
  /\ frame !!! 0%nat = BulkCode.BULK_ESETTRIGGERORSAMPLERATE
  /\ DataArray.getSize frame = 8%nat.
Proof.
  intros HL HA Hts Huc Hsl frame.
  set (assignments :=
         [(Trigger5200_triggerSource, triggerSource);
          (Trigger5200_usedChannels, usedChannels);
          (Trigger5200_fastRate, bit_of_bool fastRate);
          (Trigger5200_triggerSlope, triggerSlope);
          (Trigger5200_triggerPulse, bit_of_bool (negb (triggerPulse =? 0)))]).
  assert (Hframe : frame = set_fields assignments BulkSetTrigger5200.BulkSetTrigger5200_0).
  { subst frame assignments. cbn [set_fields fold_left fst snd field_set].
    now rewrite !bool_of_int_bit. }
  assert (Hfit : assignments_fit FrameSetTrigger5200 assignments).
  { pose proof (bit_of_bool_range fastRate).
    pose proof (bit_of_bool_range (negb (triggerPulse =? 0))).
    repeat constructor; cbn [fst snd field_range]; lia. }
  assert (Hdist : fields_distinct (map fst assignments)).
  { cbn. repeat split; repeat constructor; discriminate. }
  pose proof (set_fields_each HL HA FrameSetTrigger5200 assignments
                BulkSetTrigger5200.BulkSetTrigger5200_0 Hfit Hdist ltac:(cbn; lia)) as Hall.
  destruct (set_fields_opcode assignments BulkSetTrigger5200.BulkSetTrigger5200_0)
    as [Hop Hsize].
  rewrite <- Hframe in Hall, Hop, Hsize. clearbody frame. subst assignments.
  rewrite !Forall_cons in Hall. cbn [fst snd field_get] in Hall.
  destruct Hall as (H1 & H2 & H3 & H4 & H5 & _).
  apply bit_of_bool_inj in H3, H5.
  repeat split; assumption.
Qed.

Lemma BulkSetTrigger5200_5_getters_witness :
  BulkSetTrigger5200.getTriggerPulse (L := sample_layout)
    (BulkSetTrigger5200.BulkSetTrigger5200_5 (L := sample_layout) 2 1 true 1 7) = true.
Proof.
  refine (proj1 (proj2 (proj2 (proj2 (proj2
    (BulkSetTrigger5200_5_getters sample_layout 2 1 true 1 7 _ _ _ _ _))))));
    try reflexivity; (split; vm_compute; [discriminate | reflexivity]).
Defined.

(** X11.  The frame that the five-argument constructor of
    [BulkSetBuffer5200] builds returns its arguments through the getters;
    its opcode is [BULK_DSETBUFFER] and its length 10. *)
Theorem BulkSetBuffer5200_5_getters (L : BitLayout)
    (triggerPositionPre triggerPositionPost usedPre usedPost recordLength : Z) :
  layout_ok L = true -> layout_apart L = true ->
  0 <= triggerPositionPre < 2 ^ 16 -> 0 <= triggerPositionPost < 2 ^ 16 ->
  0 <= usedPre < 2 ^ 8 ->
  0 <= usedPost < bf_range DBufferBits_triggerPositionUsed ->
  0 <= recordLength < bf_range DBufferBits_recordLength ->
  let frame :=
    BulkSetBuffer5200.BulkSetBuffer5200_5 triggerPositionPre triggerPositionPost usedPre
      usedPost recordLength in
  BulkSetBuffer5200.getTriggerPositionPre frame = triggerPositionPre
  /\ BulkSetBuffer5200.getTriggerPositionPost frame = triggerPositionPost
  /\ BulkSetBuffer5200.getUsedPre frame = usedPre
  /\ BulkSetBuffer5200.getUsedPost frame = usedPost
  /\ BulkSetBuffer5200.getRecordLength frame = recordLength
  /\ frame !!! 0%nat = BulkCode.BULK_DSETBUFFER
  /\ DataArray.getSize frame = 10%nat.
Proof.
  intros HL HA Hpre Hpost Hup Hupost Hrl frame.
  set (assignments :=
         [(Buffer5200_triggerPositionPre, triggerPositionPre);
          (Buffer5200_triggerPositionPost, triggerPositionPost);
          (Buffer5200_usedPre, usedPre);
          (Buffer5200_usedPost, usedPost);
          (Buffer5200_recordLength, recordLength)]).
  assert (Hframe : frame = set_fields assignments BulkSetBuffer5200.BulkSetBuffer5200_0)
    by reflexivity.
  assert (Hfit : assignments_fit FrameSetBuffer5200 assignments).
  { repeat constructor; cbn [fst snd field_range]; lia. }
  assert (Hdist : fields_distinct (map fst assignments)).
  { cbn. repeat split; repeat constructor; discriminate. }
  pose proof (set_fields_each HL HA FrameSetBuffer5200 assignments
                BulkSetBuffer5200.BulkSetBuffer5200_0 Hfit Hdist ltac:(cbn; lia)) as Hall.
  destruct (set_fields_opcode assignments BulkSetBuffer5200.BulkSetBuffer5200_0)
    as [Hop Hsize].
  rewrite <- Hframe in Hall, Hop, Hsize. clearbody frame. subst assignments.
  rewrite !Forall_cons in Hall. cbn [fst snd field_get] in Hall.
  destruct Hall as (H1 & H2 & H3 & H4 & H5 & _).
  repeat split; assumption.
Qed.

Lemma BulkSetBuffer5200_5_getters_witness :
  BulkSetBuffer5200.getTriggerPositionPost
    (BulkSetBuffer5200.BulkSetBuffer5200_5 (L := sample_layout) 0x1234 0x5678 7 5 2)
  = 0x5678.
Proof.
  refine (proj1 (proj2
    (BulkSetBuffer5200_5_getters sample_layout 0x1234 0x5678 7 5 2 _ _ _ _ _ _ _)));
    try reflexivity; (split; vm_compute; [discriminate | reflexivity]).
Defined.

(** ** The trigger point of the capture state response *)

(** X12.  The trigger point of a response of bytes is a 24-bit number, and
    two responses have the same trigger point exactly when they agree on the
    bytes 1, 2 and 3: the getter loses nothing of these bytes and looks at no
    other. *)
Theorem getTriggerPoint_injective (array array' : list Z) :
  DataArray.bytes array -> DataArray.bytes array' ->
  (4 <= length array)%nat -> (4 <= length array')%nat ->
  0 <= BulkResponseGetCaptureState.getTriggerPoint array < 2 ^ 24
  /\ (BulkResponseGetCaptureState.getTriggerPoint array
      = BulkResponseGetCaptureState.getTriggerPoint array'
      <-> array !!! 1%nat = array' !!! 1%nat /\ array !!! 2%nat = array' !!! 2%nat
          /\ array !!! 3%nat = array' !!! 3%nat).
Proof.
  intros Hb Hb' Hlen Hlen'.
  rewrite !getTriggerPoint_bytes by assumption.
  pose proof (bytes_lookup_total array 1 Hb). pose proof (bytes_lookup_total array 2 Hb).
  pose proof (bytes_lookup_total array 3 Hb). pose proof (bytes_lookup_total array' 1 Hb').
  pose proof (bytes_lookup_total array' 2 Hb'). pose proof (bytes_lookup_total array' 3 Hb').
  change (2 ^ 24) with 16777216. split; [lia |]. split; [lia |].
  intros (-> & -> & ->). reflexivity.
Qed.

Lemma getTriggerPoint_injective_witness :
  BulkResponseGetCaptureState.getTriggerPoint ([0x02; 0xAB; 0x34; 0x12] ++ replicate 508 0)
  = BulkResponseGetCaptureState.getTriggerPoint ([0x03; 0xAB; 0x34; 0x12] ++ replicate 508 7).
Proof.
  apply (proj2 (getTriggerPoint_injective ([0x02; 0xAB; 0x34; 0x12] ++ replicate 508 0)
                  ([0x03; 0xAB; 0x34; 0x12] ++ replicate 508 7)
                  ltac:(repeat constructor; try lia; apply Forall_replicate; lia)
                  ltac:(repeat constructor; try lia; apply Forall_replicate; lia)
                  ltac:(cbn; lia) ltac:(cbn; lia))).
  repeat split.
Defined.

(** ** The default constructors *)

Lemma bf_get_0 (f : Bitfield) : bf_get f 0 = 0.
Proof. unfold bf_get. now rewrite Z.shiftr_0_l, Z.land_0_l. Qed.

(** X13.  The frame that a default constructor builds has the length that
    the accessors of its fields need and holds bytes only, and every getter
    returns 0 (or [false]) on it, with one exception: [getFastRate] of
    [BulkSetTrigger5200], which stores its flag inverted, returns [true]. *)
Theorem default_frame_fields (L : BitLayout) (f : Field) :
  let frame := default_frame (field_frame f) in
  DataArray.getSize frame = frame_length f
  /\ DataArray.bytes frame
  /\ field_get f frame = match f with Trigger5200_fastRate => 1 | _ => 0 end.
Proof.
  cbn zeta. split; [now destruct f |]. split.
  - destruct f; cbn; repeat constructor; vm_compute; intuition discriminate.
  - destruct f; cbn [field_frame default_frame field_get];
      try (vm_compute; reflexivity).
    all: try (unfold BulkSetFilter.getChannel, BulkSetGain.getGain;
              destruct (channel =? 0)).
    all: cbv [BulkSetFilter.getChannel BulkSetFilter.getTrigger
              BulkSetTriggerAndSamplerate.getTriggerSource
              BulkSetTriggerAndSamplerate.getRecordLength
              BulkSetTriggerAndSamplerate.getSamplerateId
              BulkSetTriggerAndSamplerate.getDownsamplingMode
              BulkSetTriggerAndSamplerate.getUsedChannels
              BulkSetTriggerAndSamplerate.getFastRate
              BulkSetTriggerAndSamplerate.getTriggerSlope
              BulkSetGain.getGain BulkSetTrigger2250.getTriggerSource
              BulkSetTrigger2250.getTriggerSlope BulkSetBuffer5200.getUsedPost
              BulkSetBuffer5200.getRecordLength BulkSetSamplerate2250.getFastRate
              BulkSetSamplerate2250.getDownsampling BulkSetTrigger5200.getTriggerSource
              BulkSetTrigger5200.getUsedChannels BulkSetTrigger5200.getFastRate
              BulkSetTrigger5200.getTriggerSlope BulkSetTrigger5200.getTriggerPulse
              DataArray.getBits];
      match goal with
      | |- context [bf_get ?m (?frame !!! ?i)] =>
          change (frame !!! i) with 0; rewrite bf_get_0; reflexivity
      end.
Qed.

(** ** The retry loop of [controlTransfer] *)

Lemma outbound_received (type : Z) (data received : list Z) :
  outbound type (if Z.testbit type 7 then received else data) = outbound type data.
Proof. unfold outbound. now destruct (Z.testbit type 7). Qed.

Section ControlTransfers.
Context {D : UsbDefs}.
Variable libusb : Device.

(** While the answers are timeouts and tries are left, the loop goes on. *)
Lemma controlTransfer_loop_timeouts (type request : Z) (length value index attempts : Z)
    (u : USBDevice) (n : nat) :
  forall (data0 data : list Z) (budget : nat) (attempt : Z) (log : list Call),
    let c := libusb_control_transfer type request value index (outbound type data0) length
               HANTEK_TIMEOUT in
    outbound type data = outbound type data0 ->
    (forall k, (k < n)%nat -> r_code (reply_after libusb log c k) = LIBUSB_ERROR_TIMEOUT) ->
    n = 0%nat \/ attempt + Z.of_nat n <= attempts \/ attempts = -1 ->
    (n <= budget)%nat ->
    controlTransfer_loop libusb budget type request data length value index attempts
                         attempt LIBUSB_ERROR_TIMEOUT (u, log)
    = controlTransfer_loop libusb (budget - n) type request
        (match n with
         | O => data
         | S m => if Z.testbit type 7 then r_data (reply_after libusb log c m) else data0
         end)
        length value index attempts (attempt + Z.of_nat n) LIBUSB_ERROR_TIMEOUT
        (u, log ++ replicate n c).
Proof.
  induction n as [| n IH]; intros data0 data budget attempt log c Hout Hto Hatt Hbud.
  - simpl. now rewrite Nat.sub_0_r, Z.add_0_r, app_nil_r.
  - destruct budget as [| budget]; [lia |].
    assert (Hgo : (attempt <? attempts) || (attempts =? -1) = true).
    { apply orb_true_iff. destruct Hatt as [Hn | [Hlt | ->]]; [lia | left | right].
      - apply Z.ltb_lt. lia.
      - reflexivity. }
    cbn [controlTransfer_loop]. rewrite Hgo, Z.eqb_refl. cbn [andb]. run.
    rewrite Hout. fold c.
    pose proof (Hto 0%nat ltac:(lia)) as H0.
    unfold reply_after in H0. cbn [replicate] in H0. rewrite app_nil_r in H0. rewrite H0.
    rewrite (IH data0 _ budget (attempt + 1) (log ++ [c])).
    + fold c. replace (attempt + 1 + Z.of_nat n) with (attempt + Z.of_nat (S n)) by lia.
      rewrite replicate_snoc_app. cbn [Nat.sub].
      destruct n as [| m].
      * unfold reply_after. cbn [replicate]. rewrite app_nil_r.
        destruct (Z.testbit type 7) eqn:Htb; [reflexivity |].
        unfold outbound in Hout. rewrite Htb in Hout. now rewrite Hout.
      * now rewrite reply_after_shift.
    + rewrite outbound_received. exact Hout.
    + fold c. intros k Hk. rewrite reply_after_shift. apply Hto. lia.
    + lia.
    + lia.
Qed.

Lemma controlTransfer_loop_exhausted (budget : nat) (type request : Z) (data : list Z)
    (length value index attempts attempt errorCode : Z) (s : USBDevice * list Call) :
  attempts <= attempt -> attempts <> -1 ->
  controlTransfer_loop libusb budget type request data length value index attempts
                       attempt errorCode s
  = Some ((errorCode, data), s).
Proof.
  intros Hle Hne.
  assert (Hstop : (attempt <? attempts) || (attempts =? -1) = false).
  { apply orb_false_iff. split; [apply Z.ltb_ge; lia | apply Z.eqb_neq; lia]. }
  destruct budget; cbn [controlTransfer_loop]; rewrite Hstop; reflexivity.
Qed.

Lemma controlTransfer_loop_answer (budget : nat) (type request : Z) (data : list Z)
    (length value index attempts attempt : Z) (u : USBDevice) (log : list Call) :
  let c := libusb_control_transfer type request value index (outbound type data) length
             HANTEK_TIMEOUT in
  attempt < attempts \/ attempts = -1 ->
  r_code (libusb log c) <> LIBUSB_ERROR_TIMEOUT ->
  controlTransfer_loop libusb (S budget) type request data length value index attempts
                       attempt LIBUSB_ERROR_TIMEOUT (u, log)
  = Some ((r_code (libusb log c),
           if Z.testbit type 7 then r_data (libusb log c) else data), (u, log ++ [c])).
Proof.
  intros c Hatt Hans.
  assert (Hgo : (attempt <? attempts) || (attempts =? -1) = true).
  { apply orb_true_iff. destruct Hatt as [Hlt | ->]; [left | right].
    - now apply Z.ltb_lt.
    - reflexivity. }
  cbn [controlTransfer_loop]. rewrite Hgo, Z.eqb_refl. cbn [andb]. run. fold c.
  assert (Hne : (r_code (libusb log c) =? LIBUSB_ERROR_TIMEOUT) = false)
    by now apply Z.eqb_neq.
  destruct budget; cbn [controlTransfer_loop]; rewrite Hne, andb_false_r; reflexivity.
Qed.

Lemma controlTransfer_no_handle (budget : nat) (type request : Z) (data : list Z)
    (length value index attempts : Z) (u : USBDevice) (log : list Call) :
  handle u = false ->
  controlTransfer libusb budget type request data length value index attempts (u, log)
  = Some ((LIBUSB_ERROR_NO_DEVICE, data), (u, log)).
Proof. intros Hh. unfold controlTransfer. run. now rewrite Hh. Qed.

Lemma controlTransfer_exhausted (budget : nat) (type request : Z) (data : list Z)
    (length value index attempts : Z) (u : USBDevice) (log : list Call) (n : nat) :
  let c := libusb_control_transfer type request value index (outbound type data) length
             HANTEK_TIMEOUT in
  let reply := reply_after libusb log c in
  (forall k, (k < n)%nat -> r_code (reply k) = LIBUSB_ERROR_TIMEOUT) ->
  handle u = true -> attempts <> -1 -> Z.of_nat n = Z.max attempts 0 -> (n <= budget)%nat ->
  controlTransfer libusb budget type request data length value index attempts (u, log)
  = Some ((LIBUSB_ERROR_TIMEOUT, control_buffer type data reply n),
          (u, log ++ replicate n c)).
Proof.
  intros c reply Hto Hh Hne Hn Hbud. unfold controlTransfer. run. rewrite Hh. cbn [negb].
  rewrite (controlTransfer_loop_timeouts type request length value index attempts u n
             data data budget 0 log eq_refl Hto ltac:(lia) Hbud).
  rewrite controlTransfer_loop_exhausted by lia. reflexivity.
Qed.

Lemma controlTransfer_answered (budget : nat) (type request : Z) (data : list Z)
    (length value index attempts : Z) (u : USBDevice) (log : list Call) (n : nat) :
  let c := libusb_control_transfer type request value index (outbound type data) length
             HANTEK_TIMEOUT in
  let reply := reply_after libusb log c in
  (forall k, (k < n)%nat -> r_code (reply k) = LIBUSB_ERROR_TIMEOUT) ->
  handle u = true -> Z.of_nat n < attempts \/ attempts = -1 ->
  r_code (reply n) <> LIBUSB_ERROR_TIMEOUT -> (n < budget)%nat ->
  controlTransfer libusb budget type request data length value index attempts (u, log)
  = Some ((r_code (reply n), control_buffer type data reply (S n)),
          if r_code (reply n) =? LIBUSB_ERROR_NO_DEVICE
          then (disconnected u, log ++ replicate (S n) c ++ connectionLost_calls u)
          else (u, log ++ replicate (S n) c)).
Proof.
  intros c reply Hto Hh Hatt Hans Hbud. rewrite replicate_S_end, !app_assoc.
  unfold controlTransfer. run. rewrite Hh. cbn [negb].
  rewrite (controlTransfer_loop_timeouts type request length value index attempts u n
             data data budget 0 log eq_refl Hto ltac:(lia) ltac:(lia)).
  destruct (budget - n)%nat as [| b] eqn:Hb; [lia |].
  fold c. fold reply.
  set (data' := match n with
                | O => data
                | S m => if Z.testbit type 7 then r_data (reply m) else data
                end).
  assert (Hout : outbound type data' = outbound type data).
  { subst data'. destruct n; [reflexivity | apply outbound_received]. }
  unfold reply, reply_after in Hans |- *.
  pose proof (controlTransfer_loop_answer b type request data' length value index attempts
                (0 + Z.of_nat n) u (log ++ replicate n c)) as Hstep.
  cbv zeta in Hstep. rewrite Hout in Hstep. fold c in Hstep.
  rewrite Hstep by (try assumption; lia). clear Hstep.
  set (r := libusb (log ++ replicate n c) c) in *.
  assert (Hbuf : (if Z.testbit type 7 then r_data r else data')
                 = (if Z.testbit type 7 then r_data r else data)).
  { subst data'. destruct (Z.testbit type 7); [reflexivity |]. now destruct n. }
  rewrite Hbuf. cbn [control_buffer].
  destruct (r_code r =? LIBUSB_ERROR_NO_DEVICE) eqn:Hnd.
  - rewrite connectionLost_connected by assumption. reflexivity.
  - reflexivity.
Qed.

(** The wrappers test the handle before [controlTransfer] tests it again. *)
Lemma controlWrite_transfer (budget : nat) (request : Z) (data : list Z)
    (length value index attempts : Z) (s : USBDevice * list Call) :
  controlWrite libusb budget request data length value index attempts s
  = (let* r := controlTransfer libusb budget 0x40 request data length value index attempts in
     ret (fst r)) s.
Proof.
  destruct s as [u log]. unfold controlWrite. run.
  destruct (handle u) eqn:Hh; cbn [negb]; [reflexivity |].
  now rewrite controlTransfer_no_handle.
Qed.

Lemma controlRead_transfer (budget : nat) (request : Z) (data : list Z)
    (length value index attempts : Z) (s : USBDevice * list Call) :
  controlRead libusb budget request data length value index attempts s
  = controlTransfer libusb budget 0xc0 request data length value index attempts s.
Proof.
  destruct s as [u log]. unfold controlRead. run.
  destruct (handle u) eqn:Hh; cbn [negb]; [reflexivity |].
  now rewrite controlTransfer_no_handle.
Qed.

End ControlTransfers.

(** ** How the transfer functions leave the session *)

Lemma transfers_replicate (c : Call) (k : nat) :
  is_transfer c = true -> transfers (replicate k c).
Proof. intros Hc. now apply Forall_replicate. Qed.

Lemma Outcome_refl (u : USBDevice) (log : list Call) : Outcome u log (u, log).
Proof. rewrite <- (app_nil_r log) at 2. apply Kept. constructor. Qed.

Lemma Outcome_after (u : USBDevice) (log calls : list Call) (s' : USBDevice * list Call) :
  transfers calls -> Outcome u (log ++ calls) s' -> Outcome u log s'.
Proof.
  intros Hcalls Hout. inversion Hout as [calls' Hc' | calls' Hc' Hne]; subst.
  - rewrite <- app_assoc. apply Kept. now apply Forall_app.
  - rewrite <- app_assoc, (app_assoc calls). apply Lost.
    + now apply Forall_app.
    + destruct calls; [assumption | discriminate].
Qed.

Lemma Outcome_handle (u : USBDevice) (log : list Call) (s' : USBDevice * list Call) :
  handle u = true -> Outcome u log s' ->
  (handle (fst s') = true /\ exists calls, transfers calls /\ s' = (u, log ++ calls))
  \/ (handle (fst s') = false
      /\ exists calls, transfers calls /\ calls <> []
                       /\ s' = (disconnected u, log ++ calls ++ connectionLost_calls u)).
Proof.
  intros Hh Hout. inversion Hout as [calls Hc | calls Hc Hne]; subst; [left | right].
  - split; [exact Hh | eauto].
  - split; [reflexivity | eauto].
Qed.

Section Outcomes.
Context {D : UsbDefs}.
Variable libusb : Device.

Lemma bulkTransfer_orderly (budget : nat) (endpoint : Z) (data : list Z)
    (length attempts timeout : Z) :
  orderly (bulkTransfer libusb budget endpoint data length attempts timeout).
Proof.
  intros u log res s' Hh. unfold bulkTransfer. run. rewrite Hh. cbn [negb].
  destruct (bulkTransfer_loop libusb budget endpoint data length attempts timeout 0
              LIBUSB_ERROR_TIMEOUT 0 (u, log)) as [[[e t] s1] |] eqn:Hloop; [| discriminate].
  apply bulkTransfer_loop_log in Hloop as [k [-> Hk]]. cbn [fst] in Hk.
  set (c := libusb_bulk_transfer endpoint (outbound endpoint data) length timeout) in *.
  destruct (e =? LIBUSB_ERROR_NO_DEVICE) eqn:Hnd.
  - apply Z.eqb_eq in Hnd. subst e. rewrite connectionLost_connected by assumption.
    cbn. intros Hrun. injection Hrun as <- <-. split; [| reflexivity].
    rewrite <- app_assoc. apply Lost; [now apply transfers_replicate |].
    destruct k; [| discriminate]. now specialize (Hk eq_refl).
  - cbn [ret bind]. intros Hrun.
    assert (Hs : s' = (u, log ++ replicate k c))
      by (destruct (e <? 0); now injection Hrun as _ <-).
    subst s'. split; [apply Kept; now apply transfers_replicate |].
    cbn [fst]. congruence.
Qed.

Lemma controlTransfer_orderly (budget : nat) (type request : Z) (data : list Z)
    (length value index attempts : Z) :
  orderly (let* r := controlTransfer libusb budget type request data length value index
                       attempts in
           ret (fst r)).
Proof.
  intros u log res s' Hh. unfold controlTransfer. run. rewrite Hh. cbn [negb].
  destruct (controlTransfer_loop libusb budget type request data length value index attempts
              0 LIBUSB_ERROR_TIMEOUT (u, log)) as [[[e d] s1] |] eqn:Hloop; [| discriminate].
  apply controlTransfer_loop_log in Hloop as [k [-> Hk]]. cbn [fst] in Hk.
  set (c := libusb_control_transfer type request value index (outbound type data) length
              HANTEK_TIMEOUT) in *.
  destruct (e =? LIBUSB_ERROR_NO_DEVICE) eqn:Hnd.
  - apply Z.eqb_eq in Hnd. subst e. rewrite connectionLost_connected by assumption.
    cbn. intros Hrun. injection Hrun as <- <-. split; [| reflexivity].
    rewrite <- app_assoc. apply Lost; [now apply transfers_replicate |].
    destruct k; [| discriminate]. now specialize (Hk eq_refl).
  - cbn. intros Hrun. injection Hrun as <- <-.
    split; [apply Kept; now apply transfers_replicate |].
    cbn [fst]. congruence.
Qed.

(** A transfer function that goes on only after a result that is no
    error. *)
Lemma orderly_then (c1 : M Z) (c2 : Z -> M Z) :
  orderly c1 -> (forall e, orderly (c2 e)) ->
  orderly (let* e := c1 in if e <? 0 then ret e else c2 e).
Proof.
  intros H1 H2 u log res s' Hh. unfold bind.
  destruct (c1 (u, log)) as [[e s1] |] eqn:Hc1; [| discriminate].
  destruct (H1 u log e s1 Hh Hc1) as [Hout Hlost].
  destruct (e <? 0) eqn:He.
  - unfold ret. intros Hrun. injection Hrun as <- <-. auto.
  - apply Z.ltb_ge in He.
    destruct (Outcome_handle u log s1 Hh Hout) as [[_ (calls & Hcalls & ->)] | [Hgone _]].
    + intros Hrun. destruct (H2 e u (log ++ calls) res s' Hh Hrun) as [Hout' Hlost'].
      split; [now apply (Outcome_after u log calls) | assumption].
    + specialize (Hlost Hgone). unfold LIBUSB_ERROR_NO_DEVICE in Hlost. lia.
Qed.

(** The test of the handle that opens a transfer function. *)
Lemma orderly_guard (c : M Z) :
  orderly c ->
  orderly (let* u := this in if negb (handle u) then ret LIBUSB_ERROR_NO_DEVICE else c).
Proof.
  intros Hc u log res s' Hh. unfold bind, this. cbn [fst]. rewrite Hh. cbn [negb].
  now apply Hc.
Qed.

Lemma controlWrite_orderly (budget : nat) (request : Z) (data : list Z)
    (length value index attempts : Z) :
  orderly (controlWrite libusb budget request data length value index attempts).
Proof.
  intros u log res s' Hh. rewrite controlWrite_transfer.
  now apply controlTransfer_orderly.
Qed.

Lemma controlRead_orderly (budget : nat) (request : Z) (data : list Z)
    (length value index attempts : Z) :
  orderly (let* r := controlRead libusb budget request data length value index attempts in
           ret (fst r)).
Proof.
  intros u log res s' Hh. unfold bind at 1. rewrite controlRead_transfer.
  now apply controlTransfer_orderly.
Qed.

Lemma getConnectionSpeed_orderly (budget : nat) :
  orderly (getConnectionSpeed libusb budget).
Proof.
  intros u log res s' Hh. unfold getConnectionSpeed. unfold bind at 1.
  destruct (controlRead libusb budget CONTROL_GETSPEED ControlGetSpeed
              (Z.of_nat (DataArray.getSize ControlGetSpeed)) control_value_default
              control_index_default HANTEK_ATTEMPTS (u, log))
    as [[[e d] s1] |] eqn:Hcr; [| discriminate].
  assert (Hord : Outcome u log s1 /\ (handle (fst s1) = false -> e = LIBUSB_ERROR_NO_DEVICE)).
  { apply (controlRead_orderly budget CONTROL_GETSPEED ControlGetSpeed
             (Z.of_nat (DataArray.getSize ControlGetSpeed)) control_value_default
             control_index_default HANTEK_ATTEMPTS u log e s1 Hh).
    unfold bind at 1. now rewrite Hcr. }
  destruct Hord as [Hout Hlost].
  destruct (e <? 0) eqn:He; unfold ret; intros Hrun; injection Hrun as <- <-.
  - auto.
  - split; [assumption |]. intros Hgone. specialize (Hlost Hgone).
    apply Z.ltb_ge in He. unfold LIBUSB_ERROR_NO_DEVICE in Hlost. lia.
Qed.

Lemma bulkWrite_orderly (budget : nat) (data : list Z) (length attempts : Z) :
  orderly (bulkWrite libusb budget data length attempts).
Proof.
  unfold bulkWrite. apply orderly_guard.
  apply (orderly_then (getConnectionSpeed libusb budget)
           (fun _ => bulkTransfer libusb budget HANTEK_EP_OUT data length attempts
                       HANTEK_TIMEOUT)).
  - apply getConnectionSpeed_orderly.
  - intros _. apply bulkTransfer_orderly.
Qed.

Lemma bulkRead_orderly (budget : nat) (length attempts : Z) :
  orderly (bulkRead libusb budget length attempts).
Proof.
  unfold bulkRead. apply orderly_guard.
  apply (orderly_then (getConnectionSpeed libusb budget)
           (fun _ => bulkTransfer libusb budget HANTEK_EP_IN [] length attempts
                       HANTEK_TIMEOUT)).
  - apply getConnectionSpeed_orderly.
  - intros _. apply bulkTransfer_orderly.
Qed.

Lemma bulkCommand_orderly (budget : nat) (command : list Z) (attempts : Z) :
  orderly (bulkCommand libusb budget command attempts).
Proof.
  intros u log res s' Hh. unfold bulkCommand. unfold bind at 1, this. cbn [fst].
  rewrite Hh. cbn [negb].
  destruct (allowBulkTransfer u); cbn [negb].
  - apply (orderly_then
             (controlWrite libusb budget CONTROL_BEGINCOMMAND (beginCommandControl u)
                (Z.of_nat (DataArray.getSize (beginCommandControl u))) control_value_default
                control_index_default HANTEK_ATTEMPTS)
             (fun _ => bulkWrite libusb budget command
                         (Z.of_nat (DataArray.getSize command)) attempts)).
    + apply controlWrite_orderly.
    + intros _. apply bulkWrite_orderly.
    + exact Hh.
  - unfold ret. intros Hrun. injection Hrun as <- <-.
    split; [apply Outcome_refl | cbn [fst]; congruence].
Qed.

(** The loop of [bulkReadMulti] goes on with a session in either outcome. *)
Lemma bulkReadMulti_loop_outcome (budget : nat) (length attempts : Z) (u : USBDevice)
    (log : list Call) (n : nat) :
  handle u = true ->
  forall (received errorCode : Z) (s s' : USBDevice * list Call) (res : Z * Z),
    Outcome u log s ->
    bulkReadMulti_loop libusb n budget length attempts received errorCode s = Some (res, s') ->
    Outcome u log s'.
Proof.
  intros Hh. induction n as [| n IH]; intros received errorCode s s' res Hout;
    cbn [bulkReadMulti_loop]; unfold bind at 1, this;
    destruct ((received <? length) && (errorCode =? inPacketLength (fst s))).
  - discriminate.
  - unfold ret. intros Hrun. now injection Hrun as _ <-.
  - unfold bind at 1.
    destruct (bulkTransfer libusb budget HANTEK_EP_IN []
                (Z.min (uint32_t (length - received)) (uint32_t (inPacketLength (fst s))))
                attempts HANTEK_TIMEOUT_MULTI s) as [[e s1] |] eqn:Hbt; [| discriminate].
    intros Hrun. apply IH in Hrun; [exact Hrun |].
    destruct (Outcome_handle u log s Hh Hout)
      as [[_ (calls & Hcalls & ->)] | [Hgone (calls & Hcalls & Hne & ->)]].
    + apply (Outcome_after u log calls); [assumption |].
      now apply (bulkTransfer_orderly _ _ _ _ _ _ u (log ++ calls) e s1 Hh Hbt).
    + cbn [fst] in Hbt. rewrite bulkTransfer_no_handle in Hbt by reflexivity.
      injection Hbt as _ <-. exact Hout.
  - unfold ret. intros Hrun. now injection Hrun as _ <-.
Qed.

Lemma bulkReadMulti_outcome (budget : nat) (length attempts : Z) (u : USBDevice)
    (log : list Call) (res : Z) (s' : USBDevice * list Call) :
  handle u = true ->
  bulkReadMulti libusb budget length attempts (u, log) = Some (res, s') ->
  Outcome u log s'.
Proof.
  intros Hh. unfold bulkReadMulti. unfold bind at 1, this. cbn [fst]. rewrite Hh. cbn [negb].
  unfold bind at 1.
  destruct (getConnectionSpeed libusb budget (u, log)) as [[e s1] |] eqn:Hsp; [| discriminate].
  destruct (getConnectionSpeed_orderly budget u log e s1 Hh Hsp) as [Hout _].
  destruct (e <? 0).
  - unfold ret. intros Hrun. now injection Hrun as _ <-.
  - unfold bind at 1, this. unfold bind at 1.
    destruct (bulkReadMulti_loop libusb budget budget length attempts 0
                (inPacketLength (fst s1)) s1) as [[[received e'] s2] |] eqn:Hloop;
      [| discriminate].
    apply (bulkReadMulti_loop_outcome budget length attempts u log budget Hh) in Hloop;
      [| exact Hout].
    destruct (received >? 0); unfold ret; intros Hrun; now injection Hrun as _ <-.
Qed.

Lemma perform_outcome (budget : nat) (op : Operation) (u : USBDevice) (log : list Call)
    (res : Z) (s' : USBDevice * list Call) :
  handle u = true -> perform libusb budget op (u, log) = Some (res, s') ->
  Outcome u log s'
  /\ (handle (fst s') = false -> (forall length attempts, op <> BulkReadMulti length attempts) ->
      res = LIBUSB_ERROR_NO_DEVICE).
Proof.
  intros Hh Hrun.
  assert (Hord : forall c, orderly c -> c (u, log) = Some (res, s') ->
                 Outcome u log s'
                 /\ (handle (fst s') = false ->
                     (forall length attempts, op <> BulkReadMulti length attempts) ->
                     res = LIBUSB_ERROR_NO_DEVICE)).
  { intros c Hc Hcrun. destruct (Hc u log res s' Hh Hcrun). auto. }
  destruct op as [ep data len att timeout | data len att | len att | command att | len att
                 | type request data len value index att | request data len value index att
                 | request data len value index att | ]; cbn [perform] in Hrun.
  - eapply Hord; [apply bulkTransfer_orderly | exact Hrun].
  - eapply Hord; [apply bulkWrite_orderly | exact Hrun].
  - eapply Hord; [apply bulkRead_orderly | exact Hrun].
  - eapply Hord; [apply bulkCommand_orderly | exact Hrun].
  - split; [now apply (bulkReadMulti_outcome budget len att u log res s') |].
    intros _ Hop. now contradiction (Hop len att).
  - eapply Hord; [apply controlTransfer_orderly | exact Hrun].
  - eapply Hord; [apply controlWrite_orderly | exact Hrun].
  - eapply Hord; [apply controlRead_orderly | exact Hrun].
  - eapply Hord; [apply getConnectionSpeed_orderly | exact Hrun].
Qed.

(** Without a handle no transfer function calls libusb. *)
Lemma perform_detached (budget : nat) (op : Operation) (u : USBDevice) (log : list Call) :
  handle u = false ->
  perform libusb budget op (u, log) = Some (LIBUSB_ERROR_NO_DEVICE, (u, log)).
Proof.
  intros Hh. destruct op; cbn [perform].
  - now apply bulkTransfer_no_handle.
  - unfold bulkWrite. run. now rewrite Hh.
  - unfold bulkRead. run. now rewrite Hh.
  - unfold bulkCommand. run. now rewrite Hh.
  - unfold bulkReadMulti. run. now rewrite Hh.
  - unfold bind. now rewrite controlTransfer_no_handle.
  - unfold controlWrite. run. now rewrite Hh.
  - unfold controlRead. run. now rewrite Hh.
  - unfold getConnectionSpeed, controlRead. run. now rewrite Hh.
Qed.

End Outcomes.

(** ** Properties of the session *)

(** X14.  [controlTransfer] retries like [bulkTransfer], with its own
    results.  Without a handle it answers [NO_DEVICE], transfers nothing and
    leaves the buffer alone.  Otherwise let the first [n] tries time out.
    If [attempts] is not -1 and [n] is all the tries there are, the result is
    [TIMEOUT] after exactly [n] transfers.  If another try is allowed and
    its answer is no timeout, the loop ends after [n + 1] transfers and the
    code of the answer is returned as it is, a byte count included; on
    [NO_DEVICE] the session is disconnected.  The buffer of an inbound
    transfer holds what the device sent at the last try. *)
Theorem controlTransfer_retry (D : UsbDefs) (libusb : Device) (budget : nat)
    (type request : Z) (data : list Z) (length value index attempts : Z)
    (u : USBDevice) (log : list Call) (n : nat) :
  let c := libusb_control_transfer type request value index (outbound type data) length
             HANTEK_TIMEOUT in
  let reply := reply_after libusb log c in
  (forall k, (k < n)%nat -> r_code (reply k) = LIBUSB_ERROR_TIMEOUT) ->
  (handle u = false ->
     controlTransfer libusb budget type request data length value index attempts (u, log)
     = Some ((LIBUSB_ERROR_NO_DEVICE, data), (u, log)))
  /\ (handle u = true -> attempts <> -1 -> Z.of_nat n = Z.max attempts 0 ->
      (n <= budget)%nat ->
      controlTransfer libusb budget type request data length value index attempts (u, log)
      = Some ((LIBUSB_ERROR_TIMEOUT, control_buffer type data reply n),
              (u, log ++ replicate n c)))
  /\ (handle u = true -> Z.of_nat n < attempts \/ attempts = -1 ->
      r_code (reply n) <> LIBUSB_ERROR_TIMEOUT -> (n < budget)%nat ->
      controlTransfer libusb budget type request data length value index attempts (u, log)
      = Some ((r_code (reply n), control_buffer type data reply (S n)),
              if r_code (reply n) =? LIBUSB_ERROR_NO_DEVICE
              then (disconnected u, log ++ replicate (S n) c ++ connectionLost_calls u)
              else (u, log ++ replicate (S n) c))).
Proof.
  intros c reply Hto. split; [| split].
  - apply controlTransfer_no_handle.
  - intros Hh Hne Hn Hbud. now apply controlTransfer_exhausted.
  - intros Hh Hatt Hans Hbud. now apply controlTransfer_answered.
Qed.

(** A device that times out twice and then answers the speed request:
    three transfers, the ten bytes counted and handed over. *)
Lemma controlTransfer_retry_witness :
  controlTransfer (D := sample_defs) (slow_device 2) 5 0xc0 0xb2 (replicate 10 0) 10 0 0 3
    (connected_session, [])
  = Some ((10, [1; 0; 0; 0; 0; 0; 0; 0; 0; 0]),
          (connected_session, replicate 3 (libusb_control_transfer 0xc0 0xb2 0 0 [] 10 500))).
Proof.
  refine (proj2 (proj2 (controlTransfer_retry sample_defs (slow_device 2) 5 0xc0 0xb2
                          (replicate 10 0) 10 0 0 3 connected_session [] 2 _)) _ _ _ _).
  - intros k Hk. destruct k as [| [| k]]; [reflexivity | reflexivity | lia].
  - reflexivity.
  - left. lia.
  - vm_compute. discriminate.
  - lia.
Defined.

(** X15.  [controlWrite] and [controlRead] are [controlTransfer] with the
    request types 0x40 (vendor, host to device) and 0xc0 (vendor, device to
    host), on every session: their own test of the handle changes
    nothing. *)
Theorem control_wrappers (D : UsbDefs) (libusb : Device) (budget : nat) (request : Z)
    (data : list Z) (length value index attempts : Z) (s : USBDevice * list Call) :
  controlWrite libusb budget request data length value index attempts s
  = (let* r := controlTransfer libusb budget 0x40 request data length value index attempts in
     ret (fst r)) s
  /\ controlRead libusb budget request data length value index attempts s
     = controlTransfer libusb budget 0xc0 request data length value index attempts s.
Proof. split; [apply controlWrite_transfer | apply controlRead_transfer]. Qed.

(** X16.  Whatever the device answers, a transfer function that returns
    leaves a session that held a handle in one of two ways: as it was, the
    log grown by transfers only; or disconnected by [connectionLost], the
    log grown by at least one transfer followed by the calls of
    [connectionLost].  The packet lengths, the bulk switch and the rest of
    the session never change.  Every function but [bulkReadMulti] returns
    [LIBUSB_ERROR_NO_DEVICE] when the device was lost. *)
Theorem transfer_outcome (D : UsbDefs) (libusb : Device) (budget : nat) (op : Operation)
    (u : USBDevice) (log : list Call) (res : Z) (s' : USBDevice * list Call) :
  handle u = true -> perform libusb budget op (u, log) = Some (res, s') ->
  Outcome u log s'
  /\ (handle (fst s') = false -> (forall length attempts, op <> BulkReadMulti length attempts) ->
      res = LIBUSB_ERROR_NO_DEVICE).
Proof. apply perform_outcome. Qed.

Lemma transfer_outcome_witness :
  Outcome connected_session []
    (disconnected connected_session,
     [libusb_control_transfer 0xc0 0xb2 0 0 [] 10 500; libusb_unref_device;
      libusb_release_interface 0; libusb_close; deviceDisconnected]).
Proof.
  refine (proj1 (transfer_outcome sample_defs gone_device 3 (BulkRead 64 1) connected_session
                   [] LIBUSB_ERROR_NO_DEVICE _ _ _)).
  - reflexivity.
  - reflexivity.
Defined.

(** X17.  On a session without a handle every transfer function returns
    [LIBUSB_ERROR_NO_DEVICE] at once: it calls nothing and changes
    nothing, whatever the budget and the arguments. *)
Theorem transfer_detached (D : UsbDefs) (libusb : Device) (budget : nat) (op : Operation)
    (u : USBDevice) (log : list Call) :
  handle u = false ->
  perform libusb budget op (u, log) = Some (LIBUSB_ERROR_NO_DEVICE, (u, log)).
Proof. apply perform_detached. Qed.

Lemma transfer_detached_witness :
  perform (D := sample_defs) ready_device 0 (BulkReadMulti 1200 (-1)) (detached_session, [])
  = Some (LIBUSB_ERROR_NO_DEVICE, (detached_session, [])).
Proof.
  apply (transfer_detached sample_defs ready_device 0 (BulkReadMulti 1200 (-1))
           detached_session []).
  reflexivity.
Defined.

(** ** From the first transfer to the destructor *)

Lemma count_calls_app (kind : Call -> bool) (l k : list Call) :
  count_calls kind (l ++ k) = (count_calls kind l + count_calls kind k)%nat.
Proof. unfold count_calls. now rewrite List.filter_app, length_app. Qed.

Lemma count_calls_transfers (kind : Call -> bool) (calls : list Call) :
  (forall c, is_transfer c = true -> kind c = false) -> transfers calls ->
  count_calls kind calls = 0%nat.
Proof.
  intros Hkind Hcalls. unfold count_calls. induction Hcalls as [| c calls Hc _ IH];
    [reflexivity |]. cbn [List.filter]. now rewrite (Hkind c Hc).
Qed.

Lemma connectionLost_detached (u : USBDevice) (log : list Call) :
  handle u = false ->
  Session.connectionLost (u, log) = Some (tt, (u, log ++ [libusb_unref_device])).
Proof. intros Hh. unfold connectionLost. run. now rewrite Hh. Qed.

Section Lifecycle.
Context {D : UsbDefs}.
Variable libusb : Device.

Lemma perform_all_outcome (budget : nat) (u : USBDevice) (log : list Call)
    (ops : list Operation) :
  handle u = true ->
  forall (s s' : USBDevice * list Call) (rs : list Z),
    Outcome u log s -> perform_all libusb budget ops s = Some (rs, s') -> Outcome u log s'.
Proof.
  intros Hh. induction ops as [| op ops IH]; intros s s' rs Hout; cbn [perform_all].
  - unfold ret. intros Hrun. now injection Hrun as _ <-.
  - unfold bind at 1.
    destruct (perform libusb budget op s) as [[r s1] |] eqn:Hop; [| discriminate].
    unfold bind at 1.
    destruct (perform_all libusb budget ops s1) as [[rs1 s2] |] eqn:Hrest; [| discriminate].
    unfold ret. intros Hrun. injection Hrun as _ <-.
    apply (IH s1 s2 rs1); [| exact Hrest].
    destruct (Outcome_handle u log s Hh Hout)
      as [[_ (calls & Hcalls & ->)] | [Hgone (calls & Hcalls & Hne & ->)]].
    + apply (Outcome_after u log calls); [assumption |].
      now apply (perform_outcome libusb budget op u (log ++ calls) r s1 Hh Hop).
    + rewrite perform_detached in Hop by reflexivity. injection Hop as _ <-. exact Hout.
Qed.

End Lifecycle.

(** X18.  Take a session that holds a handle, call any transfer
    functions one after the other and then the destructor.  Whatever the
    device answered, the session ends without a handle; the interface has
    been released once, the handle closed once and [deviceDisconnected]
    emitted once.  [libusb_unref_device] has been called once if the device
    was still there at the destructor, and twice if a transfer had lost
    it. *)
Theorem session_lifecycle (D : UsbDefs) (libusb : Device) (budget : nat)
    (ops : list Operation) (u : USBDevice) (log : list Call) (rs : list Z)
    (s' : USBDevice * list Call) :
  handle u = true ->
  perform_all libusb budget ops (u, log) = Some (rs, s') ->
  exists calls,
    destructor s' = Some (tt, (disconnected u, log ++ calls))
    /\ handle (disconnected u) = false
    /\ count_calls is_release calls = 1%nat
    /\ count_calls is_close calls = 1%nat
    /\ count_calls is_disconnected_signal calls = 1%nat
    /\ count_calls is_unref calls = (if handle (fst s') then 1 else 2)%nat.
Proof.
  intros Hh Hrun.
  apply (perform_all_outcome libusb budget u log ops Hh (u, log)) in Hrun;
    [| apply Outcome_refl].
  assert (Hnone : forall kind, (forall c, is_transfer c = true -> kind c = false) ->
                  forall calls, transfers calls -> count_calls kind calls = 0%nat)
    by (intros kind Hkind calls; now apply count_calls_transfers).
  destruct (Outcome_handle u log s' Hh Hrun)
    as [[Hkept (calls & Hcalls & ->)] | [Hgone (calls & Hcalls & Hne & ->)]].
  - exists (calls ++ connectionLost_calls u). unfold destructor.
    rewrite connectionLost_connected by assumption. rewrite app_assoc.
    cbn [fst]. rewrite Hh, !count_calls_app.
    rewrite (Hnone is_release), (Hnone is_close), (Hnone is_disconnected_signal),
      (Hnone is_unref) by (try assumption; now intros []).
    repeat split.
  - exists (calls ++ connectionLost_calls u ++ [libusb_unref_device]). unfold destructor.
    rewrite connectionLost_detached by reflexivity.
    rewrite <- !app_assoc. cbn [fst disconnected set_handle handle]. rewrite !count_calls_app.
    rewrite (Hnone is_release), (Hnone is_close), (Hnone is_disconnected_signal),
      (Hnone is_unref) by (try assumption; now intros []).
    repeat split.
Qed.

(** A bulk command and a read on a device that has been unplugged: the
    first transfer loses the device, the read finds no handle, the
    destructor drops the device a second time. *)
Lemma session_lifecycle_witness :
  exists calls,
    destructor (disconnected connected_session,
                [libusb_control_transfer 0x40 0xb3 0 0 [0x0f; 0; 0; 0; 0; 0; 0; 0; 0; 0] 10 500;
                 libusb_unref_device; libusb_release_interface 0; libusb_close;
                 deviceDisconnected])
    = Some (tt, (disconnected connected_session, [] ++ calls))
    /\ handle (disconnected connected_session) = false
    /\ count_calls is_release calls = 1%nat
    /\ count_calls is_close calls = 1%nat
    /\ count_calls is_disconnected_signal calls = 1%nat
    /\ count_calls is_unref calls = 2%nat.
Proof.
  refine (session_lifecycle sample_defs gone_device 3
            [BulkCommand [0x02; 0] 3; BulkReadMulti 1200 1] connected_session []
            [LIBUSB_ERROR_NO_DEVICE; LIBUSB_ERROR_NO_DEVICE] _ _ _).
  - reflexivity.
  - reflexivity.
Defined.

(** ** The speed request before a bulk transfer *)

Section BulkOrder.
Context {D : UsbDefs}.
Variable libusb : Device.

Lemma speed_then_bulk_log (budget : nat) (endpoint : Z) (data : list Z) (length attempts : Z)
    (u u' : USBDevice) (log log' : list Call) (res : Z) :
  handle u = true ->
  (let* errorCode := getConnectionSpeed libusb budget in
   if errorCode <? 0 then ret errorCode
   else bulkTransfer libusb budget endpoint data length attempts HANTEK_TIMEOUT) (u, log)
  = Some (res, (u', log')) ->
  exists ng nb tail,
    log' = log ++ replicate ng get_speed_transfer
               ++ replicate nb (libusb_bulk_transfer endpoint (outbound endpoint data) length
                                  HANTEK_TIMEOUT) ++ tail
    /\ no_transfer tail /\ ((0 < nb)%nat -> (0 < ng)%nat).
Proof.
  intros Hh. unfold bind at 1.
  destruct (getConnectionSpeed libusb budget (u, log)) as [[e [u1 log1]] |] eqn:Hsp;
    [| discriminate].
  apply getConnectionSpeed_log in Hsp as (ng & tail & -> & Htail & Hpos); [| assumption].
  destruct (e <? 0) eqn:He.
  - intros Hrun. injection Hrun as _ _ <-. exists ng, 0%nat, tail.
    split; [reflexivity | split; [assumption | lia]].
  - apply Z.ltb_ge in He. destruct (Hpos He) as (Hng & -> & ->).
    intros Hrun. apply bulkTransfer_log in Hrun as (nb & tail & -> & Htail'); [| assumption].
    exists ng, nb, tail. rewrite app_nil_r, <- app_assoc.
    split; [reflexivity | split; [assumption | lia]].
Qed.

End BulkOrder.

(** X19.  [bulkWrite] and [bulkRead] ask for the connection speed before
    they transfer: what either appends to the log of a session that holds a
    handle is some tries of the speed request, then some tries of its bulk
    transfer, then at most the calls of [connectionLost]; a bulk transfer
    is never made without a speed request before it. *)
Theorem bulk_after_speed (D : UsbDefs) (libusb : Device) (budget : nat) (data : list Z)
    (length attempts : Z) (u u' : USBDevice) (log log' : list Call) (res : Z) :
  handle u = true ->
  (bulkWrite libusb budget data length attempts (u, log) = Some (res, (u', log')) ->
   exists ng nb tail,
     log' = log ++ replicate ng get_speed_transfer
                ++ replicate nb (libusb_bulk_transfer HANTEK_EP_OUT
                                   (outbound HANTEK_EP_OUT data) length HANTEK_TIMEOUT)
                ++ tail
     /\ no_transfer tail /\ ((0 < nb)%nat -> (0 < ng)%nat))
  /\ (bulkRead libusb budget length attempts (u, log) = Some (res, (u', log')) ->
      exists ng nb tail,
        log' = log ++ replicate ng get_speed_transfer
                   ++ replicate nb (bulk_in_transfer length) ++ tail
        /\ no_transfer tail /\ ((0 < nb)%nat -> (0 < ng)%nat)).
Proof.
  intros Hh. split.
  - unfold bulkWrite. unfold bind at 1, this. cbn [fst]. rewrite Hh. cbn [negb].
    now apply speed_then_bulk_log.
  - unfold bulkRead. unfold bind at 1, this. cbn [fst]. rewrite Hh. cbn [negb].
    now apply speed_then_bulk_log.
Qed.

Lemma bulk_after_speed_witness :
  exists ng nb tail,
    [get_speed_transfer (D := sample_defs); bulk_in_transfer (D := sample_defs) 64]
    = [] ++ replicate ng (get_speed_transfer (D := sample_defs))
         ++ replicate nb (bulk_in_transfer (D := sample_defs) 64) ++ tail
    /\ no_transfer tail /\ ((0 < nb)%nat -> (0 < ng)%nat).
Proof.
  refine (proj2 (bulk_after_speed sample_defs ready_device 3 [] 64 1 connected_session
                   connected_session [] _ 64 _) _).
  - reflexivity.
  - reflexivity.
Defined.

(** ** Claiming the interface *)

Lemma last_cons_default {A : Type} (l : list A) (x d : A) :
  List.last (x :: l) d = List.last l x.
Proof.
  revert x d. induction l as [| y l IH]; intros x d; [reflexivity |].
  change (List.last (x :: y :: l) d) with (List.last (y :: l) d).
  rewrite (IH y d). symmetry. apply IH.
Qed.

Lemma last_packet_size_cons (e : libusb_endpoint_descriptor)
    (rest : list libusb_endpoint_descriptor) (address default : Z) :
  last_packet_size (e :: rest) address default
  = last_packet_size rest address
      (if bEndpointAddress e =? address then wMaxPacketSize e else default).
Proof.
  unfold last_packet_size. cbn [List.filter].
  destruct (bEndpointAddress e =? address); [| reflexivity].
  destruct (List.filter (fun e0 => bEndpointAddress e0 =? address) rest);
    [reflexivity | now rewrite last_cons_default].
Qed.

Lemma recorded_lengths_last (endpoints : list libusb_endpoint_descriptor)
    (endpointOut endPointIn out inp : Z) :
  recorded_lengths endpoints endpointOut endPointIn out inp
  = (last_packet_size endpoints endpointOut out,
     if endpointOut =? endPointIn then inp else last_packet_size endpoints endPointIn inp).
Proof.
  revert out inp. induction endpoints as [| e rest IH]; intros out inp.
  - cbn. now destruct (endpointOut =? endPointIn).
  - cbn [recorded_lengths]. rewrite !last_packet_size_cons.
    destruct (bEndpointAddress e =? endpointOut) eqn:Ho.
    + rewrite IH. apply Z.eqb_eq in Ho. rewrite Ho.
      destruct (endpointOut =? endPointIn); reflexivity.
    + destruct (bEndpointAddress e =? endPointIn) eqn:Hi.
      * rewrite IH. apply Z.eqb_eq in Hi. rewrite <- Hi.
        rewrite Z.eqb_sym, Ho. reflexivity.
      * now rewrite IH.
Qed.

Section Claim.
Context {D : UsbDefs}.
Variable libusb : Device.

Lemma claimInterface_endpoints_recorded (endpoints : list libusb_endpoint_descriptor)
    (endpointOut endPointIn : Z) (u : USBDevice) (log : list Call) :
  claimInterface_endpoints endpoints endpointOut endPointIn (u, log)
  = Some (tt, (mkUSBDevice (model u) (device u) (handle u) (interface u)
                 (fst (recorded_lengths endpoints endpointOut endPointIn
                         (outPacketLength u) (inPacketLength u)))
                 (snd (recorded_lengths endpoints endpointOut endPointIn
                         (outPacketLength u) (inPacketLength u)))
                 (allowBulkTransfer u) (beginCommandControl u), log)).
Proof.
  revert u. induction endpoints as [| e rest IH]; intros u.
  - destruct u. reflexivity.
  - cbn [claimInterface_endpoints recorded_lengths]. unfold bind at 1.
    destruct (bEndpointAddress e =? endpointOut);
      [| destruct (bEndpointAddress e =? endPointIn)];
      unfold modify, ret; cbn [fst snd]; rewrite IH; reflexivity.
Qed.

Lemma claimInterface_result (d : libusb_interface_descriptor) (endpointOut endPointIn : Z)
    (u : USBDevice) (log : list Call) :
  let c := libusb_claim_interface (bInterfaceNumber d) in
  claimInterface libusb d endpointOut endPointIn (u, log)
  = Some (if r_code (libusb log c) <? 0 then (r_code (libusb log c), (u, log ++ [c]))
          else (LIBUSB_SUCCESS,
                (mkUSBDevice (model u) (device u) (handle u) (bInterfaceNumber d)
                   (last_packet_size (endpoint d) endpointOut 0)
                   (if endpointOut =? endPointIn then 0
                    else last_packet_size (endpoint d) endPointIn 0)
                   (allowBulkTransfer u) (beginCommandControl u), log ++ [c]))).
Proof.
  intros c. unfold claimInterface. run. fold c.
  destruct (r_code (libusb log c) <? 0); [reflexivity |].
  rewrite claimInterface_endpoints_recorded. cbn [model device handle interface
    outPacketLength inPacketLength allowBulkTransfer beginCommandControl set_interface
    set_outPacketLength set_inPacketLength].
  now rewrite recorded_lengths_last.
Qed.

(** The loop over the interfaces keeps the handle and the identity of the
    device. *)
Lemma connectDevice_interfaces_keeps (interfaces : list libusb_interface) (errorCode : Z)
    (u u' : USBDevice) (log log' : list Call) (res : Z) :
  connectDevice_interfaces libusb interfaces errorCode (u, log) = Some (res, (u', log')) ->
  handle u' = handle u /\ model u' = model u /\ device u' = device u.
Proof.
  destruct (first_interface interfaces) as [d |] eqn:Hfirst.
  - rewrite (connectDevice_interfaces_some libusb interfaces errorCode d _ Hfirst).
    rewrite claimInterface_result.
    destruct (r_code _ <? 0); intros Hrun; injection Hrun as _ <- _; auto.
  - rewrite (connectDevice_interfaces_none libusb interfaces errorCode _ Hfirst).
    intros Hrun. injection Hrun as _ <- _. auto.
Qed.

End Claim.

(** X20.  [claimInterface] makes one call.  If libusb refuses the claim,
    the code is returned and the session stays as it was.  Otherwise the
    session records the number of the interface and, for any list of
    endpoints, as the outbound packet length the maximum packet size of the
    last endpoint with the outbound address, and as the inbound one that of
    the last endpoint with the inbound address; 0 where there is no such
    endpoint, and 0 for the inbound length when the two addresses are the
    same. *)
Theorem claimInterface_lengths (D : UsbDefs) (libusb : Device)
    (d : libusb_interface_descriptor) (endpointOut endPointIn : Z)
    (u : USBDevice) (log : list Call) :
  let c := libusb_claim_interface (bInterfaceNumber d) in
  claimInterface libusb d endpointOut endPointIn (u, log)
  = Some (if r_code (libusb log c) <? 0 then (r_code (libusb log c), (u, log ++ [c]))
          else (LIBUSB_SUCCESS,
                (mkUSBDevice (model u) (device u) (handle u) (bInterfaceNumber d)
                   (last_packet_size (endpoint d) endpointOut 0)
                   (if endpointOut =? endPointIn then 0
                    else last_packet_size (endpoint d) endPointIn 0)
                   (allowBulkTransfer u) (beginCommandControl u), log ++ [c]))).
Proof. apply claimInterface_result. Qed.

(** X21.  Once [libusb_open] has succeeded, [connectDevice] leaves the
    session holding the handle, also when no interface could be claimed and
    it returns [false]; nothing closes the handle.  A second call then
    returns [true] at once, without a call to libusb. *)
Theorem connectDevice_again (D : UsbDefs) (libusb : Device) (u u' : USBDevice)
    (log log' : list Call) (result : bool * option ErrorMessage) :
  ids_differ u = false -> handle u = false ->
  r_code (libusb log libusb_open) = LIBUSB_SUCCESS ->
  connectDevice libusb (u, log) = Some (result, (u', log')) ->
  handle u' = true
  /\ connectDevice libusb (u', log') = Some ((true, None), (u', log')).
Proof.
  intros Hids Hh Hopen. rewrite connectDevice_opened by assumption.
  destruct (connectDevice_interfaces libusb (config_interface (device u))
              LIBUSB_ERROR_NOT_FOUND (set_handle true u, log ++ [libusb_open]))
    as [[e [u1 log1]] |] eqn:Hloop; [| discriminate].
  apply connectDevice_interfaces_keeps in Hloop as (Hh1 & Hm1 & Hd1).
  intros Hrun.
  assert (Hu : u' = u1) by (destruct (negb (e =? LIBUSB_SUCCESS)); now injection Hrun).
  assert (Hl : log' = log1) by (destruct (negb (e =? LIBUSB_SUCCESS)); now injection Hrun).
  subst u' log'. cbn in Hh1, Hm1, Hd1. split; [exact Hh1 |].
  unfold connectDevice, needsFirmware, isConnected. run.
  unfold ids_differ in Hids. rewrite Hm1, Hd1. resolve Hids. resolve Hh1. reflexivity.
Qed.

(** The interface is held by another program: the first call fails, the
    second one succeeds. *)
Lemma connectDevice_again_witness :
  handle (set_handle true detached_session) = true
  /\ connectDevice (D := sample_defs) busy_device
       (set_handle true detached_session, [libusb_open; libusb_claim_interface 0])
     = Some ((true, None),
             (set_handle true detached_session, [libusb_open; libusb_claim_interface 0])).
Proof.
  refine (connectDevice_again sample_defs busy_device detached_session
            (set_handle true detached_session) [] [libusb_open; libusb_claim_interface 0]
            (false, Some (UsbError LIBUSB_ERROR_BUSY 1 2)) _ _ _ _).
  - reflexivity.
  - reflexivity.
  - reflexivity.
  - reflexivity.
Defined.

(** ** The packet size *)

(** X22.  [getPacketSize] returns what [getConnectionSpeed] leaves of the
    session and one of 64, 512 and -1, or throws; it throws exactly when
    the speed is above [CONNECTION_HIGHSPEED] and is not
    [CONNECTION_FULLSPEED].  When neither constant is negative, an error of
    the speed request is reported as -1, whatever its code, and so is a
    session without a handle, which is left untouched. *)
Theorem getPacketSize_outcomes (D : UsbDefs) (C : ConnectionSpeeds) (libusb : Device)
    (budget : nat) (s : USBDevice * list Call) :
  match getConnectionSpeed libusb budget s with
  | None => getPacketSize libusb budget s = None
  | Some (speed, s') =>
      exists r,
        getPacketSize libusb budget s = Some (r, s')
        /\ (r = Returned 64 \/ r = Returned 512 \/ r = Returned (-1) \/ r = UnknownUSBSpeed)
        /\ (r = UnknownUSBSpeed
            <-> speed <> CONNECTION_FULLSPEED /\ CONNECTION_HIGHSPEED < speed)
        /\ (0 <= CONNECTION_FULLSPEED -> 0 <= CONNECTION_HIGHSPEED -> speed < 0 ->
            r = Returned (-1))
  end
  /\ (0 <= CONNECTION_FULLSPEED -> 0 <= CONNECTION_HIGHSPEED -> handle (fst s) = false ->
      getPacketSize libusb budget s = Some (Returned (-1), s)).
Proof.
  split.
  - destruct (getConnectionSpeed libusb budget s) as [[speed s'] |] eqn:Hsp;
      unfold getPacketSize; unfold bind at 1; rewrite Hsp; [| reflexivity].
    destruct (speed =? CONNECTION_FULLSPEED) eqn:Hf;
      [| destruct (speed =? CONNECTION_HIGHSPEED) eqn:Hh;
         [| destruct (speed >? CONNECTION_HIGHSPEED) eqn:Hg]];
      rewrite ?Z.gtb_ltb in *;
      rewrite ?Z.eqb_eq, ?Z.eqb_neq, ?Z.ltb_lt, ?Z.ltb_ge in *;
      eexists; (split; [reflexivity |]); (split; [tauto |]);
      (split; [split; [intros; try discriminate; lia | intros; try reflexivity; lia] |]);
      intros; try reflexivity; lia.
  - intros HF HH Hgone. destruct s as [u log]. cbn [fst] in Hgone.
    unfold getPacketSize. unfold bind at 1.
    pose proof (perform_detached libusb budget GetConnectionSpeed u log Hgone) as Hsp.
    cbn [perform] in Hsp. rewrite Hsp.
    assert (Hf : (LIBUSB_ERROR_NO_DEVICE =? CONNECTION_FULLSPEED) = false)
      by (apply Z.eqb_neq; unfold LIBUSB_ERROR_NO_DEVICE; lia).
    assert (Hh : (LIBUSB_ERROR_NO_DEVICE =? CONNECTION_HIGHSPEED) = false)
      by (apply Z.eqb_neq; unfold LIBUSB_ERROR_NO_DEVICE; lia).
    assert (Hg : (LIBUSB_ERROR_NO_DEVICE >? CONNECTION_HIGHSPEED) = false)
      by (rewrite Z.gtb_ltb; apply Z.ltb_ge; unfold LIBUSB_ERROR_NO_DEVICE; lia).
    now rewrite Hf, Hh, Hg.
Qed.

Lemma getPacketSize_outcomes_witness :
  getPacketSize (D := sample_defs) (C := sample_speeds) ready_device 3 (detached_session, [])
  = Some (Returned (-1), (detached_session, [])).
Proof.
  refine (proj2 (getPacketSize_outcomes sample_defs sample_speeds ready_device 3
                   (detached_session, [])) _ _ _).
  - cbn. lia.
  - cbn. lia.
  - reflexivity.
Defined.

(** ** A read that never ends *)

Section Spin.
Context {D : UsbDefs}.
Variable libusb : Device.

Lemma bulkReadMulti_loop_spin (L attempts : Z) (u : USBDevice) (budget : nat) :
  handle u = true -> inPacketLength u = 0 -> 0 < L ->
  0 < attempts \/ attempts = -1 -> supplies_in_full libusb -> (0 < budget)%nat ->
  forall (n : nat) (log : list Call),
    bulkReadMulti_loop libusb n budget L attempts 0 0 (u, log) = None.
Proof.
  intros Hh HP HL Hatt Hfull Hb.
  assert (Hcond : (0 <? L) && (0 =? inPacketLength u) = true).
  { rewrite HP. apply andb_true_iff. split; [now apply Z.ltb_lt | reflexivity]. }
  assert (Hmin : Z.min (uint32_t (L - 0)) (uint32_t (inPacketLength u)) = 0).
  { rewrite HP. unfold uint32_t. rewrite Z.mod_0_l by lia.
    apply Z.min_r. apply Z.mod_pos_bound. lia. }
  induction n as [| n IH]; intros log; cbn [bulkReadMulti_loop]; unfold bind at 1, this;
    cbn [fst]; rewrite Hcond; [reflexivity |].
  unfold bind at 1. rewrite Hmin.
  destruct (Hfull log 0) as [Hcode Hcount].
  rewrite bulkTransfer_supplied by assumption.
  cbn. apply IH.
Qed.

End Spin.

(** X23.  When the session has recorded no inbound packet length (it is 0,
    as [claimInterface] leaves it for an interface without an endpoint of
    the inbound address) and the device completes the empty transfers it is
    asked for, [bulkReadMulti] of one byte or more does not return: every
    transfer reports 0 bytes, which the loop takes for a full packet.  No
    budget of iterations is enough. *)
Theorem bulkReadMulti_spins (D : UsbDefs) (libusb : Device) (L attempts : Z)
    (u : USBDevice) (log : list Call) :
  handle u = true -> inPacketLength u = 0 -> 0 < L ->
  0 < attempts \/ attempts = -1 -> supplies_in_full libusb ->
  (forall budget speed s1,
     getConnectionSpeed libusb budget (u, log) = Some (speed, s1) -> 0 <= speed) ->
  forall budget, bulkReadMulti libusb budget L attempts (u, log) = None.
Proof.
  intros Hh HP HL Hatt Hfull Hspeed budget.
  unfold bulkReadMulti. unfold bind at 1, this. cbn [fst]. rewrite Hh. cbn [negb].
  unfold bind at 1.
  destruct (getConnectionSpeed libusb budget (u, log)) as [[speed [u1 log1]] |] eqn:Hsp;
    [| reflexivity].
  pose proof (Hspeed budget speed _ Hsp) as Hpos.
  destruct (getConnectionSpeed_log libusb budget u u1 log log1 speed Hh Hsp)
    as (k & tail & Hlog & _ & Hkeep).
  destruct (Hkeep Hpos) as (Hk & _ & ->).
  assert (Hs : (speed <? 0) = false) by now apply Z.ltb_ge.
  rewrite Hs. unfold bind at 1, this. cbn [fst]. unfold bind at 1. rewrite HP.
  destruct budget as [| budget].
  - cbn [bulkReadMulti_loop]. unfold bind at 1, this. cbn [fst]. rewrite HP.
    assert (Hcond : (0 <? L) && (0 =? 0) = true)
      by (apply andb_true_iff; split; [now apply Z.ltb_lt | reflexivity]).
    now rewrite Hcond.
  - rewrite bulkReadMulti_loop_spin; try assumption; [reflexivity | lia].
Qed.

Lemma bulkReadMulti_spins_witness :
  bulkReadMulti (D := sample_defs) ready_device 1000 1200 1
    (set_inPacketLength 0 connected_session, []) = None.
Proof.
  apply (bulkReadMulti_spins sample_defs ready_device 1200 1
           (set_inPacketLength 0 connected_session) []).
  - reflexivity.
  - reflexivity.
  - lia.
  - left. lia.
  - intros log n. split; reflexivity.
  - intros [| [| budget]] speed s1 Hrun; vm_compute in Hrun;
      [discriminate | injection Hrun as <- _; lia | injection Hrun as <- _; lia].
Defined.

(** ** The CSV export *)

Section CsvExport.
Import Exporter.
Context {double : Type} {QString : Type}.
Variable zero : double.

Lemma lines_from_app (l current rest : list (@Token double QString)) :
  Forall (fun t => is_newline t = false) l ->
  lines_from current (l ++ Newline :: rest) = (rev current ++ l) :: lines_from [] rest.
Proof.
  intros Hl. revert current. induction Hl as [| t l Ht _ IH]; intros current.
  - cbn. now rewrite app_nil_r.
  - cbn [app lines_from]. destruct t; try discriminate Ht; rewrite IH; cbn [rev];
      now rewrite <- app_assoc.
Qed.

Lemma names_plain (pointer : @Channel double QString -> option (@SampleValues double))
    (settings : @Channel double QString -> @ScopeChannel QString)
    (channels : list (@Channel double QString)) :
  Forall (fun t => is_newline t = false) (names pointer settings channels)
  /\ length (List.filter is_comma (names pointer settings channels))
     = length (columns pointer channels).
Proof.
  unfold names, columns. induction channels as [| ch rest [IHn IHc]]; [now split |].
  cbn [flat_map]. destruct (pointer ch); cbn [app].
  - split; [repeat constructor; exact IHn | cbn; now rewrite IHc].
  - now split.
Qed.

Lemma cells_plain (pointer : @Channel double QString -> option (@SampleValues double)) (row : nat)
    (channels : list (@Channel double QString)) :
  Forall (fun t => is_newline t = false) (cells pointer row channels)
  /\ length (List.filter is_comma (cells pointer row channels))
     = length (columns pointer channels).
Proof.
  unfold cells, columns. induction channels as [| ch rest [IHn IHc]]; [now split |].
  cbn [flat_map]. destruct (pointer ch) as [values |]; cbn [app].
  - destruct (sample values !! row); cbn [app]; split;
      try (repeat constructor; exact IHn); cbn; now rewrite IHc.
  - now split.
Qed.

Lemma longest_cons (values : @SampleValues double) (cols : list (@SampleValues double)) :
  longest (values :: cols) = Nat.max (length (sample values)) (longest cols).
Proof. reflexivity. Qed.

Lemma longest_app (cols cols' : list (@SampleValues double)) :
  longest (cols ++ cols') = Nat.max (longest cols) (longest cols').
Proof. unfold longest. now rewrite map_app, list_max_app. Qed.

Lemma columns_cons (pointer : @Channel double QString -> option (@SampleValues double))
    (ch : @Channel double QString) (rest : list (@Channel double QString)) :
  columns pointer (ch :: rest)
  = match pointer ch with Some values => [values] | None => [] end ++ columns pointer rest.
Proof. reflexivity. Qed.

(** What the first loop leaves, in terms of the exported columns. *)
Lemma scan_columns (channels : list (@Channel double QString)) (st : @Scan double) :
  let st' := fold_left scan_channel channels st in
  maxRow st'
  = Nat.max (maxRow st)
      (longest (columns voltageData channels ++ columns spectrumData channels))
  /\ isSpectrumUsed st'
     = isSpectrumUsed st || negb (Nat.eqb (length (columns spectrumData channels)) 0)
  /\ timeInterval st' = List.last (map interval (columns voltageData channels))
                          (timeInterval st)
  /\ freqInterval st' = List.last (map interval (columns spectrumData channels))
                          (freqInterval st).
Proof.
  revert st. induction channels as [| ch rest IH]; intros st; cbn zeta.
  - cbn. rewrite Nat.max_0_r, orb_false_r. auto.
  - cbn [fold_left]. destruct (IH (scan_channel st ch)) as (Hm & Hs & Ht & Hf).
    cbn zeta in Hm, Hs, Ht, Hf. rewrite Hm, Hs, Ht, Hf. clear IH Hm Hs Ht Hf.
    rewrite !columns_cons.
    set (vcols := columns voltageData rest). set (scols := columns spectrumData rest).
    unfold scan_channel, voltageData, spectrumData.
    destruct (data ch) as [d |]; [| cbn [app]; auto].
    destruct (used (voltage_settings ch)), (used (spectrum_settings ch));
      cbn [app map maxRow isSpectrumUsed timeInterval freqInterval length Nat.eqb negb];
      rewrite ?longest_cons, ?longest_app, ?longest_cons, ?last_cons_default,
        ?orb_true_r, ?orb_false_r;
      repeat split; try reflexivity; lia.
Qed.

Lemma scan_spectrum (channels : list (@Channel double QString)) :
  isSpectrumUsed (scan zero channels)
  = match columns spectrumData channels with [] => false | _ :: _ => true end.
Proof.
  unfold scan.
  destruct (scan_columns channels (mkScan 0 false zero zero)) as (_ & Hs & _).
  cbn zeta in Hs. rewrite Hs. cbn [isSpectrumUsed orb].
  now destruct (columns spectrumData channels).
Qed.

Lemma header_body_plain (channels : list (@Channel double QString)) :
  Forall (fun t => is_newline t = false) (header_body zero channels)
  /\ fields (header_body zero channels) = width channels.
Proof.
  unfold header_body, fields, width.
  destruct (names_plain voltageData voltage_settings channels) as [Hvn Hvc].
  destruct (names_plain spectrumData spectrum_settings channels) as [Hsn Hsc].
  rewrite scan_spectrum.
  destruct (columns spectrumData channels) as [| values scols]; split.
  - repeat (apply Forall_app; split); try assumption; repeat constructor.
  - rewrite !List.filter_app, !length_app, Hvc. cbn. lia.
  - repeat (apply Forall_app; split); try assumption; repeat constructor.
  - rewrite !List.filter_app, !length_app, Hvc, Hsc. cbn. lia.
Qed.

Lemma line_body_plain (channels : list (@Channel double QString)) (row : nat) :
  Forall (fun t => is_newline t = false) (line_body zero channels row)
  /\ fields (line_body zero channels row) = width channels.
Proof.
  unfold line_body, fields, width.
  destruct (cells_plain voltageData row channels) as [Hvn Hvc].
  destruct (cells_plain spectrumData row channels) as [Hsn Hsc].
  rewrite scan_spectrum.
  destruct (columns spectrumData channels) as [| values scols]; split.
  - repeat (apply Forall_app; split); try assumption; repeat constructor.
  - rewrite !List.filter_app, !length_app, Hvc. cbn. lia.
  - repeat (apply Forall_app; split); try assumption; repeat constructor.
  - rewrite !List.filter_app, !length_app, Hvc, Hsc. cbn. lia.
Qed.

Lemma lines_rows (channels : list (@Channel double QString)) (rows : list nat) :
  lines (flat_map (line zero channels) rows) = map (line_body zero channels) rows.
Proof.
  unfold lines. induction rows as [| row rows IH]; [reflexivity |].
  cbn [flat_map map].
  replace (line zero channels row) with (line_body zero channels row ++ [Newline])
    by (unfold line, line_body; now rewrite <- !app_assoc).
  rewrite <- app_assoc. cbn [app].
  rewrite lines_from_app by apply line_body_plain. now rewrite IH.
Qed.

Lemma lines_exportCVS (channels : list (@Channel double QString)) :
  lines (snd (exportCVS zero true channels))
  = header_body zero channels
    :: map (line_body zero channels) (seq 0 (maxRow (scan zero channels))).
Proof.
  cbn [exportCVS negb snd].
  replace (header zero channels) with (header_body zero channels ++ [Newline])
    by (unfold header, header_body; now rewrite <- !app_assoc).
  rewrite <- app_assoc. cbn [app]. unfold lines at 1.
  rewrite lines_from_app by apply header_body_plain.
  cbn [rev app]. f_equal. apply lines_rows.
Qed.

End CsvExport.

(** ** The characters of the exported file *)

Section CsvText.
Import Exporter.
Context {double : Type} {QString : Type}.
Variable zero : double.
Variable print : double -> list Z.
Variable times : double -> nat -> double.
Variable chars : QString -> list Z.

Lemma text_app (l l' : list (@Token double QString)) :
  text print times chars (l ++ l') = text print times chars l ++ text print times chars l'.
Proof. apply flat_map_app. Qed.

Lemma text_cons (t : @Token double QString) (l : list (@Token double QString)) :
  text print times chars (t :: l) = token_text print times chars t ++ text print times chars l.
Proof. reflexivity. Qed.

Lemma free_of_app (c : Z) (a b : list Z) :
  free_of c a -> free_of c b -> free_of c (a ++ b).
Proof. intros Ha Hb. apply Forall_app. now split. Qed.

Lemma free_of_one (c c' : Z) : c' <> c -> free_of c [c'].
Proof. intros H. now repeat constructor. Qed.

Lemma text_lines_from_app (part current rest : list Z) :
  free_of newline part ->
  text_lines_from current (part ++ newline :: rest)
  = (rev current ++ part) :: text_lines_from [] rest.
Proof.
  intros Hpart. revert current. induction Hpart as [| c part Hc _ IH]; intros current.
  - cbn [app text_lines_from]. now rewrite Z.eqb_refl, app_nil_r.
  - cbn [app text_lines_from]. apply Z.eqb_neq in Hc. rewrite Hc, IH. cbn [rev].
    now rewrite <- app_assoc.
Qed.

Lemma commas_app (a b : list Z) : (commas (a ++ b) = commas a + commas b)%nat.
Proof. unfold commas. now rewrite List.filter_app, length_app. Qed.

Lemma commas_free (part : list Z) : free_of comma part -> commas part = 0%nat.
Proof.
  unfold commas. induction 1 as [| c part Hc _ IH]; [reflexivity |].
  cbn [List.filter]. apply Z.eqb_neq in Hc. now rewrite Hc.
Qed.

(** *** A reader of quoted fields *)

Lemma option_map_add (k k' : nat) (x : option nat) :
  option_map (Nat.add k) (option_map (Nat.add k') x) = option_map (Nat.add (k + k')) x.
Proof. destruct x; cbn; [f_equal; lia | reflexivity]. Qed.

Lemma adds_fields_nil : adds_fields 0 [].
Proof. intros rest. cbn [app]. now destruct (quoted_fields_from false rest). Qed.

Lemma adds_fields_app (k k' : nat) (a b : list Z) :
  adds_fields k a -> adds_fields k' b -> adds_fields (k + k') (a ++ b).
Proof.
  intros Ha Hb rest. rewrite <- app_assoc, Ha, Hb. apply option_map_add.
Qed.

Lemma quoted_fields_outside (part rest : list Z) :
  free_of quote part -> free_of comma part ->
  quoted_fields_from false (part ++ rest) = quoted_fields_from false rest.
Proof.
  intros Hq Hc. induction Hq as [| c part Hcq _ IH]; [reflexivity |].
  apply Forall_cons in Hc as [Hcc Hc]. cbn [app quoted_fields_from].
  apply Z.eqb_neq in Hcq, Hcc. rewrite Hcq, Hcc. cbn [andb]. now apply IH.
Qed.

Lemma quoted_fields_inside (part rest : list Z) :
  free_of quote part ->
  quoted_fields_from true (part ++ rest) = quoted_fields_from true rest.
Proof.
  intros Hq. induction Hq as [| c part Hcq _ IH]; [reflexivity |].
  cbn [app quoted_fields_from]. apply Z.eqb_neq in Hcq. rewrite Hcq.
  cbn [negb]. rewrite andb_false_r. apply IH.
Qed.

Lemma adds_fields_plain (part : list Z) :
  free_of quote part -> free_of comma part -> adds_fields 0 part.
Proof.
  intros Hq Hc rest. rewrite quoted_fields_outside by assumption.
  now destruct (quoted_fields_from false rest).
Qed.

Lemma adds_fields_comma : adds_fields 1 [comma].
Proof. intros rest. reflexivity. Qed.

Lemma adds_fields_quoted (part : list Z) :
  free_of quote part -> adds_fields 0 (quote :: part ++ [quote]).
Proof.
  intros Hq rest. cbn [app quoted_fields_from]. rewrite Z.eqb_refl. cbn [negb].
  rewrite <- app_assoc, quoted_fields_inside by assumption.
  cbn [app quoted_fields_from]. rewrite Z.eqb_refl. cbn [negb].
  now destruct (quoted_fields_from false rest).
Qed.

Lemma adds_fields_name (k : nat) (part rest : list Z) :
  free_of quote part -> adds_fields k rest ->
  adds_fields k ([quote] ++ part ++ [quote] ++ rest).
Proof.
  intros Hq Hrest.
  replace ([quote] ++ part ++ [quote] ++ rest) with ((quote :: part ++ [quote]) ++ rest)
    by (cbn [app]; now rewrite <- app_assoc).
  apply (adds_fields_app 0); [now apply adds_fields_quoted | assumption].
Qed.

Lemma adds_fields_total (k : nat) (part : list Z) :
  adds_fields k part -> quoted_fields part = Some (S k).
Proof.
  intros H. unfold quoted_fields. rewrite <- (app_nil_r part), H.
  cbn. f_equal. lia.
Qed.

(** *** The pieces of a line *)

Lemma columns_names (pointer : @Channel double QString -> option (@SampleValues double))
    (settings : @Channel double QString -> @ScopeChannel QString)
    (channels : list (@Channel double QString)) :
  length (exported_names pointer settings channels) = length (columns pointer channels).
Proof.
  unfold exported_names, columns. induction channels as [| ch rest IH]; [reflexivity |].
  cbn [flat_map]. rewrite !length_app, IH. now destruct (pointer ch).
Qed.

Lemma names_text (pointer : @Channel double QString -> option (@SampleValues double))
    (settings : @Channel double QString -> @ScopeChannel QString)
    (channels : list (@Channel double QString)) :
  (Forall (fun n => free_of newline (chars n)) (exported_names pointer settings channels) ->
   free_of newline (text print times chars (names pointer settings channels)))
  /\ (commas (text print times chars (names pointer settings channels))
      = length (columns pointer channels)
        + name_commas chars (exported_names pointer settings channels))%nat
  /\ (Forall (fun n => free_of quote (chars n)) (exported_names pointer settings channels) ->
      adds_fields (length (columns pointer channels))
                  (text print times chars (names pointer settings channels))).
Proof.
  unfold names, exported_names, columns, name_commas.
  induction channels as [| ch rest (IHn & IHc & IHq)].
  - repeat split; intros; [constructor | apply adds_fields_nil].
  - cbn [flat_map]. destruct (pointer ch) as [values |]; cbn [app]; [| now repeat split].
    rewrite !text_cons. cbn [token_text map length].
    repeat split.
    + intros Hn. apply Forall_cons in Hn as [Hn Hrest].
      repeat apply free_of_app; try (apply free_of_one; discriminate); auto.
    + rewrite !commas_app, IHc.
      change (commas [comma]) with 1%nat. change (commas [quote]) with 0%nat.
      change (list_sum (?a :: ?l)) with (a + list_sum l)%nat. lia.
    + intros Hq. apply Forall_cons in Hq as [Hq Hrest].
      change (S (length (flat_map
                (fun ch0 => match pointer ch0 with Some v => [v] | None => [] end) rest)))
        with (1 + length (flat_map
                (fun ch0 => match pointer ch0 with Some v => [v] | None => [] end) rest))%nat.
      apply adds_fields_app; [apply adds_fields_comma |].
      apply adds_fields_name; auto.
Qed.

Lemma cells_text (pointer : @Channel double QString -> option (@SampleValues double))
    (row : nat) (channels : list (@Channel double QString)) :
  plain_numbers print ->
  free_of newline (text print times chars (cells pointer row channels))
  /\ commas (text print times chars (cells pointer row channels))
     = length (columns pointer channels)
  /\ adds_fields (length (columns pointer channels))
                 (text print times chars (cells pointer row channels)).
Proof.
  intros Hprint. unfold cells, columns.
  induction channels as [| ch rest (IHn & IHc & IHq)].
  - repeat split; [constructor | apply adds_fields_nil].
  - cbn [flat_map]. destruct (pointer ch) as [values |]; cbn [app]; [| now repeat split].
    rewrite text_cons, text_app. cbn [token_text length].
    assert (free_of quote (text print times chars
                             match sample values !! row with Some x => [Number x] | None => [] end)
            /\ free_of comma (text print times chars
                             match sample values !! row with Some x => [Number x] | None => [] end)
            /\ free_of newline (text print times chars
                             match sample values !! row with Some x => [Number x] | None => [] end))
      as (Hq & Hc & Hn).
    { destruct (sample values !! row) as [x |]; [| repeat split; constructor].
      cbn [text flat_map token_text]. rewrite app_nil_r. apply Hprint. }
    repeat split.
    + repeat apply free_of_app; try (apply free_of_one; discriminate); auto.
    + rewrite !commas_app, IHc, (commas_free _ Hc). reflexivity.
    + change (S (length (flat_map
                (fun ch0 => match pointer ch0 with Some v => [v] | None => [] end) rest)))
        with (1 + (0 + length (flat_map
                (fun ch0 => match pointer ch0 with Some v => [v] | None => [] end) rest)))%nat.
      apply adds_fields_app; [apply adds_fields_comma |].
      apply adds_fields_app; [| auto]. now apply adds_fields_plain.
Qed.

Lemma header_names_split (channels : list (@Channel double QString)) (P : QString -> Prop) :
  Forall P (header_names channels) ->
  Forall P (exported_names voltageData voltage_settings channels)
  /\ Forall P (exported_names spectrumData spectrum_settings channels).
Proof. intros H. now apply Forall_app in H. Qed.

Lemma name_commas_app (ns ns' : list QString) :
  (name_commas chars (ns ++ ns') = name_commas chars ns + name_commas chars ns')%nat.
Proof. unfold name_commas. now rewrite map_app, list_sum_app. Qed.

Lemma name_commas_free (ns : list QString) :
  Forall (fun n => free_of comma (chars n)) ns -> name_commas chars ns = 0%nat.
Proof.
  unfold name_commas. induction 1 as [| n ns Hn _ IH]; [reflexivity |].
  cbn [map]. change (list_sum (?a :: ?l)) with (a + list_sum l)%nat.
  now rewrite IH, (commas_free _ Hn).
Qed.

Lemma exported_names_nil (pointer : @Channel double QString -> option (@SampleValues double))
    (settings : @Channel double QString -> @ScopeChannel QString)
    (channels : list (@Channel double QString)) :
  columns pointer channels = [] -> exported_names pointer settings channels = [].
Proof.
  intros H. apply length_zero_iff_nil. rewrite columns_names, H. reflexivity.
Qed.

(** The header without its newline. *)
Lemma header_body_text (channels : list (@Channel double QString)) :
  let head := text print times chars (header_body zero channels) in
  (Forall (fun n => free_of newline (chars n)) (header_names channels) ->
   free_of newline head)
  /\ (text_fields head = width channels + name_commas chars (header_names channels))%nat
  /\ (Forall (fun n => free_of quote (chars n)) (header_names channels) ->
      quoted_fields head = Some (width channels)).
Proof.
  cbn zeta. unfold header_body, text_fields, width, header_names.
  destruct (names_text voltageData voltage_settings channels) as (Hvn & Hvc & Hvq).
  destruct (names_text spectrumData spectrum_settings channels) as (Hsn & Hsc & Hsq).
  rewrite scan_spectrum, name_commas_app.
  pose proof (exported_names_nil spectrumData spectrum_settings channels) as Hnil.
  destruct (columns spectrumData channels) as [| values scols].
  - rewrite Hnil by reflexivity. rewrite app_nil_r. repeat split.
    + intros Hn. rewrite !text_app. repeat apply free_of_app; auto;
        try (apply free_of_one; discriminate); constructor.
    + rewrite !text_app, !commas_app, Hvc. cbn. lia.
    + intros Hq. rewrite Nat.add_0_r. apply adds_fields_total.
      rewrite !text_app.
      change (length (columns voltageData channels))
        with (0 + length (columns voltageData channels))%nat.
      apply adds_fields_app.
      * apply (adds_fields_quoted [letter_t]). apply free_of_one. discriminate.
      * rewrite <- (Nat.add_0_r (length _)).
        apply adds_fields_app; [auto | apply adds_fields_nil].
  - clear Hnil. repeat split.
    + intros Hn. apply Forall_app in Hn as [Hv Hs]. rewrite !text_app.
      repeat apply free_of_app; auto;
        try (apply free_of_one; discriminate); constructor.
    + rewrite !text_app, !commas_app, Hvc, Hsc. cbn. lia.
    + intros Hq. apply Forall_app in Hq as [Hv Hs].
      replace (S (length (columns voltageData channels)) + S (length (values :: scols)))%nat
        with (S (0 + (length (columns voltageData channels)
                      + (1 + (0 + length (values :: scols))))))%nat by lia.
      apply adds_fields_total. rewrite !text_app.
      apply adds_fields_app.
      * apply (adds_fields_quoted [letter_t]). apply free_of_one. discriminate.
      * apply adds_fields_app; [auto |].
        apply (adds_fields_app 1 _ [comma]); [apply adds_fields_comma |].
        apply (adds_fields_app 0 _ [quote; letter_f; quote]); [| auto].
        apply (adds_fields_quoted [letter_f]). apply free_of_one. discriminate.
Qed.

(** A line of samples without its newline. *)
Lemma line_body_text (channels : list (@Channel double QString)) (row : nat) :
  plain_numbers print ->
  let line := text print times chars (line_body zero channels row) in
  free_of newline line
  /\ text_fields line = width channels
  /\ quoted_fields line = Some (width channels).
Proof.
  intros Hprint. cbn zeta. unfold line_body, text_fields, width.
  destruct (cells_text voltageData row channels Hprint) as (Hvn & Hvc & Hvq).
  destruct (cells_text spectrumData row channels Hprint) as (Hsn & Hsc & Hsq).
  rewrite scan_spectrum.
  destruct (columns spectrumData channels) as [| values scols].
  - rewrite app_nil_r, text_app. cbn [text flat_map token_text] in *.
    rewrite app_nil_r.
    destruct (Hprint (times (timeInterval (scan zero channels)) row)) as (Hq & Hc & Hn).
    repeat split.
    + now apply free_of_app.
    + rewrite commas_app, (commas_free _ Hc), Hvc. lia.
    + rewrite Nat.add_0_r. apply adds_fields_total.
      apply (adds_fields_app 0); [now apply adds_fields_plain | assumption].
  - rewrite !text_app. cbn [text flat_map token_text] in *. rewrite !app_nil_r.
    destruct (Hprint (times (timeInterval (scan zero channels)) row)) as (Hq & Hc & Hn).
    destruct (Hprint (times (freqInterval (scan zero channels)) row)) as (Hq' & Hc' & Hn').
    repeat split.
    + repeat apply free_of_app; auto. apply free_of_one. discriminate.
    + rewrite !commas_app, (commas_free _ Hc), (commas_free _ Hc'), Hvc, Hsc. cbn. lia.
    + replace (S (length (columns voltageData channels)) + S (length (values :: scols)))%nat
        with (S (0 + (length (columns voltageData channels)
                      + (1 + (0 + length (values :: scols))))))%nat by lia.
      apply adds_fields_total.
      apply adds_fields_app; [now apply adds_fields_plain |].
      apply adds_fields_app; [assumption |].
      rewrite <- app_assoc.
      apply (adds_fields_app 1 _ [comma]); [apply adds_fields_comma |].
      apply adds_fields_app; [now apply adds_fields_plain | assumption].
Qed.

Lemma text_lines_rows (channels : list (@Channel double QString)) (rows : list nat) :
  plain_numbers print ->
  text_lines (text print times chars (flat_map (line zero channels) rows))
  = map (fun row => text print times chars (line_body zero channels row)) rows.
Proof.
  intros Hprint. unfold text_lines. induction rows as [| row rows IH]; [reflexivity |].
  cbn [flat_map map].
  replace (line zero channels row) with (line_body zero channels row ++ [Newline])
    by (unfold line, line_body; now rewrite <- !app_assoc).
  rewrite !text_app, <- app_assoc.
  change (text print times chars [Newline] ++ ?rest) with (newline :: rest).
  rewrite text_lines_from_app by now apply line_body_text.
  now rewrite IH.
Qed.

Lemma text_lines_exportCVS (channels : list (@Channel double QString)) :
  plain_numbers print ->
  Forall (fun n => free_of newline (chars n)) (header_names channels) ->
  text_lines (text print times chars (snd (exportCVS zero true channels)))
  = text print times chars (header_body zero channels)
    :: map (fun row => text print times chars (line_body zero channels row))
           (seq 0 (maxRow (scan zero channels))).
Proof.
  intros Hprint Hnames. cbn [exportCVS negb snd].
  replace (header zero channels) with (header_body zero channels ++ [Newline])
    by (unfold header, header_body; now rewrite <- !app_assoc).
  rewrite !text_app, <- app_assoc.
  change (text print times chars [Newline] ++ ?rest) with (newline :: rest).
  unfold text_lines at 1.
  rewrite text_lines_from_app by now apply header_body_text.
  cbn [rev app]. f_equal. now apply text_lines_rows.
Qed.

End CsvText.

(** X24.  The characters that [exportCVS] writes, when no exported name
    holds a newline and a printed number holds no quote, comma or newline,
    are a header line and one line for every sample index up to the number
    of samples of the longest exported column.  Every line of samples has
    the fields of the table, whether it is split at every comma or read
    with quoted fields: one for the time, one for each exported voltage
    column and, when a spectrum column is exported, one for the frequency
    and one for each spectrum column; a column with fewer samples is filled
    with empty fields.  The names go into the header unescaped: split at
    every comma the header has one more field for each comma inside an
    exported name, so that it has the fields of the table when no exported
    name holds a comma; read with quoted fields it has them when no
    exported name holds a quote.  When the file cannot be opened nothing
    is written and [false] is returned. *)
Theorem exportCVS_table (double QString : Type) (zero : double)
    (print : double -> list Z) (times : double -> nat -> double) (chars : QString -> list Z)
    (channels : list (Exporter.Channel (double := double) (QString := QString))) :
  Exporter.plain_numbers print ->
  Forall (fun n => Exporter.free_of Exporter.newline (chars n))
         (Exporter.header_names channels) ->
  let out := Exporter.exportCVS zero true channels in
  let rows := Exporter.longest (Exporter.columns Exporter.voltageData channels
                                ++ Exporter.columns Exporter.spectrumData channels) in
  let head := Exporter.text print times chars (Exporter.header_body zero channels) in
  let body := map (fun row => Exporter.text print times chars
                                (Exporter.line_body zero channels row)) (seq 0 rows) in
  fst out = true
  /\ Exporter.text_lines (Exporter.text print times chars (snd out)) = head :: body
  /\ length body = rows
  /\ Forall (fun line => Exporter.text_fields line = Exporter.width channels
                         /\ Exporter.quoted_fields line = Some (Exporter.width channels)) body
  /\ Exporter.text_fields head
     = (Exporter.width channels
        + Exporter.name_commas chars (Exporter.header_names channels))%nat
  /\ (Forall (fun n => Exporter.free_of Exporter.comma (chars n))
             (Exporter.header_names channels) ->
      Exporter.text_fields head = Exporter.width channels)
  /\ (Forall (fun n => Exporter.free_of Exporter.quote (chars n))
             (Exporter.header_names channels) ->
      Exporter.quoted_fields head = Some (Exporter.width channels))
  /\ Exporter.exportCVS zero false channels = (false, []).
Proof.
  intros Hprint Hnames. cbn zeta.
  destruct (scan_columns channels (Exporter.mkScan 0 false zero zero)) as (Hm & _).
  cbn zeta in Hm. cbn [Exporter.maxRow Nat.max] in Hm. fold (Exporter.scan zero channels) in Hm.
  destruct (header_body_text zero print times chars channels) as (_ & Hfields & Hquoted).
  cbn zeta in Hfields, Hquoted.
  split; [reflexivity |]. split; [| split; [| split; [| split; [| split; [| split]]]]].
  - rewrite (text_lines_exportCVS zero print times chars channels Hprint Hnames).
    now rewrite Hm.
  - now rewrite length_map, length_seq.
  - apply Forall_forall. intros line Hline. apply list_elem_of_In, in_map_iff in Hline.
    destruct Hline as (row & <- & _).
    now destruct (line_body_text zero print times chars channels row Hprint) as (_ & Hf & Hq).
  - exact Hfields.
  - intros Hcomma. rewrite Hfields.
    rewrite (name_commas_free chars _ Hcomma). lia.
  - exact Hquoted.
  - reflexivity.
Qed.

(** An instance: one exported voltage column of two samples whose name,
    [a,b], holds a comma.  The numbers are integers, printed by their last
    digit.  Split at every comma the header has three fields, one more than
    the two of the table. *)
Lemma exportCVS_table_witness :
  Exporter.text_fields
    (Exporter.text (fun x : Z => [48 + Z.abs x mod 10]) (fun x row => x * Z.of_nat row)
       (fun n : list Z => n)
       (Exporter.header_body 0
          [ {| Exporter.voltage_settings := {| Exporter.used := true;
                                               Exporter.name := [97; 44; 98] |};
               Exporter.spectrum_settings := {| Exporter.used := false;
                                                Exporter.name := [99] |};
               Exporter.data :=
                 Some {| Exporter.voltage := {| Exporter.sample := [10; 20];
                                                Exporter.interval := 5 |};
                         Exporter.spectrum := {| Exporter.sample := [];
                                                 Exporter.interval := 7 |} |} |} ]))
  = 3%nat.
Proof.
  refine (proj1 (proj2 (proj2 (proj2 (proj2
            (exportCVS_table Z (list Z) 0 (fun x : Z => [48 + Z.abs x mod 10])
               (fun x row => x * Z.of_nat row) (fun n : list Z => n) _ _ _)))))).
  - intros x. pose proof (Z.mod_pos_bound (Z.abs x) 10 ltac:(lia)).
    unfold Exporter.free_of, Exporter.quote, Exporter.comma, Exporter.newline.
    repeat split; repeat constructor; lia.
  - vm_compute. repeat constructor; discriminate.
Defined.

(** X25.  Every line of the table starts with the time of its row: the
    row index scaled by the interval of the last exported voltage column,
    or by zero when no voltage column is exported.  The intervals of the
    other voltage columns do not reach the file. *)
Theorem exportCVS_time_column (double QString : Type) (zero : double)
    (channels : list (Exporter.Channel (double := double) (QString := QString)))
    (row : nat) :
  let out := Exporter.exportCVS zero true channels in
  let voltages := Exporter.columns Exporter.voltageData channels in
  (row < Exporter.longest (voltages ++ Exporter.columns Exporter.spectrumData channels))%nat ->
  exists rest,
    Exporter.lines (snd out) !! S row
    = Some (Exporter.Scaled (List.last (map Exporter.interval voltages) zero) row :: rest).
Proof.
  cbn zeta. intros Hrow. rewrite lines_exportCVS.
  destruct (scan_columns channels (Exporter.mkScan 0 false zero zero))
    as (Hm & _ & Ht & _).
  cbn zeta in Hm, Ht. cbn [Exporter.maxRow Exporter.timeInterval Nat.max] in Hm, Ht.
  fold (Exporter.scan zero channels) in Hm, Ht.
  change (map (Exporter.line_body zero channels)
            (seq 0 (Exporter.maxRow (Exporter.scan zero channels))))
    with (Exporter.line_body zero channels
            <$> seq 0 (Exporter.maxRow (Exporter.scan zero channels))).
  change ((?h :: ?t) !! S row) with (t !! row).
  rewrite list_lookup_fmap.
  rewrite lookup_seq_lt by now rewrite Hm. cbn [fmap option_fmap option_map].
  unfold Exporter.line_body at 1. rewrite Ht. cbn [app]. eauto.
Qed.

Lemma exportCVS_time_column_witness :
  exists rest,
    Exporter.lines
      (snd (Exporter.exportCVS 0 true
              [ {| Exporter.voltage_settings := {| Exporter.used := true; Exporter.name := 1 |};
                   Exporter.spectrum_settings := {| Exporter.used := false; Exporter.name := 2 |};
                   Exporter.data :=
                     Some {| Exporter.voltage := {| Exporter.sample := [10; 20];
                                                    Exporter.interval := 5 |};
                             Exporter.spectrum := {| Exporter.sample := [];
                                                     Exporter.interval := 7 |} |} |} ]))
    !! 2%nat
    = Some (Exporter.Scaled 5 1 :: rest).
Proof.
  refine (exportCVS_time_column Z Z 0 _ 1 _).
  cbn. lia.
Defined.
